(** * TempEval multi-file visualisation: a shallow embedding of [visualize_all.py]

    The script reads TimeML ([.tml]) files, extracts events, time expressions
    and temporal links from each of them, and emits one HTML page with a tab
    per file.  This development embeds the Python code as Rocq functions:

    - a Python [str] is a [string] (one [ascii] per character), [None] is the
      [None] of an [option];
    - a Python [dict] is an association list in insertion order, updated in
      place when the key is already present (module [Py]);
    - an [xml.etree.ElementTree] element is the rose tree [Element];
    - file reads, [print] and the final write are threaded through a small
      state monad [IO] over a [World] (a file system and an event log).

    Code living outside the script (the XML parser, the UTF-8 codec, [json],
    [pathlib]) and the two large static blobs of the template (the style sheet
    and the client-side script) are variables of the section [Program]. *)

From Stdlib Require Import String Ascii List Arith Bool Lia DecimalString
  Permutation ZArith Sorted.
Import ListNotations.

Open Scope string_scope.
Open Scope list_scope.

Infix "+++" := String.append (right associativity, at level 60).

(* ================================================================== *)
(** ** Python values *)

Module Py.

(** Truth value of an [Optional[str]]: [None] and the empty string are
    false. *)
Definition truthy (o : option string) : bool :=
  match o with
  | Some (String _ _) => true
  | _ => false
  end.

(** [a or b]. *)
Definition or_ (a b : option string) : option string :=
  if truthy a then a else b.

(** [f"{x}"] for an [Optional[str]]. *)
Definition fmt (o : option string) : string :=
  match o with
  | Some s => s
  | None => "None"
  end.

(** [f"{n}"] for a non-negative [int]. *)
Definition str_of_nat (n : nat) : string :=
  NilEmpty.string_of_uint (Nat.to_uint n).

(** [sep.join(l)]. *)
Definition join (sep : string) (l : list string) : string :=
  String.concat sep l.

(** [s[:n]]. *)
Definition take (n : nat) (s : string) : string := substring 0 n s.

Definition option_eqb (a b : option string) : bool :=
  match a, b with
  | Some x, Some y => String.eqb x y
  | None, None => true
  | _, _ => false
  end.

(** The characters [str.strip()] removes, among the first 256 code
    points: 9 to 13, 28 to 32, U+0085 and U+00A0. *)
Definition isspace (c : ascii) : bool :=
  let n := nat_of_ascii c in
  (Nat.leb 9 n && Nat.leb n 13) || (Nat.leb 28 n && Nat.leb n 32)
  || Nat.eqb n 133 || Nat.eqb n 160.

Fixpoint lstrip (s : string) : string :=
  match s with
  | String c r => if isspace c then lstrip r else s
  | EmptyString => EmptyString
  end.

Fixpoint rstrip (s : string) : string :=
  match s with
  | String c r =>
      match rstrip r with
      | EmptyString => if isspace c then EmptyString else String c EmptyString
      | r' => String c r'
      end
  | EmptyString => EmptyString
  end.

Definition strip (s : string) : string := rstrip (lstrip s).

(** *** Dictionaries

    Insertion-ordered: [d[k] = v] replaces the value where [k] already
    stands and appends a new item otherwise. *)
Section Dict.
Context {K V : Type}.
Variable eqb : K -> K -> bool.

Fixpoint dict_set (d : list (K * V)) (k : K) (v : V) : list (K * V) :=
  match d with
  | [] => [(k, v)]
  | (k', v') :: r =>
      if eqb k' k then (k', v) :: r else (k', v') :: dict_set r k v
  end.

Fixpoint dict_get (d : list (K * V)) (k : K) : option V :=
  match d with
  | [] => None
  | (k', v') :: r => if eqb k' k then Some v' else dict_get r k
  end.

Definition dict_mem (d : list (K * V)) (k : K) : bool :=
  match dict_get d k with Some _ => true | None => false end.

Definition keys (d : list (K * V)) : list K := map fst d.
End Dict.

(** *** Sets of strings

    [set.add] on a duplicate-free list, [sorted] by insertion sort on the
    code-point order. *)
Fixpoint set_add (s : list string) (x : string) : list string :=
  match s with
  | [] => [x]
  | y :: r => if String.eqb y x then s else y :: set_add r x
  end.

Fixpoint insert_sorted (x : string) (l : list string) : list string :=
  match l with
  | [] => [x]
  | y :: r => if String.leb x y then x :: l else y :: insert_sorted x r
  end.

Definition sorted (s : list string) : list string :=
  fold_right insert_sorted [] s.

End Py.

(* ================================================================== *)
(** ** ElementTree *)

#[warnings="-register-all"]
Inductive Element : Type :=
  Elem (tag : string) (attrib : list (string * string))
       (text tail : option string) (children : list Element).

Module ET.

Definition tag (e : Element) : string :=
  match e with Elem t _ _ _ _ => t end.
Definition attrib (e : Element) : list (string * string) :=
  match e with Elem _ a _ _ _ => a end.
Definition text (e : Element) : option string :=
  match e with Elem _ _ x _ _ => x end.
Definition tail (e : Element) : option string :=
  match e with Elem _ _ _ x _ => x end.
Definition children (e : Element) : list Element :=
  match e with Elem _ _ _ _ c => c end.

(** [elem.get(key)]. *)
Definition get (e : Element) (key : string) : option string :=
  Py.dict_get String.eqb (attrib e) key.

(** [elem.iter()]: the element and its descendants in document order. *)
Fixpoint iter (e : Element) : list Element :=
  match e with
  | Elem _ _ _ _ cs => e :: flat_map iter cs
  end.

(** [root.findall('.//TAG')]: the proper descendants of [root] with that
    tag, in document order. *)
Definition findall (root : Element) (t : string) : list Element :=
  filter (fun e => String.eqb (tag e) t) (flat_map iter (children root)).

(** [elem.text or '']. *)
Definition text_or_empty (e : Element) : string :=
  match Py.or_ (text e) (Some "") with Some s => s | None => "" end.

End ET.

(* ================================================================== *)
(** ** The three record types of the parser *)

Record Event := mkEvent {
  ev_text : string;
  ev_class : option string;
  ev_tense : option string;
  ev_aspect : option string;
  ev_polarity : option string;
  ev_pos : option string;
  ev_stem : option string;
  ev_mainevent : option string
}.

Record Timex := mkTimex {
  tx_text : string;
  tx_type : option string;
  tx_value : option string;
  tx_functionInDocument : option string
}.

Record Tlink := mkTlink {
  lid : option string;
  relType : option string;
  eventID : option string;
  timeID : option string;
  relatedToEvent : option string;
  relatedToTime : option string;
  task : option string
}.

Definition event_of (e : Element) : Event :=
  {| ev_text := ET.text_or_empty e;
     ev_class := ET.get e "class";
     ev_tense := ET.get e "tense";
     ev_aspect := ET.get e "aspect";
     ev_polarity := ET.get e "polarity";
     ev_pos := ET.get e "pos";
     ev_stem := ET.get e "stem";
     ev_mainevent := ET.get e "mainevent" |}.

Definition timex_of (e : Element) : Timex :=
  {| tx_text := ET.text_or_empty e;
     tx_type := ET.get e "type";
     tx_value := ET.get e "value";
     tx_functionInDocument := ET.get e "functionInDocument" |}.

Definition tlink_of (e : Element) : Tlink :=
  {| lid := ET.get e "lid";
     relType := ET.get e "relType";
     eventID := ET.get e "eventID";
     timeID := ET.get e "timeID";
     relatedToEvent := ET.get e "relatedToEvent";
     relatedToTime := ET.get e "relatedToTime";
     task := ET.get e "task" |}.

(** Keys of [events], [timexes] and [node_ids] are [eid]/[tid] attributes, so
    they may be [None]. *)
Definition Key := option string.

Definition kset {V : Type} := @Py.dict_set Key V Py.option_eqb.
Definition kget {V : Type} := @Py.dict_get Key V Py.option_eqb.

(* ================================================================== *)
(** ** [TempEvalParser]: the object state and its pure methods *)

Record TempEvalParser := mkParser {
  filepath : string;
  events : list (Key * Event);
  timexes : list (Key * Timex);
  tlinks : list Tlink;
  sentences : list string;
  raw_xml : option string
}.

(** The double quote of the markup is written as a backquote in the literals
    below; [q] puts the quotes back. *)
Definition dquote : ascii := ascii_of_nat 34.

Fixpoint q (s : string) : string :=
  match s with
  | String c r => String (if Ascii.eqb c "`"%char then dquote else c) (q r)
  | EmptyString => EmptyString
  end.

Definition LF : string := String (ascii_of_nat 10) EmptyString.

Section Sentence.
Variable self : TempEvalParser.

(** [self.events.get(eid, {}).get('class', '')]. *)
Definition class_of (eid : Key) : option string :=
  match kget (events self) eid with
  | Some ev => ev_class ev
  | None => Some ""
  end.

(** [self.timexes.get(tid, {}).get('value', '')]. *)
Definition value_of (tid : Key) : option string :=
  match kget (timexes self) tid with
  | Some tx => tx_value tx
  | None => Some ""
  end.

Definition event_span (child : Element) : list string :=
  let eid := ET.get child "eid" in
  let text := ET.text_or_empty child in
  let event_class := class_of eid in
  let title := "ID: " +++ Py.fmt eid +++ ", Class: " +++ Py.fmt event_class in
  [ q "<span class=`event` data-id=`" +++ Py.fmt eid +++ q "` title=`"
      +++ title +++ q "`>" +++ text +++ "</span>";
    q "<span class=`event-id`>[" +++ Py.fmt eid +++ "]</span>" ].

Definition timex_span (child : Element) : list string :=
  let tid := ET.get child "tid" in
  let text := ET.text_or_empty child in
  let timex_value := value_of tid in
  let title := "ID: " +++ Py.fmt tid +++ ", Value: " +++ Py.fmt timex_value in
  [ q "<span class=`timex` data-id=`" +++ Py.fmt tid +++ q "` title=`"
      +++ title +++ q "`>" +++ text +++ "</span>";
    q "<span class=`timex-id`>[" +++ Py.fmt tid +++ "]</span>" ].

(** What one iteration of the loop over the children appends to
    [result]. *)
Definition render_child (child : Element) : list string :=
  (if String.eqb (ET.tag child) "EVENT" then event_span child
   else if String.eqb (ET.tag child) "TIMEX3" then timex_span child
   else [])
  ++ (if Py.truthy (ET.tail child) then [Py.fmt (ET.tail child)] else []).

(** The list [result] before it is joined. *)
Definition sentence_parts (elem : Element) : list string :=
  fold_left (fun result child => result ++ render_child child)
    (ET.children elem)
    (if Py.truthy (ET.text elem) then [Py.fmt (ET.text elem)] else []).

Definition _render_sentence (elem : Element) : string :=
  Py.join "" (sentence_parts elem).
End Sentence.

(** The body of the [try] block of [parse_file] after [ET.parse] returned
    [root]: the four loops. *)
Definition extract (root : Element) (self : TempEvalParser) : TempEvalParser :=
  let events' :=
    fold_left (fun d event => kset d (ET.get event "eid") (event_of event))
      (ET.findall root "EVENT") (events self) in
  let timexes' :=
    fold_left (fun d timex => kset d (ET.get timex "tid") (timex_of timex))
      (ET.findall root "TIMEX3") (timexes self) in
  let tlinks' :=
    fold_left (fun l tlink => l ++ [tlink_of tlink])
      (ET.findall root "TLINK") (tlinks self) in
  let self' :=
    {| filepath := filepath self; events := events'; timexes := timexes';
       tlinks := tlinks'; sentences := sentences self;
       raw_xml := raw_xml self |} in
  let sentences' :=
    fold_left (fun l sentence => l ++ [_render_sentence self' sentence])
      (ET.findall root "s") (sentences self) in
  {| filepath := filepath self; events := events'; timexes := timexes';
     tlinks := tlinks'; sentences := sentences';
     raw_xml := raw_xml self |}.

(** *** [get_graph_data] *)

Inductive Node : Type :=
| EventNode (id : Key) (label fullText : string) (class : option string)
| TimexNode (id : Key) (label fullText : string) (value : option string).

Definition node_id (n : Node) : Key :=
  match n with EventNode i _ _ _ | TimexNode i _ _ _ => i end.

Definition node_fullText (n : Node) : string :=
  match n with EventNode _ _ t _ | TimexNode _ _ t _ => t end.

Record Link := mkLink {
  source : nat;
  target : nat;
  relation : option string;
  sourceId : Key;
  targetId : Key
}.

Definition add_event_node (st : list Node * list (Key * nat)) (item : Key * Event)
  : list Node * list (Key * nat) :=
  let '(nodes, node_ids) := st in
  let '(eid, event) := item in
  (nodes ++ [EventNode eid (Py.take 15 (ev_text event)) (ev_text event)
                       (ev_class event)],
   kset node_ids eid (List.length nodes)).

Definition add_timex_node (st : list Node * list (Key * nat)) (item : Key * Timex)
  : list Node * list (Key * nat) :=
  let '(nodes, node_ids) := st in
  let '(tid, timex) := item in
  (nodes ++ [TimexNode tid (Py.take 15 (tx_text timex)) (tx_text timex)
                       (tx_value timex)],
   kset node_ids tid (List.length nodes)).

Definition link_src (tlink : Tlink) : Key := Py.or_ (eventID tlink) (timeID tlink).
Definition link_tgt (tlink : Tlink) : Key :=
  Py.or_ (relatedToEvent tlink) (relatedToTime tlink).

(** One iteration of the loop over [self.tlinks]; the two membership tests
    and the two subscripts of [node_ids] are the two lookups. *)
Definition add_link (node_ids : list (Key * nat)) (links : list Link) (tlink : Tlink)
  : list Link :=
  let src := link_src tlink in
  let tgt := link_tgt tlink in
  if Py.truthy src && Py.truthy tgt then
    match kget node_ids src, kget node_ids tgt with
    | Some i, Some j =>
        links ++ [ {| source := i; target := j; relation := relType tlink;
                      sourceId := src; targetId := tgt |} ]
    | _, _ => links
    end
  else links.

Definition graph_nodes (self : TempEvalParser) : list Node * list (Key * nat) :=
  fold_left add_timex_node (timexes self)
    (fold_left add_event_node (events self) ([], [])).

Definition get_graph_data (self : TempEvalParser) : list Node * list Link :=
  let '(nodes, node_ids) := graph_nodes self in
  (nodes, fold_left (add_link node_ids) (tlinks self) []).

(* ================================================================== *)
(** ** The outside world *)

(** What a call into a library returns: a value, or a raised exception with
    its message. *)
Inductive result (A : Type) : Type :=
| Ok (a : A)
| Raise (msg : string).
Arguments Ok {A} a.
Arguments Raise {A} msg.

(** What a run does to the outside: a line printed, a file opened and read,
    a file parsed by [ET.parse], a file opened and written, a test
    [Path.exists()] of a file, and a write that raises. *)
Inductive IOEvent : Type :=
| EvPrint (line : string)
| EvOpenRead (path : string)
| EvETParse (path : string)
| EvOpenWrite (path data : string)
| EvExists (path : string)
| EvWriteRaises (path : string).

(** How [with open(path, 'w', encoding='utf-8') as f: f.write(data)] ends:
    it returns, or [open] raises and the file is untouched, or the write
    raises after the file was opened, leaving it with the bytes [kept]. *)
Inductive WriteOutcome : Type :=
| Written
| OpenRaises (msg : string)
| WriteRaises (msg : string) (kept : string).

(** A file system (the bytes stored under each path) and the log of what the
    program did, oldest first. *)
Record World := mkWorld {
  fs : string -> option string;
  log : list IOEvent
}.

Definition IO (A : Type) : Type := World -> A * World.

Definition ret {A : Type} (a : A) : IO A := fun w => (a, w).

Definition bind {A B : Type} (m : IO A) (k : A -> IO B) : IO B :=
  fun w => let (a, w') := m w in k a w'.

Notation "x <- m ;; k" := (bind m (fun x => k))
  (at level 61, m at next level, right associativity).
Notation "m ;; k" := (bind m (fun _ => k))
  (at level 61, right associativity).

Definition emit (e : IOEvent) : IO unit :=
  fun w => (tt, {| fs := fs w; log := log w ++ [e] |}).

Definition print (line : string) : IO unit := emit (EvPrint line).

Definition exec {A : Type} (m : IO A) (w : World) : World := snd (m w).
Definition eval {A : Type} (m : IO A) (w : World) : A := fst (m w).

(** [enumerate(l, start)]. *)
Definition enumerate {A : Type} (start : nat) (l : list A) : list (nat * A) :=
  combine (seq start (List.length l)) l.

(** One entry of [all_data]. *)
Record FileData := mkFileData {
  d_filename : string;
  d_filepath : string;
  d_events : nat;
  d_timexes : nat;
  d_tlinks : nat;
  d_sentences : list string;
  d_nodes : list Node;
  d_links : list Link;
  d_tasks : string;
  d_task_counts : list (string * nat);
  d_plain_text : string;
  d_raw_xml : string
}.

Definition sget (d : list (string * nat)) (k : string) (default : nat) : nat :=
  match Py.dict_get String.eqb d k with Some v => v | None => default end.

(** One iteration of the loop counting tasks over [parser.tlinks]; the state
    is [(tasks, global_tasks, task_counts)]. *)
Definition count_task
  (st : list string * list string * list (string * nat)) (tlink : Tlink)
  : list string * list string * list (string * nat) :=
  let '(tasks, global_tasks, task_counts) := st in
  let task := task tlink in
  if Py.truthy task then
    (Py.set_add tasks (Py.fmt task),
     Py.set_add global_tasks (Py.fmt task),
     Py.dict_set String.eqb task_counts (Py.fmt task)
       (sget task_counts (Py.fmt task) 0 + 1))
  else st.

(** [get_plain_text], the part inside [try] once the tree is there. *)
Definition plain_child (sentence_text : list string) (child : Element) : list string :=
  let t1 := if Py.truthy (ET.text child)
            then sentence_text ++ [Py.fmt (ET.text child)] else sentence_text in
  if Py.truthy (ET.tail child) then t1 ++ [Py.fmt (ET.tail child)] else t1.

Definition plain_sentence (sentence : Element) : string :=
  Py.strip (Py.join ""
    (fold_left plain_child (ET.children sentence)
       (if Py.truthy (ET.text sentence) then [Py.fmt (ET.text sentence)] else []))).

Definition plain_lines (root : Element) : list string :=
  fold_left (fun plain_text sentence => plain_text ++ [plain_sentence sentence])
    (ET.findall root "s") [].

(* ================================================================== *)
(** ** A sample corpus

    Five small documents with the tree [ET.parse] builds for each and the
    outcome of reading each as UTF-8 text, a file system holding them, and
    instances of the library functions that agree with Python on these
    documents.  The examples at the end of the file run the program on
    them. *)

Module Sample.

Definition doc_a : string :=
  "<TimeML><s>He <EVENT eid='e1' class='OCCURRENCE'>left</EVENT> on <TIMEX3 tid='t1' value='1998-01-08'>Thursday</TIMEX3>.</s><TLINK lid='l1' relType='BEFORE' eventID='e1' relatedToTime='t1' task='A'/></TimeML>".

Definition tree_a : Element :=
  Elem "TimeML" [] None None
    [ Elem "s" [] (Some "He ") None
        [ Elem "EVENT" [("eid", "e1"); ("class", "OCCURRENCE")]
            (Some "left") (Some " on ") [];
          Elem "TIMEX3" [("tid", "t1"); ("value", "1998-01-08")]
            (Some "Thursday") (Some ".") [] ];
      Elem "TLINK"
        [("lid", "l1"); ("relType", "BEFORE"); ("eventID", "e1");
         ("relatedToTime", "t1"); ("task", "A")] None None [] ].

Definition doc_b : string := "<TimeML><s>Nothing happened.</s></TimeML>".

Definition tree_b : Element :=
  Elem "TimeML" [] None None [ Elem "s" [] (Some "Nothing happened.") None [] ].

(** Two [EVENT] elements share the id [e1]. *)
Definition doc_dup : string :=
  "<TimeML><EVENT eid='e1' class='STATE'>was</EVENT><EVENT eid='e1' class='OCCURRENCE'>left</EVENT><EVENT eid='e2'>gone</EVENT></TimeML>".

Definition tree_dup : Element :=
  Elem "TimeML" [] None None
    [ Elem "EVENT" [("eid", "e1"); ("class", "STATE")] (Some "was") None [];
      Elem "EVENT" [("eid", "e1"); ("class", "OCCURRENCE")] (Some "left") None [];
      Elem "EVENT" [("eid", "e2")] (Some "gone") None [] ].

(** Not well-formed: [ET.parse] raises. *)
Definition doc_bad : string := "<TimeML><s>".

(** Well-formed XML in ISO-8859-1: the byte 0xE9 makes the UTF-8 read raise
    while [ET.parse], which follows the XML declaration, succeeds. *)
Definition e_acute : string := String (ascii_of_nat 233) EmptyString.

Definition doc_latin1 : string :=
  "<?xml version='1.0' encoding='ISO-8859-1'?><TimeML><s>caf" +++ e_acute
    +++ "</s></TimeML>".

Definition tree_latin1 : Element :=
  Elem "TimeML" [] None None [ Elem "s" [] (Some ("caf" +++ e_acute)) None [] ].

Definition decode_utf8 (bytes : string) : result string :=
  if String.eqb bytes doc_latin1
  then Raise "'utf-8' codec can't decode byte 0xe9 in position 57: invalid continuation byte"
  else Ok bytes.

Definition encode_utf8 (s : string) : string := s.

Definition d3_path : string := "/opt/tempeval/d3.v7.min.js".

(** [len] of a text of 8-bit characters. *)
Definition py_len (s : string) : nat := String.length s.

(** A path and the same path after [./] name one file. *)
Definition plain_path (p : string) : string :=
  if String.prefix "./" p then substring 2 (String.length p - 2) p else p.

Definition same_file (p1 p2 : string) : bool :=
  String.eqb (plain_path p1) (plain_path p2).

Definition XMLParser (bytes : string) : result Element :=
  if String.eqb bytes doc_a then Ok tree_a
  else if String.eqb bytes doc_b then Ok tree_b
  else if String.eqb bytes doc_dup then Ok tree_dup
  else if String.eqb bytes doc_latin1 then Ok tree_latin1
  else if String.eqb bytes doc_bad
  then Raise "no element found: line 1, column 11"
  else Raise "syntax error: line 1, column 0".

Definition os_error (path : string) : string :=
  "[Errno 2] No such file or directory: '" +++ path +++ "'".

(** The last component of a path. *)
Fixpoint Path_name_from (acc path : string) : string :=
  match path with
  | EmptyString => acc
  | String c r =>
      if Ascii.eqb c "/"%char then Path_name_from r r
      else Path_name_from acc r
  end.

Definition Path_name (path : string) : string := Path_name_from path path.

(** [json.dumps] for strings that need no escape, as those of the sample
    are. *)
Definition json_str (s : string) : string := q "`" +++ s +++ q "`".

Definition json_opt (o : option string) : string :=
  match o with Some s => json_str s | None => "null" end.

Definition json_node (n : Node) : string :=
  match n with
  | EventNode id label fullText class =>
      q "{`id`: " +++ json_opt id +++ q ", `label`: " +++ json_str label
        +++ q ", `type`: `event`, `fullText`: " +++ json_str fullText
        +++ q ", `class`: " +++ json_opt class +++ "}"
  | TimexNode id label fullText value =>
      q "{`id`: " +++ json_opt id +++ q ", `label`: " +++ json_str label
        +++ q ", `type`: `timex`, `fullText`: " +++ json_str fullText
        +++ q ", `value`: " +++ json_opt value +++ "}"
  end.

Definition json_link (l : Link) : string :=
  q "{`source`: " +++ Py.str_of_nat (source l)
    +++ q ", `target`: " +++ Py.str_of_nat (target l)
    +++ q ", `relation`: " +++ json_opt (relation l)
    +++ q ", `sourceId`: " +++ json_opt (sourceId l)
    +++ q ", `targetId`: " +++ json_opt (targetId l) +++ "}".

Definition json_list (items : list string) : string :=
  "[" +++ Py.join ", " items +++ "]".

Definition json_dumps_graph (data : list (list Node * list Link)) : string :=
  json_list
    (map (fun d =>
            q "{`nodes`: " +++ json_list (map json_node (fst d))
              +++ q ", `links`: " +++ json_list (map json_link (snd d)) +++ "}")
         data).

Definition json_dumps (ensure_ascii : bool) (l : list string) : string :=
  json_list (map json_str l).

Definition style_sheet : string :=
  "        body { margin: 0; }" +++ LF.

Definition client_script : string :=
  ";" +++ LF +++ "        initTextClickHandlers();" +++ LF.

Definition files_on_disk : string -> option string :=
  fun path =>
    if String.eqb path "data/a.tml" then Some doc_a
    else if String.eqb path "data/b.tml" then Some doc_b
    else if String.eqb path "data/dup.tml" then Some doc_dup
    else if String.eqb path "data/bad.tml" then Some doc_bad
    else if String.eqb path "data/latin1.tml" then Some doc_latin1
    else None.

Definition world : World := {| fs := files_on_disk; log := [] |}.

End Sample.

(* ================================================================== *)
(** ** The program *)

Section Program.

#[local] Set Default Proof Using "Type".

(** Text-mode read with [encoding='utf-8'] of the bytes of a file. *)
Variable decode_utf8 : string -> result string.
(** Text-mode write with [encoding='utf-8']. *)
Variable encode_utf8 : string -> string.
(** [ET.parse] on the bytes of a file. *)
Variable XMLParser : string -> result Element.
(** Message of the exception raised when the path names no file. *)
Variable os_error : string -> string.
(** [Path.name]. *)
Variable Path_name : string -> string.
(** [json.dumps] of the graph data, and of a list of strings with and
    without [ensure_ascii]. *)
Variable json_dumps_graph : list (list Node * list Link) -> string.
Variable json_dumps : bool -> list string -> string.
(** The style sheet between the [style] tags (lines 238 to 634 of the
    script) and the client-side script that follows the four data
    constants (lines 924 to 1429). *)
Variable style_sheet : string.
Variable client_script : string.
(** [d3.v7.min.js] beside the script: [None] when [d3_path.exists()] is
    false, and else the text that reading the file returns. *)
Variable d3_bundle : option string.
(** The path of that file, [Path(__file__).parent / 'd3.v7.min.js']. *)
Variable d3_path : string.
(** [len(s)], the number of characters of the text [s]: [String.length s]
    when each character of the text is one [ascii]. *)
Variable py_len : string -> nat.
(** Whether two paths name the same file (a relative and an absolute
    path, a link and its target). *)
Variable same_file : string -> string -> bool.
(** The exception that reading an existing [d3.v7.min.js] raises, if it
    raises; [d3_bundle] holds the text of a read that returns. *)
Variable d3_read_error : option string.
(** How writing to a path ends. *)
Variable write_outcome : string -> WriteOutcome.

(** What reading, respectively parsing, the file at [path] returns when
    [stored] is what the file system holds there. *)
Definition read_result (path : string) (stored : option string)
  : result string :=
  match stored with
  | Some bytes => decode_utf8 bytes
  | None => Raise (os_error path)
  end.

Definition parse_result (path : string) (stored : option string)
  : result Element :=
  match stored with
  | Some bytes => XMLParser bytes
  | None => Raise (os_error path)
  end.

(** [open(path, 'r', encoding='utf-8').read()]. *)
Definition open_read (path : string) : IO (result string) :=
  fun w =>
    (read_result path (fs w path),
     {| fs := fs w; log := log w ++ [EvOpenRead path] |}).

(** [ET.parse(path).getroot()]. *)
Definition ET_parse (path : string) : IO (result Element) :=
  fun w =>
    (parse_result path (fs w path),
     {| fs := fs w; log := log w ++ [EvETParse path] |}).

(** [open(path, 'w', encoding='utf-8').write(data)], for a call that
    returns: the file the path names then holds the encoded data, under
    each of its names.  [open_write_or_raise] has the calls that raise. *)
Definition open_write (path data : string) : IO unit :=
  fun w =>
    (tt,
     {| fs := fun p => if String.eqb p path || same_file p path
                       then Some (encode_utf8 data)
                       else fs w p;
        log := log w ++ [EvOpenWrite path data] |}).

Definition error_line (path e : string) : string :=
  "Error parsing " +++ path +++ ": " +++ e.

Definition with_raw_xml (self : TempEvalParser) (content : string)
  : TempEvalParser :=
  {| filepath := filepath self; events := events self;
     timexes := timexes self; tlinks := tlinks self;
     sentences := sentences self; raw_xml := Some content |}.

Definition parse_file (self : TempEvalParser) : IO TempEvalParser :=
  r <- open_read (filepath self) ;;
  match r with
  | Raise e => print (error_line (filepath self) e) ;; ret self
  | Ok content =>
      let self := with_raw_xml self content in
      t <- ET_parse (filepath self) ;;
      match t with
      | Raise e => print (error_line (filepath self) e) ;; ret self
      | Ok root => ret (extract root self)
      end
  end.

(** The attributes set by [__init__] before it calls [parse_file]. *)
Definition fresh_parser (path : string) : TempEvalParser :=
  {| filepath := path; events := []; timexes := []; tlinks := [];
     sentences := []; raw_xml := None |}.

(** [TempEvalParser(filepath)]. *)
Definition TempEvalParser_init (path : string) : IO TempEvalParser :=
  parse_file (fresh_parser path).

Definition get_plain_text (self : TempEvalParser) : IO string :=
  t <- ET_parse (filepath self) ;;
  match t with
  | Ok root => ret (Py.join LF (plain_lines root))
  | Raise _ => ret (Py.join LF [])
  end.

Definition initial_task_counts : list (string * nat) :=
  [("A", 0); ("B", 0); ("C", 0)].

(** The body of the loop over [enumerate(files, 1)]; the state is
    [(all_data, global_tasks)]. *)
Definition process_file (n_files : nat)
  (st : list FileData * list string) (item : nat * string)
  : IO (list FileData * list string) :=
  let '(all_data, global_tasks) := st in
  let '(i, path) := item in
  print ("  [" +++ Py.str_of_nat i +++ "/" +++ Py.str_of_nat n_files +++ "] "
         +++ Path_name path) ;;
  parser <- TempEvalParser_init path ;;
  let '(nodes, links) := get_graph_data parser in
  let '(tasks, global_tasks, task_counts) :=
    fold_left count_task (tlinks parser)
      ([], global_tasks, initial_task_counts) in
  plain_text <- get_plain_text parser ;;
  ret (all_data ++
         [ {| d_filename := Path_name path;
              d_filepath := path;
              d_events := List.length (events parser);
              d_timexes := List.length (timexes parser);
              d_tlinks := List.length (tlinks parser);
              d_sentences := sentences parser;
              d_nodes := nodes;
              d_links := links;
              d_tasks := Py.join "," (Py.sorted tasks);
              d_task_counts := task_counts;
              d_plain_text := plain_text;
              d_raw_xml := match Py.or_ (raw_xml parser) (Some "") with
                           | Some s => s
                           | None => ""
                           end |} ],
       global_tasks).

Fixpoint for_each {A S : Type} (body : S -> A -> IO S) (l : list A) (st : S)
  : IO S :=
  match l with
  | [] => ret st
  | x :: r => st' <- body st x ;; for_each body r st'
  end.

Definition process_files (files : list string)
  : IO (list FileData * list string) :=
  for_each (process_file (List.length files)) (enumerate 1 files) ([], []).

(** *** The template *)

Definition d3_cdn_tag : string :=
  q "<script src=`https://d3js.org/d3.v7.min.js`></script>".

(** The template up to the inline script, and the text between the
    inline script and the place of the CDN tag. *)
Definition head_open (n_files : nat) : string :=
  q "<!DOCTYPE html>
<html>
<head>
    <meta charset=`UTF-8`>
    <title>TempEval Visualization - "
  +++ Py.str_of_nat n_files
  +++ q " files</title>
    <style>
"
  +++ style_sheet
  +++ q "    </style>
    <script>
".

Definition script_close : string :=
  q "
    </script>
    ".

Definition page_head (n_files : nat) (d3_js : option string) : string :=
  head_open n_files
  +++ (if Py.truthy d3_js then Py.fmt d3_js else "")
  +++ script_close
  +++ (if Py.truthy d3_js then "" else d3_cdn_tag).

Definition page_top (n_files total_events total_timexes total_tlinks : nat)
  : string :=
  q "
</head>
<body>
    <div id=`rawXmlModal` class=`modal`>
        <div class=`modal-content`>
            <span class=`modal-close` onclick=`closeRawXML()`>&times;</span>
            <h2>Raw XML Content</h2>
            <pre style=`background-color: #f5f5f5; padding: 15px; border-radius: 3px; overflow-x: auto; white-space: pre-wrap; word-wrap: break-word; font-size: 12px; line-height: 1.4;`><code id=`rawXmlContent`></code></pre>
        </div>
    </div>
    
    <div class=`header`>
        <h1>ðŸ“Š TempEval Visualization</h1>
        <p>Viewing "
  +++ Py.str_of_nat n_files
  +++ q " annotated documents</p>
    </div>
    
    <div class=`credits`>
        ðŸ“š <strong>Data Source:</strong> This visualization uses data from <a href=`https://timeml.github.io/site/timebank/timebank.html` target=`_blank`>TimeBank</a>, 
        a corpus annotated with <a href=`https://timeml.github.io/site/index.html` target=`_blank`>TimeML</a> temporal markup language. 
    </div>
    
    <div class=`header`>
        <div class=`stats-bar`>
            <div class=`stat-item`>
                <div class=`stat-number`>"
  +++ Py.str_of_nat n_files
  +++ q "</div>
                <div class=`stat-label`>Files</div>
            </div>
            <div class=`stat-item`>
                <div class=`stat-number`>"
  +++ Py.str_of_nat total_events
  +++ q "</div>
                <div class=`stat-label`>Total Events</div>
            </div>
            <div class=`stat-item`>
                <div class=`stat-number`>"
  +++ Py.str_of_nat total_timexes
  +++ q "</div>
                <div class=`stat-label`>Total Time Expressions</div>
            </div>
            <div class=`stat-item`>
                <div class=`stat-number`>"
  +++ Py.str_of_nat total_tlinks
  +++ q "</div>
                <div class=`stat-label`>Total Temporal Links</div>
            </div>
        </div>
    </div>
    
    <div class=`container`>
        <div class=`search-box`>
            <input type=`text` id=`search` placeholder=`ðŸ” Search files by name...` oninput=`applyFilters()`>
        </div>
        
        <div class=`filter-controls`>
            <h3>ðŸ“Š Sort & Filter</h3>
            <div class=`filter-row`>
                <div class=`filter-group`>
                    <label for=`sortBy`>Sort by:</label>
                    <select id=`sortBy` onchange=`applyFilters()`>
                        <option value=`filename`>Filename (A-Z)</option>
                        <option value=`filename-desc`>Filename (Z-A)</option>
                        <option value=`events-desc`>Events (Most first)</option>
                        <option value=`events-asc`>Events (Least first)</option>
                        <option value=`timexes-desc`>Time Expressions (Most first)</option>
                        <option value=`timexes-asc`>Time Expressions (Least first)</option>
                        <option value=`tlinks-desc`>Temporal Links (Most first)</option>
                        <option value=`tlinks-asc`>Temporal Links (Least first)</option>
                        <option value=`sentences-desc`>Sentences (Most first)</option>
                        <option value=`sentences-asc`>Sentences (Least first)</option>
                    </select>
                </div>
                <div class=`filter-group`>
                    <label for=`taskFilter`>Task:</label>
                    <select id=`taskFilter` onchange=`applyFilters()`>
                        <option value=`all`>All Tasks</option>
                        <option value=`A`>Task A only</option>
                        <option value=`B`>Task B only</option>
                        <option value=`C`>Task C only</option>
                        <option value=`AB`>Tasks A & B</option>
                    </select>
                </div>
                <div class=`filter-group`>
                    <label for=`minEvents`>Min Events:</label>
                    <select id=`minEvents` onchange=`applyFilters()`>
                        <option value=`0`>All</option>
                        <option value=`10`>10+</option>
                        <option value=`20`>20+</option>
                        <option value=`30`>30+</option>
                        <option value=`50`>50+</option>
                    </select>
                </div>
                <div class=`filter-group`>
                    <label for=`minLinks`>Min Links:</label>
                    <select id=`minLinks` onchange=`applyFilters()`>
                        <option value=`0`>All</option>
                        <option value=`5`>5+</option>
                        <option value=`10`>10+</option>
                        <option value=`20`>20+</option>
                        <option value=`30`>30+</option>
                    </select>
                </div>
                <div class=`filter-group`>
                    <button onclick=`resetFilters()`>Reset All</button>
                </div>
                <div class=`filter-group`>
                    <span id=`matchCount` style=`color: #7f8c8d; font-size: 14px;`></span>
                </div>
            </div>
        </div>
        
        <div class=`tabs` id=`tabs`>
".

Definition active_class (i : nat) : string :=
  if Nat.eqb i 0 then " active" else "".

(** The first loop over [enumerate(all_data)]: one button per entry. *)
Definition emit_tab_button (html : string) (item : nat * FileData) : string :=
  let '(i, data) := item in
  let active := active_class i in
  let tasks_str :=
    if Py.truthy (Some (d_tasks data)) then d_tasks data else "none" in
  html +++
    q "            <button class=`tab"
    +++ active
    +++ q "` onclick=`showTab("
    +++ Py.str_of_nat i
    +++ q ")` data-index=`"
    +++ Py.str_of_nat i
    +++ q "` data-filename=`"
    +++ d_filename data
    +++ q "` data-events=`"
    +++ Py.str_of_nat (d_events data)
    +++ q "` data-timexes=`"
    +++ Py.str_of_nat (d_timexes data)
    +++ q "` data-tlinks=`"
    +++ Py.str_of_nat (d_tlinks data)
    +++ q "` data-sentences=`"
    +++ Py.str_of_nat (List.length (d_sentences data))
    +++ q "` data-tasks=`"
    +++ tasks_str
    +++ q "`>"
    +++ d_filename data
    +++ q "</button>
".

Definition tabs_close : string :=
  q "        </div>
        
".

Definition task_part (data : FileData) (task : string) : string :=
  "Task " +++ task +++ ": <strong>"
    +++ Py.str_of_nat (sget (d_task_counts data) task 0) +++ "</strong>".

Definition task_info_of (global_tasks : list string) (data : FileData) : string :=
  let task_parts :=
    fold_left (fun task_parts task => task_parts ++ [task_part data task])
      (Py.sorted global_tasks) [] in
  match task_parts with
  | [] => ""
  | _ => q "<div class=`file-stat`>" +++ Py.join " | " task_parts +++ "</div>"
  end.

Definition file_header (global_tasks : list string) (i : nat) (data : FileData)
  : string :=
  let active := active_class i in
  let task_info := task_info_of global_tasks data in
    q "        <div class=`tab-content"
    +++ active
    +++ q "` id=`tab-"
    +++ Py.str_of_nat i
    +++ q "`>
            <div class=`file-header`>
                <h2>"
    +++ d_filename data
    +++ q "</h2>
                <div class=`file-stats`>
                    <div class=`file-stat`>Events: <strong>"
    +++ Py.str_of_nat (d_events data)
    +++ q "</strong></div>
                    <div class=`file-stat`>Time Expressions: <strong>"
    +++ Py.str_of_nat (d_timexes data)
    +++ q "</strong></div>
                    <div class=`file-stat`>Temporal Links: <strong>"
    +++ Py.str_of_nat (d_tlinks data)
    +++ q "</strong></div>
                    <div class=`file-stat`>Sentences: <strong>"
    +++ Py.str_of_nat (List.length (d_sentences data))
    +++ q "</strong></div>
                    "
    +++ task_info
    +++ q "
                </div>
            </div>
".

Definition graph_section (i : nat) : string :=
    q "            
            <div class=`section`>
                <h3>Temporal Relations Graph</h3>
                <div class=`relation-legend`>
                    <h4>Temporal Relations Legend</h4>
                    <div class=`legend-items`>
                        <div class=`legend-item`>
                            <div class=`legend-color` style=`background-color: #e74c3c;`></div>
                            <div>
                                <div class=`legend-label`>BEFORE</div>
                                <div class=`legend-description`>Source â†’ Target: Source occurs before target</div>
                            </div>
                        </div>
                        <div class=`legend-item`>
                            <div class=`legend-color` style=`background-color: #9b59b6;`></div>
                            <div>
                                <div class=`legend-label`>AFTER</div>
                                <div class=`legend-description`>Source â†’ Target: Source occurs after target</div>
                            </div>
                        </div>
                        <div class=`legend-item`>
                            <div class=`legend-color` style=`background-color: #f39c12;`></div>
                            <div>
                                <div class=`legend-label`>OVERLAP</div>
                                <div class=`legend-description`>Source â†’ Target: Events overlap in time</div>
                            </div>
                        </div>
                        <div class=`legend-item`>
                            <div class=`legend-color` style=`background-color: #16a085;`></div>
                            <div>
                                <div class=`legend-label`>BEFORE-OR-OVERLAP</div>
                                <div class=`legend-description`>Source â†’ Target: Before or overlapping (ambiguous)</div>
                            </div>
                        </div>
                        <div class=`legend-item`>
                            <div class=`legend-color` style=`background-color: #d35400;`></div>
                            <div>
                                <div class=`legend-label`>OVERLAP-OR-AFTER</div>
                                <div class=`legend-description`>Source â†’ Target: Overlapping or after (ambiguous)</div>
                            </div>
                        </div>
                        <div class=`legend-item`>
                            <div class=`legend-color` style=`background-color: #95a5a6;`></div>
                            <div>
                                <div class=`legend-label`>VAGUE</div>
                                <div class=`legend-description`>Source â†’ Target: Temporal relationship is unclear</div>
                            </div>
                        </div>
                    </div>
                </div>
                <div class=`graph-controls`>
                    <button onclick=`resetGraph("
    +++ Py.str_of_nat i
    +++ q ")`>Reset</button>
                    <button onclick=`fitToView("
    +++ Py.str_of_nat i
    +++ q ")`>Fit to View</button>
                    <button onclick=`zoomIn("
    +++ Py.str_of_nat i
    +++ q ")`>Zoom In</button>
                    <button onclick=`zoomOut("
    +++ Py.str_of_nat i
    +++ q ")`>Zoom Out</button>
                    <button onclick=`toggleGraphLabels("
    +++ Py.str_of_nat i
    +++ q ")`>Toggle ID/Text</button>
                    <span id=`label-status-"
    +++ Py.str_of_nat i
    +++ q "` style=`margin-left: 10px; color: #7f8c8d;`>Labels: ID</span>
                </div>
                <div class=`graph-container` id=`graph-"
    +++ Py.str_of_nat i
    +++ q "`></div>
            </div>
".

Definition no_graph : string :=
    q "            <div class=`no-graph`>No temporal relations to display</div>
".

Definition text_section_open (i : nat) : string :=
    q "            <div class=`section` id=`text-section-"
    +++ Py.str_of_nat i
    +++ q "`>
                <h3>Annotated Text</h3>
".

Definition emit_sentence (html : string) (item : nat * string) : string :=
  let '(j, sentence) := item in
  html +++
    q "                <div class=`sentence`><strong>"
    +++ Py.str_of_nat j
    +++ q ".</strong> "
    +++ sentence
    +++ q "</div>
".

Definition relations_open (data : FileData) : string :=
    q "            </div>
            
            <div class=`section`>
                <h3>Temporal Relations ("
    +++ Py.str_of_nat (List.length (d_links data))
    +++ q ")</h3>
                <div class=`relations-list`>
".

Definition truncate30 (s : string) : string :=
  if Nat.ltb 30 (String.length s) then Py.take 27 s +++ "..." else s.

Definition lookup_text (node_lookup : list (Key * Node)) (id : Key) : string :=
  match kget node_lookup id with
  | Some node => node_fullText node
  | None => Py.fmt id
  end.

Definition emit_relation (node_lookup : list (Key * Node))
  (html : string) (link : Link) : string :=
  let relation_type := relation link in
  let source_id := sourceId link in
  let target_id := targetId link in
  let source_text := truncate30 (lookup_text node_lookup source_id) in
  let target_text := truncate30 (lookup_text node_lookup target_id) in
  html +++
    q "                    <div class=`relation-item "
    +++ Py.fmt relation_type
    +++ q "`>
                        <span class=`relation-type "
    +++ Py.fmt relation_type
    +++ q "`>"
    +++ Py.fmt relation_type
    +++ q "</span>
                        <div style=`display: inline-block; margin-left: 10px;`>
                            <strong>"
    +++ Py.fmt source_id
    +++ q "</strong> <span style=`color: #7f8c8d; font-size: 12px;`>("
    +++ source_text
    +++ q ")</span>
                            <span class=`relation-arrow`>â†’</span>
                            <strong>"
    +++ Py.fmt target_id
    +++ q "</strong> <span style=`color: #7f8c8d; font-size: 12px;`>("
    +++ target_text
    +++ q ")</span>
                        </div>
                    </div>
".

Definition no_relations : string :=
    q "                    <p style=`color: #7f8c8d;`>No temporal relations in this file.</p>
".

Definition export_section (i : nat) : string :=
    q "                </div>
            </div>
            
            <div class=`section`>
                <h3>Export Options</h3>
                <div style=`display: flex; gap: 15px; margin-top: 20px;`>
                    <button onclick=`downloadPlainText("
    +++ Py.str_of_nat i
    +++ q ")` class=`export-button`>
                        ðŸ“„ Download Plain Text
                    </button>
                    <button onclick=`viewRawXML("
    +++ Py.str_of_nat i
    +++ q ")` class=`export-button`>
                        ðŸ“‹ View Raw XML
                    </button>
                    <button onclick=`downloadRawXML("
    +++ Py.str_of_nat i
    +++ q ")` class=`export-button`>
                        ðŸ’¾ Download Raw XML
                    </button>
                </div>
            </div>
        </div>
        
".

(** The body of the second loop over [enumerate(all_data)]. *)
Definition emit_tab_content (global_tasks : list string)
  (html : string) (item : nat * FileData) : string :=
  let '(i, data) := item in
  let html := html +++ file_header global_tasks i data in
  let html :=
    match d_nodes data with
    | _ :: _ => html +++ graph_section i
    | [] => html +++ no_graph
    end in
  let html := html +++ text_section_open i in
  let html := fold_left emit_sentence (enumerate 1 (d_sentences data)) html in
  let html := html +++ relations_open data in
  let html :=
    match d_links data with
    | _ :: _ =>
        let node_lookup :=
          fold_left (fun d node => kset d (node_id node) node)
            (d_nodes data) [] in
        fold_left (emit_relation node_lookup) (d_links data) html
    | [] => html +++ no_relations
    end in
  html +++ export_section i.

Definition page_script (all_data : list FileData) : string :=
  q "    </div>
    
    <script>
        // Store all graph data
        const allGraphData = "
  +++ json_dumps_graph (map (fun d => (d_nodes d, d_links d)) all_data)
  +++ q ";
        const graphInstances = {};
        
        // Store plain text and raw XML data
        const allPlainTextData = "
  +++ json_dumps false (map d_plain_text all_data)
  +++ q ";
        const allRawXmlData = "
  +++ json_dumps false (map d_raw_xml all_data)
  +++ q ";
        const allFilenames = "
  +++ json_dumps true (map d_filename all_data)
  +++ client_script
  +++ q "    </script>
</body>
</html>".

Definition total (field : FileData -> nat) (all_data : list FileData) : nat :=
  fold_left (fun acc d => acc + field d) all_data 0.

(** The string [html] as it stands when it is written out. *)
Definition build_html (n_files : nat) (all_data : list FileData)
  (global_tasks : list string) (d3_js : option string) : string :=
  let html :=
    page_head n_files d3_js
    +++ page_top n_files (total d_events all_data) (total d_timexes all_data)
          (total d_tlinks all_data) in
  let html := fold_left emit_tab_button (enumerate 0 all_data) html in
  let html := html +++ tabs_close in
  let html :=
    fold_left (emit_tab_content global_tasks) (enumerate 0 all_data) html in
  html +++ page_script all_data.

(** The test [d3_path.exists()] and, when it holds, the read of the file
    and the line printed about it; the result is [d3_js].  Here the read
    returns; [read_d3_or_raise] has the read that raises. *)
Definition read_d3 : IO (option string) :=
  emit (EvExists d3_path) ;;
  match d3_bundle with
  | Some d3_js =>
      emit (EvOpenRead d3_path) ;;
      print ("  Embedding D3.js library (" +++ Py.str_of_nat (py_len d3_js)
             +++ " bytes) - fully offline version") ;;
      ret (Some d3_js)
  | None =>
      print "  Warning: d3.v7.min.js not found, using CDN (requires internet)" ;;
      ret None
  end.

(** [generate_multi_file_html] in a run that completes: the read of the
    bundle and the write of the document return.  [generate_or_raise]
    below has every run. *)
Definition generate_multi_file_html (files : list string) (output_path : string)
  : IO unit :=
  print ("Processing " +++ Py.str_of_nat (List.length files) +++ " files...") ;;
  st <- process_files files ;;
  let '(all_data, global_tasks) := st in
  let total_events := total d_events all_data in
  let total_timexes := total d_timexes all_data in
  let total_tlinks := total d_tlinks all_data in
  d3_js <- read_d3 ;;
  let html := build_html (List.length files) all_data global_tasks d3_js in
  open_write output_path html ;;
  print (LF +++ "âœ“ Multi-file visualization exported to: " +++ output_path) ;;
  print ("  Total files: " +++ Py.str_of_nat (List.length files)) ;;
  print ("  Total events: " +++ Py.str_of_nat total_events) ;;
  print ("  Total time expressions: " +++ Py.str_of_nat total_timexes) ;;
  print ("  Total temporal links: " +++ Py.str_of_nat total_tlinks).

(** The write of the document with its three outcomes. *)
Definition open_write_or_raise (path data : string) : IO (result unit) :=
  match write_outcome path with
  | Written => open_write path data ;; ret (Ok tt)
  | OpenRaises msg => emit (EvWriteRaises path) ;; ret (Raise msg)
  | WriteRaises msg kept =>
      fun w =>
        (Raise msg,
         {| fs := fun p => if String.eqb p path || same_file p path
                           then Some kept
                           else fs w p;
            log := log w ++ [EvWriteRaises path] |})
  end.

(** The read of the bundle, which may raise when the file exists. *)
Definition read_d3_or_raise : IO (result (option string)) :=
  match d3_bundle, d3_read_error with
  | Some _, Some msg =>
      emit (EvExists d3_path) ;;
      emit (EvOpenRead d3_path) ;;
      ret (Raise msg)
  | _, _ => d3_js <- read_d3 ;; ret (Ok d3_js)
  end.

(** [generate_multi_file_html] with the two calls that can raise outside
    the [try] block of [parse_file]: an exception ends the run where it
    is raised. *)
Definition generate_or_raise (files : list string) (output_path : string)
  : IO (result unit) :=
  print ("Processing " +++ Py.str_of_nat (List.length files) +++ " files...") ;;
  st <- process_files files ;;
  let '(all_data, global_tasks) := st in
  let total_events := total d_events all_data in
  let total_timexes := total d_timexes all_data in
  let total_tlinks := total d_tlinks all_data in
  r <- read_d3_or_raise ;;
  match r with
  | Raise msg => ret (Raise msg)
  | Ok d3_js =>
      let html := build_html (List.length files) all_data global_tasks d3_js in
      r <- open_write_or_raise output_path html ;;
      match r with
      | Raise msg => ret (Raise msg)
      | Ok _ =>
          print (LF +++ "âœ“ Multi-file visualization exported to: "
                 +++ output_path) ;;
          print ("  Total files: " +++ Py.str_of_nat (List.length files)) ;;
          print ("  Total events: " +++ Py.str_of_nat total_events) ;;
          print ("  Total time expressions: "
                 +++ Py.str_of_nat total_timexes) ;;
          print ("  Total temporal links: " +++ Py.str_of_nat total_tlinks) ;;
          ret (Ok tt)
      end
  end.


(** *** Per-file views

    What the loop body computes for one file, as functions of its path
    and of what the file system holds there (lemma [process_file_spec]
    ties them to the loop). *)

Definition parser_view (path : string) (stored : option string)
  : TempEvalParser :=
  match read_result path stored with
  | Raise _ => fresh_parser path
  | Ok content =>
      match parse_result path stored with
      | Raise _ => with_raw_xml (fresh_parser path) content
      | Ok root => extract root (with_raw_xml (fresh_parser path) content)
      end
  end.

Definition parser_log (path : string) (stored : option string)
  : list IOEvent :=
  match read_result path stored with
  | Raise e => [EvOpenRead path; EvPrint (error_line path e)]
  | Ok _ =>
      match parse_result path stored with
      | Raise e =>
          [EvOpenRead path; EvETParse path; EvPrint (error_line path e)]
      | Ok _ => [EvOpenRead path; EvETParse path]
      end
  end.

Definition plain_view (path : string) (stored : option string) : string :=
  match parse_result path stored with
  | Ok root => Py.join LF (plain_lines root)
  | Raise _ => Py.join LF []
  end.

Definition file_record (path : string) (stored : option string) : FileData :=
  let parser := parser_view path stored in
  let '(tasks, _, task_counts) :=
    fold_left count_task (tlinks parser) ([], [], initial_task_counts) in
  {| d_filename := Path_name path;
     d_filepath := path;
     d_events := List.length (events parser);
     d_timexes := List.length (timexes parser);
     d_tlinks := List.length (tlinks parser);
     d_sentences := sentences parser;
     d_nodes := fst (get_graph_data parser);
     d_links := snd (get_graph_data parser);
     d_tasks := Py.join "," (Py.sorted tasks);
     d_task_counts := task_counts;
     d_plain_text := plain_view path stored;
     d_raw_xml := match Py.or_ (raw_xml parser) (Some "") with
                  | Some s => s
                  | None => ""
                  end |}.

Definition global_after (global_tasks : list string)
  (path : string) (stored : option string) : list string :=
  snd (fst (fold_left count_task (tlinks (parser_view path stored))
              ([], global_tasks, initial_task_counts))).

Definition file_log (n_files i : nat) (path : string) (stored : option string)
  : list IOEvent :=
  [EvPrint ("  [" +++ Py.str_of_nat i +++ "/" +++ Py.str_of_nat n_files
            +++ "] " +++ Path_name path)]
  ++ parser_log path stored ++ [EvETParse path].

(** [all_data] and [global_tasks] after the first loop. *)
Definition records (w : World) (files : list string) : list FileData :=
  map (fun path => file_record path (fs w path)) files.

Definition global_tasks_of (w : World) (files : list string) : list string :=
  fold_left (fun g path => global_after g path (fs w path)) files [].

(** What one pass of each of the two rendering loops appends. *)
Definition tab_button (i : nat) (data : FileData) : string :=
  emit_tab_button "" (i, data).

Definition tab_content (global_tasks : list string) (i : nat) (data : FileData)
  : string :=
  emit_tab_content global_tasks "" (i, data).

Definition sentence_div (j : nat) (sentence : string) : string :=
  emit_sentence "" (j, sentence).

Definition relation_item (node_lookup : list (Key * Node)) (link : Link) : string :=
  emit_relation node_lookup "" link.

Definition d3_notice : string :=
  match d3_bundle with
  | Some d3_js =>
      "  Embedding D3.js library (" +++ Py.str_of_nat (py_len d3_js)
        +++ " bytes) - fully offline version"
  | None => "  Warning: d3.v7.min.js not found, using CDN (requires internet)"
  end.

(** The trace of the first loop. *)
Definition files_log (w : World) (files : list string) : list IOEvent :=
  flat_map (fun item => file_log (List.length files) (fst item) (snd item)
                          (fs w (snd item)))
    (enumerate 1 files).

(** The document a run on [files] writes. *)
Definition document (w : World) (files : list string) : string :=
  build_html (List.length files) (records w files) (global_tasks_of w files)
    d3_bundle.

Definition closing_lines (w : World) (files : list string) (output_path : string)
  : list IOEvent :=
  [ EvPrint (LF +++ "âœ“ Multi-file visualization exported to: "
             +++ output_path);
    EvPrint ("  Total files: " +++ Py.str_of_nat (List.length files));
    EvPrint ("  Total events: "
             +++ Py.str_of_nat (total d_events (records w files)));
    EvPrint ("  Total time expressions: "
             +++ Py.str_of_nat (total d_timexes (records w files)));
    EvPrint ("  Total temporal links: "
             +++ Py.str_of_nat (total d_tlinks (records w files))) ].

Definition opening_line (files : list string) : IOEvent :=
  EvPrint ("Processing " +++ Py.str_of_nat (List.length files) +++ " files...").

Definition is_write (e : IOEvent) : bool :=
  match e with
  | EvOpenWrite _ _ | EvWriteRaises _ => true
  | _ => false
  end.

Definition is_input_read (files : list string) (e : IOEvent) : bool :=
  match e with
  | EvOpenRead p | EvETParse p => existsb (String.eqb p) files
  | EvPrint _ => true
  | EvOpenWrite _ _ | EvExists _ | EvWriteRaises _ => false
  end.

(** The test for the bundle, or a read of it. *)
Definition is_bundle_access (e : IOEvent) : bool :=
  match e with
  | EvExists p | EvOpenRead p => String.eqb p d3_path
  | _ => false
  end.

(** What [read_d3] adds to the log. *)
Definition bundle_log : list IOEvent :=
  [EvExists d3_path]
  ++ match d3_bundle with
     | Some _ => [EvOpenRead d3_path]
     | None => []
     end
  ++ [EvPrint d3_notice].

(** The log of a run up to the write. *)
Definition run_before (w : World) (files : list string) : list IOEvent :=
  [opening_line files] ++ files_log w files ++ bundle_log.

(** Whether the read of the bundle raises, and the log of such a run. *)
Definition bundle_fails : option string :=
  match d3_bundle with
  | Some _ => d3_read_error
  | None => None
  end.

Definition run_until_bundle (w : World) (files : list string) : list IOEvent :=
  [opening_line files] ++ files_log w files
  ++ [EvExists d3_path; EvOpenRead d3_path].

(** The files a write to [path] changes. *)
Definition written_by (path p : string) : bool :=
  String.eqb p path || same_file p path.

Definition is_print (e : IOEvent) : bool :=
  match e with EvPrint _ => true | _ => false end.

(** Concatenation of a list of strings. *)
Definition cat (l : list string) : string := Py.join "" l.










(** A tlink gives a link of the graph when both endpoint ids are there
    and each is the id of an event or of a time expression. *)
Definition known (self : TempEvalParser) (k : Key) : bool :=
  existsb (Py.option_eqb k)
    (Py.keys (events self) ++ Py.keys (timexes self)).

Definition resolvable (self : TempEvalParser) (tlink : Tlink) : bool :=
  Py.truthy (link_src tlink) && Py.truthy (link_tgt tlink)
  && known self (link_src tlink) && known self (link_tgt tlink).

(** Every index recorded in [node_ids] points at the node carrying that
    id. *)
Definition ids_point (st : list Node * list (Key * nat)) : Prop :=
  forall k i,
    kget (snd st) k = Some i ->
    i < List.length (fst st)
    /\ option_map node_id (nth_error (fst st) i) = Some k.

Definition link_ok (nodes : list Node) (l : Link) : Prop :=
  source l < List.length nodes /\ target l < List.length nodes
  /\ option_map node_id (nth_error nodes (source l)) = Some (sourceId l)
  /\ option_map node_id (nth_error nodes (target l)) = Some (targetId l).

(** The keys of the two dictionaries. *)
Definition eid_of (e : Element) : Key := ET.get e "eid".
Definition tid_of (e : Element) : Key := ET.get e "tid".

Definition key_eq_dec (a b : Key) : {a = b} + {a <> b}.
Proof. decide equality. apply string_dec. Defined.

(** A dictionary filled from a list of elements, as the first two loops
    of [parse_file] do. *)
Definition fill {V : Type} (key_of : Element -> Key) (val_of : Element -> V)
  (d : list (Key * V)) (l : list Element) : list (Key * V) :=
  fold_left (fun d e => kset d (key_of e) (val_of e)) l d.

(** Nothing of the document's content came out of this record. *)
Definition no_parsed_content (d : FileData) : Prop :=
  d_events d = 0 /\ d_timexes d = 0 /\ d_tlinks d = 0 /\
  d_sentences d = [] /\ d_nodes d = [] /\ d_links d = [] /\
  d_tasks d = "" /\ d_plain_text d = "".

(** The tab bar and the tab panels: what the two rendering loops append
    over the whole of [all_data]. *)
Definition tab_bar (all_data : list FileData) : string :=
  cat (map (fun item => tab_button (fst item) (snd item))
         (enumerate 0 all_data)).

Definition tab_panels (global_tasks : list string) (all_data : list FileData)
  : string :=
  cat (map (fun item => tab_content global_tasks (fst item) (snd item))
         (enumerate 0 all_data)).

Definition node_lookup_of (data : FileData) : list (Key * Node) :=
  fold_left (fun d node => kset d (node_id node) node) (d_nodes data) [].

(** The parts of a tab panel, in the order they are appended. *)
Definition graph_part (i : nat) (data : FileData) : string :=
  match d_nodes data with
  | _ :: _ => graph_section i
  | [] => no_graph
  end.

Definition sentences_part (data : FileData) : string :=
  cat (map (fun item => sentence_div (fst item) (snd item))
         (enumerate 1 (d_sentences data))).

Definition relations_part (data : FileData) : string :=
  match d_links data with
  | _ :: _ => cat (map (relation_item (node_lookup_of data)) (d_links data))
  | [] => no_relations
  end.

(** The document after its head. *)
Definition page_body (n_files : nat) (all_data : list FileData)
  (global_tasks : list string) : string :=
  page_top n_files (total d_events all_data) (total d_timexes all_data)
    (total d_tlinks all_data)
  +++ tab_bar all_data +++ tabs_close +++ tab_panels global_tasks all_data
  +++ page_script all_data.

(** Sum of the per-file counts, each taken from the parser built for the
    file. *)
Definition sum_over (w : World) (files : list string)
  (count : TempEvalParser -> nat) : nat :=
  list_sum (map (fun path => count (eval (TempEvalParser_init path) w)) files).

(* ================================================================ *)
(** ** Strings and lists *)

(** Lemmas on the data structures do not depend on the libraries. *)
Ltac clear_program :=
  try clear write_outcome; try clear d3_read_error;
  try clear same_file; try clear py_len; try clear d3_path;
  try clear d3_bundle; try clear client_script; try clear style_sheet;
  try clear json_dumps; try clear json_dumps_graph; try clear Path_name;
  try clear os_error; try clear XMLParser; try clear encode_utf8;
  try clear decode_utf8.

Lemma append_assoc (a b c : string) : (a +++ b) +++ c = a +++ b +++ c.
Proof. induction a as [|x a IH]; simpl; [reflexivity | now rewrite IH]. Qed.

Lemma append_nil_r (s : string) : s +++ "" = s.
Proof. induction s as [|x s IH]; simpl; [reflexivity | now rewrite IH]. Qed.

Lemma cat_cons (x : string) (l : list string) : cat (x :: l) = x +++ cat l.
Proof.
  destruct l as [|y l]; unfold cat, Py.join; simpl.
  - now rewrite append_nil_r.
  - reflexivity.
Qed.


Lemma fold_left_snoc {A B : Type} (f : A -> B) (l : list A) (acc : list B) :
  fold_left (fun r x => r ++ [f x]) l acc = acc ++ map f l.
Proof.
  revert acc; induction l as [|x l IH]; intros acc; simpl.
  - now rewrite app_nil_r.
  - rewrite IH, <- app_assoc. reflexivity.
Qed.

Lemma fold_left_emit {A : Type} (f : string -> A -> string) (g : A -> string)
  (l : list A) (html : string) :
  (forall h x, f h x = h +++ g x) ->
  fold_left f l html = html +++ cat (map g l).
Proof.
  intros Hf. revert html; induction l as [|x l IH]; intros html; simpl.
  - now rewrite append_nil_r.
  - rewrite IH, Hf, cat_cons, append_assoc. reflexivity.
Qed.

Lemma map_enumerate {A B : Type} (f : A -> B) (start : nat) (l : list A) :
  map (fun item : nat * A => f (snd item)) (enumerate start l) = map f l.
Proof.
  unfold enumerate. revert start; induction l as [|x l IH]; intros start.
  - reflexivity.
  - simpl. now rewrite IH.
Qed.

Lemma enumerate_length {A : Type} (start : nat) (l : list A) :
  List.length (enumerate start l) = List.length l.
Proof.
  unfold enumerate. rewrite length_combine, length_seq. apply Nat.min_id.
Qed.

Lemma enumerate_nth {A : Type} (start : nat) (l : list A) (i : nat) (x : A) :
  nth_error l i = Some x ->
  nth_error (enumerate start l) i = Some (start + i, x).
Proof.
  unfold enumerate. revert start i; induction l as [|y l IH]; intros start i H.
  - destruct i; discriminate.
  - destruct i as [|i]; simpl in *.
    + inversion H. now rewrite Nat.add_0_r.
    + rewrite (IH (S start) i H). f_equal. f_equal. lia.
Qed.

Lemma option_eqb_eq (a b : Key) : Py.option_eqb a b = true <-> a = b.
Proof.
  destruct a as [x|], b as [y|]; simpl; split; intros H;
    try discriminate; try reflexivity.
  - apply String.eqb_eq in H. now subst.
  - inversion H. apply String.eqb_refl.
Qed.

Lemma option_eqb_refl (a : Key) : Py.option_eqb a a = true.
Proof. now apply option_eqb_eq. Qed.

Lemma option_eqb_neq (a b : Key) : Py.option_eqb a b = false <-> a <> b.
Proof.
  split; intros H.
  - intros E. apply option_eqb_eq in E. congruence.
  - destruct (Py.option_eqb a b) eqn:E; [|reflexivity].
    apply option_eqb_eq in E. contradiction.
Qed.

(** *** Dictionaries keyed by ids *)

Lemma kget_kset_same {V : Type} (d : list (Key * V)) (k : Key) (v : V) :
  kget (kset d k v) k = Some v.
Proof.
  unfold kget, kset. induction d as [|[k' v'] d IH]; simpl.
  - now rewrite option_eqb_refl.
  - destruct (Py.option_eqb k' k) eqn:E; simpl; rewrite E; auto.
Qed.

Lemma kget_kset_other {V : Type} (d : list (Key * V)) (k k' : Key) (v : V) :
  k <> k' -> kget (kset d k v) k' = kget d k'.
Proof.
  unfold kget, kset. intros N. induction d as [|[k0 v0] d IH]; simpl.
  - apply option_eqb_neq in N. now rewrite N.
  - destruct (Py.option_eqb k0 k) eqn:E; simpl.
    + apply option_eqb_eq in E. subst k0.
      apply option_eqb_neq in N. now rewrite N.
    + now rewrite IH.
Qed.

Lemma keys_kset {V : Type} (d : list (Key * V)) (k k' : Key) (v : V) :
  In k' (Py.keys (kset d k v)) <-> k' = k \/ In k' (Py.keys d).
Proof.
  clear_program.
  unfold kset, Py.keys. induction d as [|[k0 v0] d IH]; simpl.
  - intuition.
  - destruct (Py.option_eqb k0 k) eqn:E; simpl.
    + apply option_eqb_eq in E. subst. intuition.
    + rewrite IH. intuition.
Qed.

Lemma NoDup_keys_kset {V : Type} (d : list (Key * V)) (k : Key) (v : V) :
  NoDup (Py.keys d) -> NoDup (Py.keys (kset d k v)).
Proof.
  unfold Py.keys. induction d as [|[k0 v0] d IH]; simpl; intros H.
  - unfold kset; simpl. constructor; [intros []|constructor].
  - unfold kset in *; simpl.
    destruct (Py.option_eqb k0 k) eqn:E; simpl.
    + exact H.
    + inversion H as [|? ? Hn Hd]; subst. constructor.
      * intros Hin. apply (keys_kset d k k0 v) in Hin.
        destruct Hin as [->|Hin]; [|contradiction].
        now rewrite option_eqb_refl in E.
      * now apply IH.
Qed.

Lemma kget_In {V : Type} (d : list (Key * V)) (k : Key) :
  kget d k <> None <-> In k (Py.keys d).
Proof.
  clear_program.
  unfold kget, Py.keys. induction d as [|[k0 v0] d IH]; simpl.
  - intuition.
  - destruct (Py.option_eqb k0 k) eqn:E.
    + apply option_eqb_eq in E. subst. split; [auto|discriminate].
    + rewrite IH. apply option_eqb_neq in E. intuition.
Qed.

(** Filling a dictionary from a list of elements. *)
Section Fill.
Context {V : Type}.
Variable key_of : Element -> Key.
Variable val_of : Element -> V.

Lemma fill_app (d : list (Key * V)) (l1 l2 : list Element) :
  fill key_of val_of d (l1 ++ l2) = fill key_of val_of (fill key_of val_of d l1) l2.
Proof. apply fold_left_app. Qed.

Lemma fill_keys (l : list Element) (d : list (Key * V)) (k : Key) :
  In k (Py.keys (fill key_of val_of d l)) <-> In k (Py.keys d) \/ In k (map key_of l).
Proof.
  clear_program.
  revert d; induction l as [|e l IH]; intros d; simpl.
  - intuition.
  - unfold fill in *; simpl. rewrite IH, keys_kset. intuition.
Qed.

Lemma fill_NoDup (l : list Element) (d : list (Key * V)) :
  NoDup (Py.keys d) -> NoDup (Py.keys (fill key_of val_of d l)).
Proof.
  revert d; induction l as [|e l IH]; intros d H; simpl; [exact H|].
  apply IH. now apply NoDup_keys_kset.
Qed.

Lemma fill_untouched (l : list Element) (d : list (Key * V)) (k : Key) :
  ~ In k (map key_of l) -> kget (fill key_of val_of d l) k = kget d k.
Proof.
  revert d; induction l as [|e l IH]; intros d H; simpl; [reflexivity|].
  unfold fill in *; simpl. rewrite IH.
  - apply kget_kset_other. intros E. apply H. left. exact E.
  - intros Hin. apply H. right. exact Hin.
Qed.

(** The last element carrying an id decides the record stored under
    it. *)
Lemma fill_last (l1 l2 : list Element) (e : Element) (d : list (Key * V)) :
  ~ In (key_of e) (map key_of l2) ->
  kget (fill key_of val_of d (l1 ++ e :: l2)) (key_of e) = Some (val_of e).
Proof.
  intros H. rewrite fill_app. change (e :: l2) with ([e] ++ l2).
  rewrite fill_app, fill_untouched by exact H.
  unfold fill; simpl. apply kget_kset_same.
Qed.

(** The number of entries is the number of distinct ids. *)
Lemma fill_length (l : list Element) :
  List.length (fill key_of val_of [] l) = List.length (nodup key_eq_dec (map key_of l)).
Proof.
  clear_program.
  rewrite <- (length_map fst (fill key_of val_of [] l)).
  apply Permutation_length.
  apply NoDup_Permutation.
  - apply (fill_NoDup l []). constructor.
  - apply NoDup_nodup.
  - intros k. rewrite nodup_In.
    change (map fst (fill key_of val_of [] l)) with (Py.keys (fill key_of val_of [] l)).
    rewrite fill_keys. simpl. intuition.
Qed.

(** Every entry comes from an element of the list. *)
Lemma fill_origin (l : list Element) (d : list (Key * V)) (k : Key) (v : V) :
  kget (fill key_of val_of d l) k = Some v ->
  kget d k = Some v \/ exists e, In e l /\ key_of e = k /\ val_of e = v.
Proof.
  revert d; induction l as [|e l IH]; intros d H; simpl in *; [now left|].
  unfold fill in *; simpl in H. apply IH in H.
  destruct H as [H|[e' [Hin [Hk Hv]]]].
  - destruct (key_eq_dec (key_of e) k) as [E|N].
    + subst k. rewrite kget_kset_same in H. inversion H.
      right. exists e. auto.
    + rewrite kget_kset_other in H by exact N. now left.
  - right. exists e'. auto.
Qed.
End Fill.

(* ================================================================ *)
(** ** The loop over the files *)

Lemma count_task_frame (ts : list Tlink) :
  forall (t g g' : list string) (c : list (string * nat)),
    fst (fst (fold_left count_task ts (t, g, c)))
    = fst (fst (fold_left count_task ts (t, g', c)))
    /\ snd (fold_left count_task ts (t, g, c))
       = snd (fold_left count_task ts (t, g', c)).
Proof.
  induction ts as [|x ts IH]; intros t g g' c; simpl.
  - split; reflexivity.
  - destruct (Py.truthy (task x)); apply IH.
Qed.

Lemma filepath_parser_view (path : string) (stored : option string) :
  filepath (parser_view path stored) = path.
Proof.
  unfold parser_view.
  destruct (read_result path stored); [|reflexivity].
  destruct (parse_result path stored); reflexivity.
Qed.

Lemma TempEvalParser_init_spec (path : string) (w : World) :
  TempEvalParser_init path w
  = (parser_view path (fs w path),
     {| fs := fs w; log := log w ++ parser_log path (fs w path) |}).
Proof.
  unfold TempEvalParser_init, parse_file, parser_view, parser_log, bind,
    open_read, ET_parse, print, emit, ret. simpl.
  destruct (read_result path (fs w path)) as [content|e]; simpl.
  - destruct (parse_result path (fs w path)) as [root|e]; simpl;
      rewrite <- !app_assoc; reflexivity.
  - rewrite <- !app_assoc; reflexivity.
Qed.

Lemma get_plain_text_spec (self : TempEvalParser) (w : World) :
  get_plain_text self w
  = (plain_view (filepath self) (fs w (filepath self)),
     {| fs := fs w; log := log w ++ [EvETParse (filepath self)] |}).
Proof.
  unfold get_plain_text, plain_view, bind, ET_parse, ret. simpl.
  destruct (parse_result (filepath self) (fs w (filepath self))); reflexivity.
Qed.

Lemma process_file_spec (n_files : nat) (all_data : list FileData)
  (g : list string) (i : nat) (path : string) (w : World) :
  process_file n_files (all_data, g) (i, path) w
  = ((all_data ++ [file_record path (fs w path)],
      global_after g path (fs w path)),
     {| fs := fs w;
        log := log w ++ file_log n_files i path (fs w path) |}).
Proof.
  unfold process_file, bind at 1 2. unfold print, emit at 1.
  rewrite TempEvalParser_init_spec. cbv beta iota. cbn [fs log].
  unfold file_record, global_after.
  set (parser := parser_view path (fs w path)).
  destruct (get_graph_data parser) as [nodes links] eqn:G.
  pose proof (count_task_frame (tlinks parser) [] g []
                initial_task_counts) as [F1 F2].
  destruct (fold_left count_task (tlinks parser) ([], g, initial_task_counts))
    as [[tasks g'] counts].
  destruct (fold_left count_task (tlinks parser) ([], [], initial_task_counts))
    as [[tasks0 g0] counts0].
  simpl in F1, F2. subst tasks0 counts0.
  unfold bind. rewrite get_plain_text_spec. unfold ret. simpl.
  subst parser. rewrite filepath_parser_view.
  unfold file_log. rewrite <- !app_assoc. reflexivity.
Qed.

Lemma for_each_cons {A S : Type} (body : S -> A -> IO S) (x : A)
  (r : list A) (st : S) (w : World) :
  for_each body (x :: r) st w
  = for_each body r (fst (body st x w)) (snd (body st x w)).
Proof. simpl. unfold bind. destruct (body st x w). reflexivity. Qed.

Lemma for_each_process_spec (n_files : nat) (items : list (nat * string)) :
  forall (all_data : list FileData) (g : list string) (w : World),
    for_each (process_file n_files) items (all_data, g) w
    = ((all_data
          ++ map (fun item => file_record (snd item) (fs w (snd item))) items,
        fold_left (fun g item => global_after g (snd item) (fs w (snd item)))
          items g),
       {| fs := fs w;
          log := log w
                 ++ flat_map (fun item =>
                                file_log n_files (fst item) (snd item)
                                  (fs w (snd item))) items |}).
Proof.
  induction items as [|[i path] items IH]; intros all_data g w.
  - simpl. unfold ret. rewrite !app_nil_r. destruct w; reflexivity.
  - rewrite for_each_cons, process_file_spec. cbn [fst snd].
    rewrite IH. cbn [fs log fst snd map flat_map fold_left].
    rewrite <- !app_assoc. reflexivity.
Qed.

Lemma fold_left_enumerate {A S : Type} (f : S -> A -> S) (start : nat)
  (l : list A) (s : S) :
  fold_left (fun acc (item : nat * A) => f acc (snd item)) (enumerate start l) s
  = fold_left f l s.
Proof.
  unfold enumerate. revert start s; induction l as [|x l IH]; intros start s.
  - reflexivity.
  - simpl. apply IH.
Qed.

Lemma process_files_spec (files : list string) (w : World) :
  process_files files w
  = ((records w files, global_tasks_of w files),
     {| fs := fs w; log := log w ++ files_log w files |}).
Proof.
  unfold process_files. rewrite for_each_process_spec.
  unfold records, global_tasks_of, files_log. simpl.
  rewrite (map_enumerate (fun path => file_record path (fs w path))).
  rewrite (fold_left_enumerate
             (fun g path => global_after g path (fs w path))).
  reflexivity.
Qed.

Lemma read_d3_spec (w : World) :
  read_d3 w = (d3_bundle, {| fs := fs w; log := log w ++ bundle_log |}).
Proof.
  unfold read_d3, bundle_log, d3_notice, bind, print, emit, ret.
  destruct d3_bundle as [js|]; cbn [fst snd fs log app];
    rewrite <- ?app_assoc; reflexivity.
Qed.

Lemma generate_spec (files : list string) (output_path : string) (w : World) :
  generate_multi_file_html files output_path w
  = (tt,
     {| fs := fun p => if String.eqb p output_path || same_file p output_path
                       then Some (encode_utf8 (document w files))
                       else fs w p;
        log := log w
               ++ run_before w files
               ++ [EvOpenWrite output_path (document w files)]
               ++ closing_lines w files output_path |}).
Proof.
  unfold generate_multi_file_html, bind at 1 2. unfold print at 1, emit at 1.
  rewrite process_files_spec. cbv beta iota.
  unfold bind at 1. rewrite read_d3_spec. cbv beta iota.
  unfold bind, print, emit, open_write, document, closing_lines,
    opening_line, run_before.
  cbn [fst snd fs log]. rewrite <- !app_assoc. reflexivity.
Qed.

(* ================================================================ *)
(** ** The graph data *)

Section NodeLoop.
Context {V : Type}.
Variable step : list Node * list (Key * nat) -> Key * V
                -> list Node * list (Key * nat).
Hypothesis step_appends :
  forall nodes ids k v,
    exists n, node_id n = k
              /\ step (nodes, ids) (k, v)
                 = (nodes ++ [n], kset ids k (List.length nodes)).

Lemma step_ids_point (st : list Node * list (Key * nat)) (item : Key * V) :
  ids_point st -> ids_point (step st item).
Proof using step_appends.
  destruct st as [nodes ids], item as [k v]. intros I k' i H.
  destruct (step_appends nodes ids k v) as [n [Hn E]].
  rewrite E in *. simpl in *. rewrite length_app. simpl.
  destruct (key_eq_dec k k') as [->|N].
  - rewrite kget_kset_same in H. inversion H; subst i. split; [lia|].
    rewrite nth_error_app2, Nat.sub_diag by lia. simpl. now rewrite Hn.
  - rewrite kget_kset_other in H by exact N.
    destruct (I k' i H) as [L P]. simpl in *. split; [lia|].
    now rewrite nth_error_app1 by exact L.
Qed.

Lemma loop_ids_point (items : list (Key * V)) :
  forall st, ids_point st -> ids_point (fold_left step items st).
Proof using step_appends.
  induction items as [|x items IH]; intros st I; simpl; [exact I|].
  apply IH. now apply step_ids_point.
Qed.

Lemma loop_keys (items : list (Key * V)) :
  forall st k,
    In k (Py.keys (snd (fold_left step items st)))
    <-> In k (Py.keys (snd st)) \/ In k (Py.keys items).
Proof using step_appends.
  clear_program.
  induction items as [|[k0 v0] items IH]; intros [nodes ids] k; simpl.
  - intuition.
  - destruct (step_appends nodes ids k0 v0) as [n [_ E]].
    rewrite IH, E. simpl. rewrite keys_kset. intuition.
Qed.
End NodeLoop.

Lemma add_event_node_appends (nodes : list Node) (ids : list (Key * nat))
  (k : Key) (v : Event) :
  exists n, node_id n = k
            /\ add_event_node (nodes, ids) (k, v)
               = (nodes ++ [n], kset ids k (List.length nodes)).
Proof. eexists. split; [|reflexivity]. reflexivity. Qed.

Lemma add_timex_node_appends (nodes : list Node) (ids : list (Key * nat))
  (k : Key) (v : Timex) :
  exists n, node_id n = k
            /\ add_timex_node (nodes, ids) (k, v)
               = (nodes ++ [n], kset ids k (List.length nodes)).
Proof. eexists. split; [|reflexivity]. reflexivity. Qed.

Lemma graph_nodes_ids_point (self : TempEvalParser) :
  ids_point (graph_nodes self).
Proof.
  unfold graph_nodes.
  apply (loop_ids_point _ add_timex_node_appends).
  apply (loop_ids_point _ add_event_node_appends).
  intros k i H. discriminate.
Qed.

Lemma graph_nodes_known (self : TempEvalParser) (k : Key) :
  kget (snd (graph_nodes self)) k <> None <-> known self k = true.
Proof.
  clear_program.
  rewrite kget_In. unfold graph_nodes, known.
  rewrite (loop_keys _ add_timex_node_appends).
  rewrite (loop_keys _ add_event_node_appends). simpl.
  rewrite existsb_exists. split.
  - intros H. exists k. split; [|apply option_eqb_refl].
    apply in_or_app. intuition.
  - intros [k' [Hin E]]. apply option_eqb_eq in E. subst k'.
    apply in_app_or in Hin. intuition.
Qed.

Lemma add_link_app (ids : list (Key * nat)) (links : list Link) (t : Tlink) :
  add_link ids links t = links ++ add_link ids [] t.
Proof.
  unfold add_link.
  destruct (Py.truthy (link_src t) && Py.truthy (link_tgt t));
    [|now rewrite app_nil_r].
  destruct (kget ids (link_src t)); [|now rewrite app_nil_r].
  destruct (kget ids (link_tgt t)); [|now rewrite app_nil_r].
  reflexivity.
Qed.

Lemma links_loop (ids : list (Key * nat)) (ts : list Tlink) :
  forall links,
    fold_left (add_link ids) ts links
    = links ++ flat_map (add_link ids []) ts.
Proof.
  induction ts as [|t ts IH]; intros links; simpl.
  - now rewrite app_nil_r.
  - rewrite IH, (add_link_app ids links t), <- app_assoc. reflexivity.
Qed.

Lemma add_link_ok (self : TempEvalParser) (t : Tlink) :
  Forall (link_ok (fst (graph_nodes self)))
    (add_link (snd (graph_nodes self)) [] t).
Proof.
  unfold add_link.
  destruct (Py.truthy (link_src t) && Py.truthy (link_tgt t)); [|constructor].
  destruct (kget (snd (graph_nodes self)) (link_src t)) as [i|] eqn:Es;
    [|constructor].
  destruct (kget (snd (graph_nodes self)) (link_tgt t)) as [j|] eqn:Et;
    [|constructor].
  destruct (graph_nodes_ids_point self _ _ Es) as [Ls Ps].
  destruct (graph_nodes_ids_point self _ _ Et) as [Lt Pt].
  constructor; [|constructor]. repeat split; assumption.
Qed.

Lemma add_link_resolvable (self : TempEvalParser) (t : Tlink) :
  map (fun l => (sourceId l, targetId l, relation l))
    (add_link (snd (graph_nodes self)) [] t)
  = if resolvable self t then [(link_src t, link_tgt t, relType t)] else [].
Proof.
  unfold add_link, resolvable.
  destruct (Py.truthy (link_src t) && Py.truthy (link_tgt t)); simpl;
    [|reflexivity].
  pose proof (graph_nodes_known self (link_src t)) as Ks.
  pose proof (graph_nodes_known self (link_tgt t)) as Kt.
  destruct (kget (snd (graph_nodes self)) (link_src t)) as [i|].
  - assert (known self (link_src t) = true) as -> by (apply Ks; discriminate).
    destruct (kget (snd (graph_nodes self)) (link_tgt t)) as [j|].
    + assert (known self (link_tgt t) = true) as ->
        by (apply Kt; discriminate).
      reflexivity.
    + destruct (known self (link_tgt t)); [|reflexivity].
      exfalso. now apply Kt.
  - destruct (known self (link_src t)); [|reflexivity].
    exfalso. now apply Ks.
Qed.

(** C9.  Every link returned by [get_graph_data] has a source and a target
    below the number of nodes, the node at each of the two indices carries
    the link's [sourceId], respectively [targetId], and the links are, in
    order, those of the tlinks whose two endpoint ids are present and each
    the id of a known event or time expression: any other tlink is
    omitted. *)
Theorem graph_links_point_at_their_nodes (self : TempEvalParser) :
  Forall (link_ok (fst (get_graph_data self))) (snd (get_graph_data self))
  /\ map (fun l => (sourceId l, targetId l, relation l))
       (snd (get_graph_data self))
     = map (fun t => (link_src t, link_tgt t, relType t))
         (filter (resolvable self) (tlinks self)).
Proof.
  unfold get_graph_data.
  pose proof (add_link_ok self) as OK.
  pose proof (add_link_resolvable self) as RES.
  destruct (graph_nodes self) as [nodes ids]. simpl in *.
  rewrite links_loop. simpl. split.
  - induction (tlinks self) as [|t ts IH]; simpl; [constructor|].
    apply Forall_app. split; [apply OK | exact IH].
  - induction (tlinks self) as [|t ts IH]; simpl; [reflexivity|].
    rewrite map_app, RES, IH.
    destruct (resolvable self t); reflexivity.
Qed.

(* ================================================================ *)
(** ** The parser *)

Lemma parser_view_ok (path : string) (stored : option string)
  (content : string) (root : Element) :
  read_result path stored = Ok content ->
  parse_result path stored = Ok root ->
  parser_view path stored
  = extract root (with_raw_xml (fresh_parser path) content).
Proof. unfold parser_view. intros -> ->. reflexivity. Qed.

Lemma extract_fresh (path content : string) (root : Element) :
  let p := extract root (with_raw_xml (fresh_parser path) content) in
  events p = fill eid_of event_of [] (ET.findall root "EVENT")
  /\ timexes p = fill tid_of timex_of [] (ET.findall root "TIMEX3")
  /\ tlinks p = map tlink_of (ET.findall root "TLINK")
  /\ sentences p = map (_render_sentence p) (ET.findall root "s")
  /\ raw_xml p = Some content.
Proof.
  cbv zeta. unfold extract. cbn [events timexes tlinks sentences raw_xml].
  repeat split.
  - cbn [with_raw_xml fresh_parser tlinks]. now rewrite fold_left_snoc.
  - cbn [with_raw_xml fresh_parser sentences]. now rewrite fold_left_snoc.
Qed.

Lemma eval_init (path : string) (w : World) :
  eval (TempEvalParser_init path) w = parser_view path (fs w path).
Proof. unfold eval. now rewrite TempEvalParser_init_spec. Qed.

Lemma eval_process_files (files : list string) (w : World) :
  eval (process_files files) w = (records w files, global_tasks_of w files).
Proof. unfold eval. now rewrite process_files_spec. Qed.

Lemma records_nth (w : World) (files : list string) (i : nat) (path : string) :
  nth_error files i = Some path ->
  nth_error (records w files) i = Some (file_record path (fs w path)).
Proof. intros H. unfold records. now rewrite nth_error_map, H. Qed.

Lemma file_record_counts (path : string) (stored : option string) :
  let d := file_record path stored in
  d_events d = List.length (events (parser_view path stored))
  /\ d_timexes d = List.length (timexes (parser_view path stored))
  /\ d_tlinks d = List.length (tlinks (parser_view path stored))
  /\ d_sentences d = sentences (parser_view path stored)
  /\ d_nodes d = fst (get_graph_data (parser_view path stored))
  /\ d_links d = snd (get_graph_data (parser_view path stored))
  /\ d_plain_text d = plain_view path stored
  /\ d_filename d = Path_name path
  /\ d_filepath d = path.
Proof.
  cbv zeta. unfold file_record.
  destruct (fold_left count_task _ _) as [[tasks g] counts].
  repeat split.
Qed.

(** C10.  The per-file counts count distinct ids: for a file that is read
    and parsed, the event count of its record is the number of distinct
    [eid] values among its [EVENT] elements, the time-expression count the
    number of distinct [tid] values among its [TIMEX3] elements, and the
    record kept under an id is the one of the last element carrying it. *)
Theorem counts_are_distinct_ids (files : list string) (w : World) (i : nat)
  (path content : string) (root : Element) :
  nth_error files i = Some path ->
  read_result path (fs w path) = Ok content ->
  parse_result path (fs w path) = Ok root ->
  exists d,
    nth_error (fst (eval (process_files files) w)) i = Some d
    /\ d_events d
       = List.length
           (nodup key_eq_dec (map eid_of (ET.findall root "EVENT")))
    /\ d_timexes d
       = List.length
           (nodup key_eq_dec (map tid_of (ET.findall root "TIMEX3")))
    /\ (forall l1 e l2,
           ET.findall root "EVENT" = l1 ++ e :: l2 ->
           ~ In (eid_of e) (map eid_of l2) ->
           kget (events (eval (TempEvalParser_init path) w)) (eid_of e)
           = Some (event_of e))
    /\ (forall l1 e l2,
           ET.findall root "TIMEX3" = l1 ++ e :: l2 ->
           ~ In (tid_of e) (map tid_of l2) ->
           kget (timexes (eval (TempEvalParser_init path) w)) (tid_of e)
           = Some (timex_of e)).
Proof.
  intros Hi Hr Hp. exists (file_record path (fs w path)).
  rewrite eval_process_files, eval_init. cbn [fst].
  destruct (file_record_counts path (fs w path)) as (E & T & _).
  rewrite E, T, (parser_view_ok _ _ _ _ Hr Hp).
  destruct (extract_fresh path content root) as (Ev & Tx & _).
  rewrite Ev, Tx, !fill_length.
  split; [now apply records_nth|].
  split; [reflexivity|]. split; [reflexivity|].
  split; intros l1 e l2 -> H; now apply fill_last.
Qed.

(** C6.  For a file that is read and parsed, the parser holds three flat
    collections: [events], keyed by [eid], whose entries carry the text and
    the seven attributes of an [EVENT] element; [timexes], keyed by [tid],
    whose entries carry the text and the three attributes of a [TIMEX3]
    element; and [tlinks], one entry per [TLINK] element in document order,
    carrying its seven attributes.  Every entry is built from one element
    only and every such element has an entry. *)
Theorem parser_extracts_three_flat_records (path : string) (w : World)
  (content : string) (root : Element) :
  read_result path (fs w path) = Ok content ->
  parse_result path (fs w path) = Ok root ->
  let p := eval (TempEvalParser_init path) w in
  (forall k ev,
      kget (events p) k = Some ev ->
      exists e, In e (ET.findall root "EVENT") /\ ET.get e "eid" = k
                /\ ev = {| ev_text := ET.text_or_empty e;
                           ev_class := ET.get e "class";
                           ev_tense := ET.get e "tense";
                           ev_aspect := ET.get e "aspect";
                           ev_polarity := ET.get e "polarity";
                           ev_pos := ET.get e "pos";
                           ev_stem := ET.get e "stem";
                           ev_mainevent := ET.get e "mainevent" |})
  /\ (forall e, In e (ET.findall root "EVENT") ->
                kget (events p) (ET.get e "eid") <> None)
  /\ (forall k tx,
         kget (timexes p) k = Some tx ->
         exists e, In e (ET.findall root "TIMEX3") /\ ET.get e "tid" = k
                   /\ tx = {| tx_text := ET.text_or_empty e;
                              tx_type := ET.get e "type";
                              tx_value := ET.get e "value";
                              tx_functionInDocument :=
                                ET.get e "functionInDocument" |})
  /\ (forall e, In e (ET.findall root "TIMEX3") ->
                kget (timexes p) (ET.get e "tid") <> None)
  /\ tlinks p
     = map (fun e => {| lid := ET.get e "lid";
                        relType := ET.get e "relType";
                        eventID := ET.get e "eventID";
                        timeID := ET.get e "timeID";
                        relatedToEvent := ET.get e "relatedToEvent";
                        relatedToTime := ET.get e "relatedToTime";
                        task := ET.get e "task" |})
         (ET.findall root "TLINK").
Proof.
  intros Hr Hp p. subst p.
  rewrite eval_init, (parser_view_ok _ _ _ _ Hr Hp).
  destruct (extract_fresh path content root) as (Ev & Tx & Tl & _).
  rewrite Ev, Tx, Tl. repeat split.
  - intros k ev H. apply fill_origin in H.
    destruct H as [H|[e (Hin & Hk & Hv)]]; [discriminate|].
    exists e. repeat split; auto.
  - intros e Hin. apply kget_In, fill_keys. right.
    apply (in_map eid_of) in Hin. exact Hin.
  - intros k tx H. apply fill_origin in H.
    destruct H as [H|[e (Hin & Hk & Hv)]]; [discriminate|].
    exists e. repeat split; auto.
  - intros e Hin. apply kget_In, fill_keys. right.
    apply (in_map tid_of) in Hin. exact Hin.
Qed.

(* ================================================================ *)
(** ** The document *)

Lemma emit_tab_button_spec (html : string) (item : nat * FileData) :
  emit_tab_button html item = html +++ tab_button (fst item) (snd item).
Proof. destruct item as [i data]. reflexivity. Qed.

Lemma emit_sentence_spec (html : string) (item : nat * string) :
  emit_sentence html item = html +++ sentence_div (fst item) (snd item).
Proof. destruct item as [j s]. reflexivity. Qed.

Lemma emit_relation_spec (lookup : list (Key * Node)) (html : string)
  (link : Link) :
  emit_relation lookup html link = html +++ relation_item lookup link.
Proof. reflexivity. Qed.

Lemma emit_tab_content_parts (g : list string) (html : string) (i : nat)
  (data : FileData) :
  emit_tab_content g html (i, data)
  = html +++ file_header g i data +++ graph_part i data
      +++ text_section_open i +++ sentences_part data
      +++ relations_open data +++ relations_part data
      +++ export_section i.
Proof.
  unfold emit_tab_content, graph_part, sentences_part, relations_part,
    node_lookup_of.
  rewrite (fold_left_emit emit_sentence
             (fun item => sentence_div (fst item) (snd item)))
    by apply emit_sentence_spec.
  destruct (d_nodes data) as [|n ns]; destruct (d_links data) as [|l ls].
  - rewrite !append_assoc. reflexivity.
  - rewrite (fold_left_emit (emit_relation _) (relation_item _))
      by (intros; apply emit_relation_spec).
    rewrite !append_assoc. reflexivity.
  - rewrite !append_assoc. reflexivity.
  - rewrite (fold_left_emit (emit_relation _) (relation_item _))
      by (intros; apply emit_relation_spec).
    rewrite !append_assoc. reflexivity.
Qed.

Lemma tab_content_parts (g : list string) (i : nat) (data : FileData) :
  tab_content g i data
  = file_header g i data +++ graph_part i data
      +++ text_section_open i +++ sentences_part data
      +++ relations_open data +++ relations_part data
      +++ export_section i.
Proof. unfold tab_content. now rewrite emit_tab_content_parts. Qed.

Lemma emit_tab_content_spec (g : list string) (html : string)
  (item : nat * FileData) :
  emit_tab_content g html item
  = html +++ tab_content g (fst item) (snd item).
Proof.
  destruct item as [i data].
  now rewrite emit_tab_content_parts, tab_content_parts.
Qed.

Lemma build_html_parts (n_files : nat) (all_data : list FileData)
  (g : list string) (d3_js : option string) :
  build_html n_files all_data g d3_js
  = page_head n_files d3_js
      +++ page_top n_files (total d_events all_data)
            (total d_timexes all_data) (total d_tlinks all_data)
      +++ tab_bar all_data +++ tabs_close +++ tab_panels g all_data
      +++ page_script all_data.
Proof.
  unfold build_html, tab_bar, tab_panels.
  rewrite (fold_left_emit emit_tab_button
             (fun item => tab_button (fst item) (snd item)))
    by apply emit_tab_button_spec.
  rewrite (fold_left_emit (emit_tab_content g)
             (fun item => tab_content g (fst item) (snd item)))
    by apply emit_tab_content_spec.
  rewrite !append_assoc. reflexivity.
Qed.

Lemma total_list_sum (field : FileData -> nat) (l : list FileData) :
  total field l = list_sum (map field l).
Proof.
  unfold total.
  assert (G : forall a, fold_left (fun acc d => acc + field d) l a
                        = a + list_sum (map field l)).
  { induction l as [|d l IH]; intros a; simpl; [lia|]. rewrite IH. lia. }
  apply G.
Qed.

Lemma total_records (w : World) (files : list string)
  (field : FileData -> nat) (count : TempEvalParser -> nat) :
  (forall path stored,
      field (file_record path stored) = count (parser_view path stored)) ->
  total field (records w files) = sum_over w files count.
Proof.
  intros H. rewrite total_list_sum. unfold records, sum_over.
  rewrite map_map. f_equal. apply map_ext. intros path.
  now rewrite H, eval_init.
Qed.

Lemma log_generate (files : list string) (output_path : string) (w : World) :
  log (exec (generate_multi_file_html files output_path) w)
  = log w
    ++ run_before w files
    ++ [EvOpenWrite output_path (document w files)]
    ++ closing_lines w files output_path.
Proof. unfold exec. now rewrite generate_spec. Qed.

Lemma write_in_log (files : list string) (output_path : string) (w : World) :
  In (EvOpenWrite output_path (document w files))
    (log (exec (generate_multi_file_html files output_path) w)).
Proof.
  rewrite log_generate. apply in_or_app; right. apply in_or_app; right.
  now left.
Qed.

Lemma notice_in_log (files : list string) (output_path : string) (w : World) :
  In (EvPrint d3_notice)
    (log (exec (generate_multi_file_html files output_path) w)).
Proof.
  rewrite log_generate. unfold run_before, bundle_log.
  apply in_or_app; right. apply in_or_app; left.
  apply in_or_app; right. apply in_or_app; right.
  apply in_or_app; right. apply in_or_app; right. now left.
Qed.

Lemma files_log_in_log (files : list string) (output_path : string)
  (w : World) (e : IOEvent) :
  In e (files_log w files)
  -> In e (log (exec (generate_multi_file_html files output_path) w)).
Proof.
  intros H. rewrite log_generate. unfold run_before.
  apply in_or_app; right. apply in_or_app; left.
  apply in_or_app; right. apply in_or_app; now left.
Qed.

(** C5.  The corpus-wide counts are the sums of the per-file counts: the
    total events, time expressions and temporal links shown in the
    statistics bar of the written document, and printed at the end of the
    run, are the sums over the input files of the number of events, of
    time expressions and of temporal links of the parser built for each
    file. *)
Theorem totals_are_sums_of_file_counts (files : list string)
  (output_path : string) (w : World) :
  let n := List.length files in
  let E := sum_over w files (fun p => List.length (events p)) in
  let T := sum_over w files (fun p => List.length (timexes p)) in
  let L := sum_over w files (fun p => List.length (tlinks p)) in
  let all_data := fst (eval (process_files files) w) in
  let g := snd (eval (process_files files) w) in
  let out := log (exec (generate_multi_file_html files output_path) w) in
  total d_events all_data = E
  /\ total d_timexes all_data = T
  /\ total d_tlinks all_data = L
  /\ In (EvOpenWrite output_path
           (page_head n d3_bundle +++ page_top n E T L
              +++ tab_bar all_data +++ tabs_close +++ tab_panels g all_data
              +++ page_script all_data)) out
  /\ In (EvPrint ("  Total events: " +++ Py.str_of_nat E)) out
  /\ In (EvPrint ("  Total time expressions: " +++ Py.str_of_nat T)) out
  /\ In (EvPrint ("  Total temporal links: " +++ Py.str_of_nat L)) out.
Proof.
  cbv zeta. rewrite eval_process_files. cbn [fst snd].
  assert (HE : total d_events (records w files)
               = sum_over w files (fun p => List.length (events p)))
    by (apply total_records; intros; apply file_record_counts).
  assert (HT : total d_timexes (records w files)
               = sum_over w files (fun p => List.length (timexes p)))
    by (apply total_records; intros; apply file_record_counts).
  assert (HL : total d_tlinks (records w files)
               = sum_over w files (fun p => List.length (tlinks p)))
    by (apply total_records; intros; apply file_record_counts).
  rewrite log_generate. unfold closing_lines.
  rewrite <- HE, <- HT, <- HL.
  repeat split.
  - rewrite <- build_html_parts. fold (document w files).
    apply in_or_app; right. apply in_or_app; right. now left.
  - do 3 (apply in_or_app; right). simpl. auto.
  - do 3 (apply in_or_app; right). simpl. auto.
  - do 3 (apply in_or_app; right). simpl. auto 6.
Qed.

(* ================================================================ *)
(** ** The trace of a run *)

Lemma enumerate_In {A : Type} (start : nat) (l : list A) (item : nat * A) :
  In item (enumerate start l) -> In (snd item) l.
Proof.
  destruct item as [i x]. unfold enumerate. intros H.
  apply in_combine_r in H. exact H.
Qed.

Lemma enumerate_cons {A : Type} (start : nat) (x : A) (l : list A) :
  enumerate start (x :: l) = (start, x) :: enumerate (S start) l.
Proof. reflexivity. Qed.

Lemma enumerate_map {A B : Type} (f : A -> B) (start : nat) (l : list A) :
  enumerate start (map f l)
  = map (fun item => (fst item, f (snd item))) (enumerate start l).
Proof.
  unfold enumerate. rewrite length_map.
  revert start; induction l as [|x l IH]; intros start; simpl.
  - reflexivity.
  - now rewrite IH.
Qed.

Lemma existsb_eqb_In (p : string) (files : list string) :
  In p files -> existsb (String.eqb p) files = true.
Proof.
  intros H. apply existsb_exists. exists p. split; [exact H|].
  apply String.eqb_refl.
Qed.

Lemma file_log_reads (files : list string) (n i : nat) (path : string)
  (stored : option string) :
  In path files ->
  Forall (fun e => is_input_read files e = true) (file_log n i path stored)
  /\ In (EvOpenRead path) (file_log n i path stored).
Proof.
  intros Hin. pose proof (existsb_eqb_In path files Hin) as E.
  unfold file_log, parser_log.
  destruct (read_result path stored); [destruct (parse_result path stored)|];
    (split; [repeat constructor; simpl; auto | simpl; auto]).
Qed.

Lemma files_log_reads (w : World) (files : list string) :
  Forall (fun e => is_input_read files e = true) (files_log w files)
  /\ (forall path, In path files -> In (EvOpenRead path) (files_log w files)).
Proof.
  unfold files_log. generalize (List.length files) as n.
  generalize 1 as start. intros start n.
  assert (G : forall l,
             incl l files ->
             Forall (fun e => is_input_read files e = true)
               (flat_map (fun item => file_log n (fst item) (snd item)
                                        (fs w (snd item)))
                  (enumerate start l))
             /\ (forall path, In path l ->
                   In (EvOpenRead path)
                     (flat_map (fun item => file_log n (fst item) (snd item)
                                              (fs w (snd item)))
                        (enumerate start l)))).
  { intros l. revert start. induction l as [|x l IH]; intros start Hincl.
    - split; [constructor | intros path []].
    - rewrite enumerate_cons. cbn [flat_map fst snd].
      destruct (file_log_reads files n start x (fs w x)) as [F I];
        [apply Hincl; now left|].
      destruct (IH (S start)) as [F' I'];
        [intros y Hy; apply Hincl; now right|].
      split.
      + apply Forall_app. split; [exact F | exact F'].
      + intros path [->|Hp]; apply in_or_app; [left; exact I|right].
        now apply I'. }
  apply G. apply incl_refl.
Qed.

Lemma input_read_not_write (files : list string) (e : IOEvent) :
  is_input_read files e = true -> is_write e = false.
Proof. destruct e; simpl; congruence. Qed.

Lemma bundle_access_not_write (e : IOEvent) :
  is_bundle_access e = true -> is_write e = false.
Proof. destruct e; simpl; congruence. Qed.

Lemma bundle_log_shape :
  Forall (fun e => is_print e = true \/ is_bundle_access e = true) bundle_log
  /\ In (EvExists d3_path) bundle_log.
Proof.
  unfold bundle_log. split; [|now left].
  assert (X : is_bundle_access (EvExists d3_path) = true)
    by apply String.eqb_refl.
  assert (R : is_bundle_access (EvOpenRead d3_path) = true)
    by apply String.eqb_refl.
  destruct d3_bundle as [js|]; cbn [app];
    repeat (apply Forall_cons; [auto|]); apply Forall_nil.
Qed.

(** What precedes the write in the log: prints, reads of input files, the
    test for the bundle and its read. *)
Lemma run_before_shape (files : list string) (w : World) :
  Forall (fun e => is_input_read files e = true \/ is_bundle_access e = true)
    (run_before w files)
  /\ (forall path, In path files -> In (EvOpenRead path) (run_before w files))
  /\ In (EvExists d3_path) (run_before w files).
Proof.
  destruct (files_log_reads w files) as [F I].
  destruct bundle_log_shape as [B E].
  unfold run_before. repeat split.
  - apply Forall_app. split; [repeat constructor; now left|].
    apply Forall_app. split.
    + eapply Forall_impl; [|exact F]. intros e H. now left.
    + eapply Forall_impl; [|exact B]. intros e [H|H]; [left|now right].
      destruct e; try discriminate. reflexivity.
  - intros path H. apply in_or_app. right. apply in_or_app. left. now apply I.
  - apply in_or_app. right. apply in_or_app. now right.
Qed.

Lemma run_until_bundle_shape (files : list string) (w : World) :
  Forall (fun e => is_input_read files e = true \/ is_bundle_access e = true)
    (run_until_bundle w files)
  /\ (forall path, In path files
                   -> In (EvOpenRead path) (run_until_bundle w files))
  /\ In (EvExists d3_path) (run_until_bundle w files).
Proof.
  destruct (files_log_reads w files) as [F I].
  unfold run_until_bundle. repeat split.
  - apply Forall_app. split; [repeat constructor; now left|].
    apply Forall_app. split.
    + eapply Forall_impl; [|exact F]. intros e H. now left.
    + repeat (apply Forall_cons;
                [right; cbn [is_bundle_access]; apply String.eqb_refl|]).
      apply Forall_nil.
  - intros path H. apply in_or_app. right. apply in_or_app. left. now apply I.
  - apply in_or_app. right. apply in_or_app. right. now left.
Qed.

Lemma closing_lines_print (w : World) (files : list string)
  (output_path : string) :
  Forall (fun e => exists line, e = EvPrint line)
    (closing_lines w files output_path).
Proof. unfold closing_lines. repeat constructor; eexists; reflexivity. Qed.

(** The shape of the log of a run that completes: nothing but the write
    itself writes. *)
Lemma run_log_shape (files : list string) (output_path : string) (w : World) :
  log (exec (generate_multi_file_html files output_path) w)
  = log w ++ run_before w files
    ++ [EvOpenWrite output_path (document w files)]
    ++ closing_lines w files output_path
  /\ Forall (fun e => is_write e = false)
       (run_before w files ++ closing_lines w files output_path).
Proof.
  split; [apply log_generate|].
  apply Forall_app. split.
  - destruct (run_before_shape files w) as (F & _).
    eapply Forall_impl; [|exact F].
    intros e [H|H];
      [now apply (input_read_not_write files)
      |now apply bundle_access_not_write].
  - eapply Forall_impl; [|apply closing_lines_print].
    intros e [line ->]. reflexivity.
Qed.

Lemma document_parts (w : World) (files : list string) :
  document w files
  = page_head (List.length files) d3_bundle
      +++ page_top (List.length files)
            (total d_events (records w files))
            (total d_timexes (records w files))
            (total d_tlinks (records w files))
      +++ tab_bar (records w files) +++ tabs_close
      +++ tab_panels (global_tasks_of w files) (records w files)
      +++ page_script (records w files).
Proof. unfold document. apply build_html_parts. Qed.

Lemma active_class_spec (i : nat) :
  active_class i = " active" <-> i = 0.
Proof.
  unfold active_class. destruct i; simpl; split; intros H;
    try reflexivity; discriminate.
Qed.

(** C1.  For a non-empty list of input files a run writes one document,
    in which the tab bar is the sequence of one button per input file and
    the panels are the sequence of one tab-content section per input file,
    both in the order of the input list, the entry at position [i] being
    built with index [i] from the record of the [i]-th file; the button
    and the section of the first file, and of no other, carry the class
    [active]. *)
Theorem one_tab_per_file (files : list string) (output_path : string)
  (w : World) :
  files <> [] ->
  let all_data := fst (eval (process_files files) w) in
  let g := snd (eval (process_files files) w) in
  let buttons :=
    map (fun item => tab_button (fst item) (snd item)) (enumerate 0 all_data) in
  let panels :=
    map (fun item => tab_content g (fst item) (snd item))
      (enumerate 0 all_data) in
  let doc :=
    page_head (List.length files) d3_bundle
      +++ page_top (List.length files) (total d_events all_data)
            (total d_timexes all_data) (total d_tlinks all_data)
      +++ cat buttons +++ tabs_close +++ cat panels
      +++ page_script all_data in
  (exists before after,
      log (exec (generate_multi_file_html files output_path) w)
      = log w ++ before ++ [EvOpenWrite output_path doc] ++ after
      /\ Forall (fun e => is_write e = false) (before ++ after))
  /\ List.length buttons = List.length files
  /\ List.length panels = List.length files
  /\ (forall i path,
         nth_error files i = Some path ->
         exists d,
           nth_error all_data i = Some d
           /\ d_filepath d = path /\ d_filename d = Path_name path
           /\ nth_error buttons i = Some (tab_button i d)
           /\ nth_error panels i = Some (tab_content g i d))
  /\ (forall i d,
         exists rest,
           tab_button i d
           = q "            <button class=`tab" +++ active_class i
               +++ q "` onclick=`showTab(" +++ Py.str_of_nat i +++ rest)
  /\ (forall i d,
         exists rest,
           tab_content g i d
           = q "        <div class=`tab-content" +++ active_class i
               +++ q "` id=`tab-" +++ Py.str_of_nat i +++ rest)
  /\ (exists first others, files = first :: others
        /\ hd_error buttons
           = Some (tab_button 0 (file_record first (fs w first))))
  /\ (forall i, active_class i = " active" <-> i = 0).
Proof.
  intros Hne. cbv zeta. rewrite eval_process_files. cbn [fst snd].
  repeat split.
  - destruct (run_log_shape files output_path w) as (Hlog & Hw).
    exists (run_before w files), (closing_lines w files output_path). split.
    + rewrite Hlog, document_parts. reflexivity.
    + exact Hw.
  - rewrite length_map, enumerate_length. unfold records. apply length_map.
  - rewrite length_map, enumerate_length. unfold records. apply length_map.
  - intros i path Hi. exists (file_record path (fs w path)).
    pose proof (records_nth w files i path Hi) as Hn.
    destruct (file_record_counts path (fs w path))
      as (_ & _ & _ & _ & _ & _ & _ & Hname & Hpath).
    repeat split; try assumption.
    + rewrite nth_error_map, (enumerate_nth 0 _ i _ Hn). reflexivity.
    + rewrite nth_error_map, (enumerate_nth 0 _ i _ Hn). reflexivity.
  - intros i d. eexists. unfold tab_button, emit_tab_button.
    cbn [String.append]. reflexivity.
  - intros i d. eexists. rewrite tab_content_parts. unfold file_header.
    rewrite !append_assoc. reflexivity.
  - destruct files as [|first others]; [contradiction|].
    exists first, others. split; reflexivity.
  - apply active_class_spec.
  - apply active_class_spec.
Qed.


Lemma read_d3_or_raise_spec (w : World) :
  read_d3_or_raise w
  = match bundle_fails with
    | Some msg =>
        (Raise msg,
         {| fs := fs w;
            log := log w ++ [EvExists d3_path; EvOpenRead d3_path] |})
    | None => (Ok d3_bundle, {| fs := fs w; log := log w ++ bundle_log |})
    end.
Proof.
  unfold read_d3_or_raise, bundle_fails.
  destruct d3_bundle as [js|] eqn:B; [destruct d3_read_error as [msg|]|].
  - unfold bind, emit, ret. cbn [fst snd fs log].
    rewrite <- app_assoc. reflexivity.
  - unfold bind at 1. rewrite read_d3_spec, B. reflexivity.
  - unfold bind at 1. rewrite read_d3_spec, B. reflexivity.
Qed.

(** Every run: the one that completes is [generate_multi_file_html]; the
    others stop at the read of the bundle or at the write. *)
Lemma generate_or_raise_spec (files : list string) (output_path : string)
  (w : World) :
  generate_or_raise files output_path w
  = match bundle_fails with
    | Some msg =>
        (Raise msg,
         {| fs := fs w; log := log w ++ run_until_bundle w files |})
    | None =>
        match write_outcome output_path with
        | Written =>
            (Ok tt, exec (generate_multi_file_html files output_path) w)
        | OpenRaises msg =>
            (Raise msg,
             {| fs := fs w;
                log := log w ++ run_before w files
                       ++ [EvWriteRaises output_path] |})
        | WriteRaises msg kept =>
            (Raise msg,
             {| fs := fun p => if written_by output_path p then Some kept
                               else fs w p;
                log := log w ++ run_before w files
                       ++ [EvWriteRaises output_path] |})
        end
    end.
Proof.
  unfold generate_or_raise, bind at 1 2. unfold print at 1, emit at 1.
  rewrite process_files_spec. cbv beta iota.
  unfold bind at 1. rewrite read_d3_or_raise_spec.
  destruct bundle_fails as [msg|].
  - unfold ret, run_until_bundle, opening_line. cbn [fst snd fs log].
    rewrite <- !app_assoc. reflexivity.
  - cbv beta iota. unfold bind at 1, open_write_or_raise.
    destruct (write_outcome output_path) as [|msg|msg kept].
    + unfold exec. rewrite generate_spec.
      unfold bind, print, emit, open_write, ret, document, closing_lines,
        opening_line, run_before.
      cbn [fst snd fs log]. rewrite <- !app_assoc. reflexivity.
    + unfold bind, emit, ret, run_before, opening_line.
      cbn [fst snd fs log]. rewrite <- !app_assoc. reflexivity.
    + unfold ret, run_before, opening_line, written_by.
      cbn [fst snd fs log]. rewrite <- !app_assoc. reflexivity.
Qed.

(** C8 (as amended).  In every run, what the program does before it writes
    is printing, reading input files, testing for the D3 bundle and reading
    it, and every input file is opened for reading there.  A run that
    completes then writes the document to the output path, once, and only
    prints afterwards; a run ended by an exception of the read of the
    bundle or of the write has written nothing else, and has at most one
    failed write to the output path as its last event.  In every run a
    file other than the one the output path names holds what it held
    before; in a run that completes the file the output path names holds
    the encoded document.  A run completes exactly when neither the read
    of the bundle nor the write raises. *)
Theorem run_reads_inputs_then_writes_once (files : list string)
  (output_path : string) (w : World) :
  let r := generate_or_raise files output_path w in
  let w' := snd r in
  (exists before after,
      log w' = log w ++ before ++ after
      /\ Forall (fun e => is_input_read files e = true
                          \/ is_bundle_access e = true) before
      /\ (forall path, In path files -> In (EvOpenRead path) before)
      /\ In (EvExists d3_path) before
      /\ match fst r with
         | Ok _ =>
             exists lines,
               after = EvOpenWrite output_path (document w files) :: lines
               /\ Forall (fun e => exists line, e = EvPrint line) lines
         | Raise _ => after = [] \/ after = [EvWriteRaises output_path]
         end)
  /\ (forall p, written_by output_path p = false -> fs w' p = fs w p)
  /\ (forall p, In p files -> written_by output_path p = false
                -> fs w' p = fs w p)
  /\ (fst r = Ok tt
      -> forall p, written_by output_path p = true
                   -> fs w' p = Some (encode_utf8 (document w files)))
  /\ written_by output_path output_path = true
  /\ (fst r = Ok tt
      <-> bundle_fails = None /\ write_outcome output_path = Written)
  /\ (fst r = Ok tt
      -> w' = exec (generate_multi_file_html files output_path) w).
Proof.
  cbv zeta. rewrite generate_or_raise_spec.
  destruct (run_before_shape files w) as (F & I & E).
  destruct (run_until_bundle_shape files w) as (F' & I' & E').
  assert (W : written_by output_path output_path = true)
    by (unfold written_by; now rewrite String.eqb_refl).
  destruct bundle_fails as [msg|].
  - cbn [fst snd fs log]. repeat split; try discriminate; try easy.
    exists (run_until_bundle w files), []. rewrite app_nil_r.
    repeat split; auto.
  - destruct (write_outcome output_path) as [|msg|msg kept];
      cbn [fst snd fs log].
    + unfold exec. rewrite generate_spec. cbn [fst snd fs log].
      fold (written_by output_path). repeat split; try easy.
      * exists (run_before w files),
          ([EvOpenWrite output_path (document w files)]
             ++ closing_lines w files output_path).
        repeat split; try assumption.
        exists (closing_lines w files output_path).
        split; [reflexivity | apply closing_lines_print].
      * intros p H. unfold written_by in H. now rewrite H.
      * intros p _ H. unfold written_by in H. now rewrite H.
      * intros _ p H. unfold written_by in H. now rewrite H.
    + repeat split; try discriminate; try easy.
      exists (run_before w files), [EvWriteRaises output_path].
      repeat split; auto.
    + repeat split; try discriminate; try easy.
      * exists (run_before w files), [EvWriteRaises output_path].
        repeat split; auto.
      * intros p H. now rewrite H.
      * intros p _ H. now rewrite H.
Qed.
(* ================================================================ *)
(** ** The panel of a file *)











(* ================================================================ *)
(** ** The D3 library *)

Lemma document_head (w : World) (files : list string) :
  document w files
  = page_head (List.length files) d3_bundle
      +++ page_body (List.length files) (records w files)
            (global_tasks_of w files).
Proof. rewrite document_parts. reflexivity. Qed.

Lemma page_head_cases (n : nat) (d3_js : option string) (rest : string) :
  page_head n d3_js +++ rest
  = head_open n
      +++ match d3_js with
          | Some (String c js) => String c js +++ script_close
          | _ => script_close +++ d3_cdn_tag
          end
      +++ rest.
Proof.
  unfold page_head. destruct d3_js as [[|c js]|]; cbn [Py.truthy Py.fmt];
    rewrite !append_assoc; cbn [String.append];
    rewrite ?append_nil_r; reflexivity.
Qed.

(** C3 (as amended).  The written document carries the text of the D3
    library in its inline script, and no script tag pointing at the CDN,
    exactly when [d3.v7.min.js] is found beside the script and is not
    empty; otherwise the inline script is empty and the document carries
    the script tag that loads D3 from the CDN.  The rest of the document
    is the same in both cases. *)
Theorem d3_embedded_when_bundled (files : list string) (output_path : string)
  (w : World) :
  let n := List.length files in
  let all_data := fst (eval (process_files files) w) in
  let g := snd (eval (process_files files) w) in
  In (EvOpenWrite output_path
        (head_open n
           +++ match d3_bundle with
               | Some (String c js) => String c js +++ script_close
               | _ => script_close +++ d3_cdn_tag
               end
           +++ page_body n all_data g))
    (log (exec (generate_multi_file_html files output_path) w))
  /\ d3_cdn_tag = q "<script src=`https://d3js.org/d3.v7.min.js`></script>".
Proof.
  cbv zeta. rewrite eval_process_files. cbn [fst snd].
  split; [|reflexivity].
  rewrite <- page_head_cases, <- document_head. apply write_in_log.
Qed.

(* ================================================================ *)
(** ** Files are processed one by one *)

Lemma tab_content_sorted_tasks (g1 g2 : list string) (i : nat) (d : FileData) :
  Py.sorted g1 = Py.sorted g2 -> tab_content g1 i d = tab_content g2 i d.
Proof.
  intros H. rewrite !tab_content_parts.
  unfold file_header, task_info_of. now rewrite H.
Qed.

Lemma panel_nth (g : list string) (all_data : list FileData) (i : nat)
  (d : FileData) :
  nth_error all_data i = Some d ->
  nth_error (map (fun item => tab_content g (fst item) (snd item))
               (enumerate 0 all_data)) i
  = Some (tab_content g i d).
Proof.
  intros H. now rewrite nth_error_map, (enumerate_nth 0 _ i _ H).
Qed.

Lemma button_nth (all_data : list FileData) (i : nat) (d : FileData) :
  nth_error all_data i = Some d ->
  nth_error (map (fun item => tab_button (fst item) (snd item))
               (enumerate 0 all_data)) i
  = Some (tab_button i d).
Proof.
  intros H. now rewrite nth_error_map, (enumerate_nth 0 _ i _ H).
Qed.

(** C4 (as amended).  Take two runs in which the same path stands in the
    input list and holds the same bytes.  The record built for it (names,
    counts, sentences, nodes, links, tasks, plain text, raw XML) is the
    same in both runs, wherever the path stands and whatever the other
    files are.  When the path stands at the same position in both lists its
    tab button is the same, and its tab content is the same as soon as the
    two corpora show the same set of task names. *)
Theorem file_record_depends_on_own_file (files1 files2 : list string)
  (w1 w2 : World) (i j : nat) (path : string) :
  nth_error files1 i = Some path ->
  nth_error files2 j = Some path ->
  fs w1 path = fs w2 path ->
  let all_data1 := fst (eval (process_files files1) w1) in
  let all_data2 := fst (eval (process_files files2) w2) in
  let g1 := snd (eval (process_files files1) w1) in
  let g2 := snd (eval (process_files files2) w2) in
  let buttons all_data :=
    map (fun item => tab_button (fst item) (snd item)) (enumerate 0 all_data) in
  let panels g all_data :=
    map (fun item => tab_content g (fst item) (snd item))
      (enumerate 0 all_data) in
  nth_error all_data1 i = nth_error all_data2 j
  /\ nth_error all_data1 i = Some (file_record path (fs w1 path))
  /\ (i = j ->
      nth_error (buttons all_data1) i = nth_error (buttons all_data2) j)
  /\ (i = j -> Py.sorted g1 = Py.sorted g2 ->
      nth_error (panels g1 all_data1) i = nth_error (panels g2 all_data2) j).
Proof.
  intros H1 H2 Hfs. cbv zeta. rewrite !eval_process_files. cbn [fst snd].
  pose proof (records_nth w1 files1 i path H1) as R1.
  pose proof (records_nth w2 files2 j path H2) as R2.
  rewrite <- Hfs in R2.
  repeat split.
  - now rewrite R1, R2.
  - exact R1.
  - intros <-. now rewrite (button_nth _ _ _ R1), (button_nth _ _ _ R2).
  - intros <- Hg.
    rewrite (panel_nth _ _ _ _ R1), (panel_nth _ _ _ _ R2).
    f_equal. now apply tab_content_sorted_tasks.
Qed.

Lemma enumerate_In_inv {A : Type} (start : nat) (l : list A) (x : A) :
  In x l -> exists k, In (k, x) (enumerate start l).
Proof.
  revert start; induction l as [|y l IH]; intros start H; [destruct H|].
  rewrite enumerate_cons. destruct H as [->|H].
  - exists start. now left.
  - destruct (IH (S start) H) as [k Hk]. exists k. now right.
Qed.

Lemma parser_log_in_files_log (w : World) (files : list string)
  (path : string) (e : IOEvent) :
  In path files ->
  In e (parser_log path (fs w path)) -> In e (files_log w files).
Proof.
  intros Hin He. destruct (enumerate_In_inv 1 files path Hin) as [k Hk].
  unfold files_log. apply in_flat_map. exists (k, path).
  split; [exact Hk|]. unfold file_log. cbn [fst snd].
  apply in_or_app. right. apply in_or_app. left. exact He.
Qed.

Lemma parse_failure_logged (path : string) (stored : option string)
  (e : string) :
  parse_result path stored = Raise e ->
  exists msg, In (EvPrint (error_line path msg)) (parser_log path stored).
Proof.
  intros H. unfold parser_log.
  destruct (read_result path stored) as [content|msg].
  - rewrite H. exists e. simpl. auto.
  - exists msg. simpl. auto.
Qed.

Lemma parse_failure_record (path : string) (stored : option string)
  (e : string) :
  parse_result path stored = Raise e ->
  no_parsed_content (file_record path stored)
  /\ forall g, global_after g path stored = g.
Proof.
  intros H.
  assert (P : exists raw,
             parser_view path stored
             = {| filepath := path; events := []; timexes := [];
                  tlinks := []; sentences := []; raw_xml := raw |}).
  { unfold parser_view. rewrite H.
    destruct (read_result path stored); eexists; reflexivity. }
  destruct P as [raw P].
  unfold no_parsed_content, file_record, global_after, plain_view.
  rewrite P, H. cbn. repeat split.
Qed.

(** C2 (as amended).  If [ET.parse] raises on an input file (the file is
    missing or is not well-formed XML), an [Error parsing] line is printed
    for it and its record holds no parsed content: no event, no time
    expression, no link, no sentence, no node, no task and an empty plain
    text; it adds no task name to the corpus.  The run goes on: every
    input file, this one included, has its record in [all_data], each the
    record of its own path and bytes, and the document is written. *)
Theorem parse_failure_is_logged_and_skipped (files : list string)
  (output_path : string) (w : World) (i : nat) (path e : string) :
  nth_error files i = Some path ->
  parse_result path (fs w path) = Raise e ->
  let all_data := fst (eval (process_files files) w) in
  let out := log (exec (generate_multi_file_html files output_path) w) in
  (exists d msg,
      nth_error all_data i = Some d
      /\ no_parsed_content d
      /\ In (EvPrint (error_line path msg)) out)
  /\ (forall g, global_after g path (fs w path) = g)
  /\ List.length all_data = List.length files
  /\ (forall j p, nth_error files j = Some p ->
                  nth_error all_data j = Some (file_record p (fs w p)))
  /\ In (EvOpenWrite output_path (document w files)) out.
Proof.
  intros Hi Hp. cbv zeta. rewrite eval_process_files. cbn [fst].
  destruct (parse_failure_record _ _ _ Hp) as [Hnone Hg].
  destruct (parse_failure_logged _ _ _ Hp) as [msg Hmsg].
  repeat split.
  - exists (file_record path (fs w path)), msg.
    split; [now apply records_nth|]. split; [exact Hnone|].
    apply files_log_in_log.
    apply (parser_log_in_files_log w files path); [|exact Hmsg].
    eapply nth_error_In. exact Hi.
  - exact Hg.
  - unfold records. apply length_map.
  - intros j p Hj. now apply records_nth.
  - apply write_in_log.
Qed.

(* ================================================================ *)
(** ** The rest of the script: [main] and further views *)

(** The parsed command line: [directories] (one or more), [--output] and
    [--limit]. *)
Record Args := mkArgs {
  directories : list string;
  output : string;
  limit : option Z
}.

(** [Path(directory)]: [None] when [path.exists()] is false, and else
    the paths that [path.glob('*.tml')] yields, as strings, in the order
    in which it yields them. *)
Variable glob_tml : string -> option (list string).

(** [l[:n]] for any integer [n]. *)
Definition slice_to {A : Type} (l : list A) (n : Z) : list A :=
  if (0 <=? n)%Z then firstn (Z.to_nat n) l
  else firstn (Z.to_nat (Z.of_nat (List.length l) + n)) l.

(** The body of the loop over [args.directories].  [sorted] compares
    paths; the paths of one directory differ in their last component
    only, so that their order is the order of the strings (on a POSIX
    system, where paths compare by case). *)
Definition scan_directory (tml_files : list string) (directory : string)
  : IO (list string) :=
  match glob_tml directory with
  | None =>
      print ("Warning: Directory not found: " +++ directory) ;;
      ret tml_files
  | Some globbed =>
      let dir_files := Py.sorted globbed in
      let tml_files := tml_files ++ dir_files in
      print ("Found " +++ Py.str_of_nat (List.length dir_files)
             +++ " files in " +++ directory) ;;
      ret tml_files
  end.

(** [if args.limit: tml_files = tml_files[:args.limit]]. *)
Definition apply_limit (limit : option Z) (tml_files : list string)
  : list string :=
  match limit with
  | Some n => if (n =? 0)%Z then tml_files else slice_to tml_files n
  | None => tml_files
  end.

(** [main], from the parsed arguments on; the result is the status passed
    to [sys.exit], if any.  The call of [generate_multi_file_html] is the
    one that completes. *)
Definition main (args : Args) : IO (option nat) :=
  tml_files <- for_each scan_directory (directories args) [] ;;
  match tml_files with
  | [] =>
      print "Error: No .tml files found in any directory" ;;
      ret (Some 1)
  | _ :: _ =>
      let tml_files := apply_limit (limit args) tml_files in
      print (LF +++ "Total: " +++ Py.str_of_nat (List.length tml_files)
             +++ " .tml files") ;;
      generate_multi_file_html tml_files (output args) ;;
      ret None
  end.

(** The files found in one directory, in the order in which [main]
    takes them, and those found in a list of directories. *)
Definition dir_files_of (directory : string) : list string :=
  match glob_tml directory with
  | Some globbed => Py.sorted globbed
  | None => []
  end.

Definition found_in (dirs : list string) : list string :=
  flat_map dir_files_of dirs.

(** What the scan prints for a directory. *)
Definition scan_line (directory : string) : IOEvent :=
  match glob_tml directory with
  | None => EvPrint ("Warning: Directory not found: " +++ directory)
  | Some globbed =>
      EvPrint ("Found " +++ Py.str_of_nat (List.length (Py.sorted globbed))
               +++ " files in " +++ directory)
  end.

Definition total_line (files : list string) : IOEvent :=
  EvPrint (LF +++ "Total: " +++ Py.str_of_nat (List.length files)
           +++ " .tml files").

(** The nodes built from the two dictionaries. *)
Definition event_node (item : Key * Event) : Node :=
  EventNode (fst item) (Py.take 15 (ev_text (snd item))) (ev_text (snd item))
    (ev_class (snd item)).

Definition timex_node (item : Key * Timex) : Node :=
  TimexNode (fst item) (Py.take 15 (tx_text (snd item))) (tx_text (snd item))
    (tx_value (snd item)).

Definition node_label (n : Node) : string :=
  match n with EventNode _ l _ _ | TimexNode _ l _ _ => l end.

(** [{node['id']: node for node in nodes}]. *)
Definition lookup_of (nodes : list Node) : list (Key * Node) :=
  fold_left (fun d node => kset d (node_id node) node) nodes [].

(** The task names counted for a list of tlinks: the truthy [task]
    values, in order. *)
Definition task_names (ts : list Tlink) : list string :=
  flat_map (fun tl => if Py.truthy (task tl) then [Py.fmt (task tl)] else [])
    ts.

(** The tlinks counted for the task [t]. *)
Definition has_task (t : string) (tl : Tlink) : bool :=
  Py.truthy (task tl) && Py.option_eqb (task tl) (Some t).

Definition bump (task_counts : list (string * nat)) (t : string)
  : list (string * nat) :=
  Py.dict_set String.eqb task_counts t (sget task_counts t 0 + 1).

Definition leb_prop (a b : string) : Prop := String.leb a b = true.

(** The lookup by id built for the relations list agrees with the
    indices recorded in [node_ids]. *)
Definition ids_agree (st : list Node * list (Key * nat)) : Prop :=
  forall k i,
    kget (snd st) k = Some i ->
    kget (lookup_of (fst st)) k = nth_error (fst st) i.

(* ================================================================ *)
(** ** Properties of [main] *)

Lemma insert_sorted_perm (x : string) (l : list string) :
  Permutation (x :: l) (Py.insert_sorted x l).
Proof.
  induction l as [|y l IH]; simpl; [reflexivity|].
  destruct (String.leb x y); [reflexivity|].
  rewrite perm_swap. now apply perm_skip.
Qed.

Lemma sorted_perm (l : list string) : Permutation l (Py.sorted l).
Proof.
  unfold Py.sorted. induction l as [|x l IH]; simpl; [reflexivity|].
  rewrite <- insert_sorted_perm. now apply perm_skip.
Qed.

Lemma insert_sorted_Sorted (x : string) (l : list string) :
  Sorted leb_prop l -> Sorted leb_prop (Py.insert_sorted x l).
Proof.
  induction l as [|y l IH]; simpl; intros H.
  - repeat constructor.
  - destruct (String.leb x y) eqn:E.
    + constructor; [exact H|]. constructor. exact E.
    + inversion H as [|? ? Hs Hh]; subst.
      constructor; [now apply IH|].
      assert (Hyx : leb_prop y x).
      { destruct (String.leb_total x y) as [T|T]; [congruence | exact T]. }
      destruct l as [|z l]; simpl.
      * constructor. exact Hyx.
      * destruct (String.leb x z); constructor; [exact Hyx|].
        inversion Hh; assumption.
Qed.

Lemma sorted_Sorted (l : list string) : Sorted leb_prop (Py.sorted l).
Proof.
  unfold Py.sorted. induction l as [|x l IH]; simpl; [constructor|].
  now apply insert_sorted_Sorted.
Qed.

Lemma compare_le_trans (s1 : string) :
  forall s2 s3,
    String.compare s1 s2 <> Gt -> String.compare s2 s3 <> Gt
    -> String.compare s1 s3 <> Gt.
Proof.
  induction s1 as [|c1 s1 IH]; intros [|c2 s2] [|c3 s3]; simpl;
    try congruence.
  unfold Ascii.compare.
  destruct (N.compare_spec (N_of_ascii c1) (N_of_ascii c2)),
    (N.compare_spec (N_of_ascii c2) (N_of_ascii c3)),
    (N.compare_spec (N_of_ascii c1) (N_of_ascii c3));
    try congruence; try lia.
  apply IH.
Qed.

Lemma leb_trans (a b c : string) : leb_prop a b -> leb_prop b c -> leb_prop a c.
Proof.
  unfold leb_prop, String.leb. intros H1 H2.
  pose proof (compare_le_trans a b c) as T.
  destruct (String.compare a b), (String.compare b c), (String.compare a c);
    try reflexivity; try discriminate; exfalso; apply T; congruence.
Qed.

Lemma sorted_unique (l : list string) :
  forall l', StronglySorted leb_prop l -> StronglySorted leb_prop l'
             -> Permutation l l' -> l = l'.
Proof.
  induction l as [|a l IH]; intros l' S S' P.
  - apply Permutation_nil in P. now subst.
  - destruct l' as [|b l'];
      [apply Permutation_sym, Permutation_nil in P; discriminate|].
    apply StronglySorted_inv in S. destruct S as [S A].
    apply StronglySorted_inv in S'. destruct S' as [S' B].
    assert (E : a = b).
    { assert (Ia : In a (b :: l'))
        by (apply (Permutation_in a P); now left).
      assert (Ib : In b (a :: l))
        by (apply (Permutation_in b (Permutation_sym P)); now left).
      destruct Ia as [->|Ia]; [reflexivity|].
      destruct Ib as [->|Ib]; [reflexivity|].
      apply String.leb_antisym.
      - rewrite Forall_forall in A. now apply A.
      - rewrite Forall_forall in B. now apply B. }
    subst b. f_equal. apply IH; try assumption.
    now apply Permutation_cons_inv in P.
Qed.

Lemma sorted_of_perm (l l' : list string) :
  Permutation l l' -> Py.sorted l = Py.sorted l'.
Proof.
  intros P. apply sorted_unique.
  - apply Sorted_StronglySorted; [exact leb_trans | apply sorted_Sorted].
  - apply Sorted_StronglySorted; [exact leb_trans | apply sorted_Sorted].
  - rewrite <- (sorted_perm l), <- (sorted_perm l'). exact P.
Qed.

Lemma scan_directory_spec (acc : list string) (d : string) (w : World) :
  scan_directory acc d w
  = (acc ++ found_in [d],
     {| fs := fs w; log := log w ++ [scan_line d] |}).
Proof.
  unfold scan_directory, scan_line, found_in, dir_files_of. cbn [flat_map].
  destruct (glob_tml d); unfold bind, print, emit, ret; cbn [fst snd];
    rewrite !app_nil_r; reflexivity.
Qed.

Lemma found_in_cons (d : string) (dirs : list string) :
  found_in (d :: dirs) = found_in [d] ++ found_in dirs.
Proof. unfold found_in. cbn [flat_map]. now rewrite app_nil_r. Qed.

Lemma scan_spec (dirs : list string) :
  forall (acc : list string) (w : World),
    for_each scan_directory dirs acc w
    = (acc ++ found_in dirs,
       {| fs := fs w; log := log w ++ map scan_line dirs |}).
Proof.
  induction dirs as [|d dirs IH]; intros acc w.
  - simpl. unfold ret. rewrite !app_nil_r. destruct w; reflexivity.
  - rewrite for_each_cons, scan_directory_spec. cbn [fst snd].
    rewrite IH, (found_in_cons d dirs). cbn [fs log map].
    rewrite <- !app_assoc. reflexivity.
Qed.

Lemma main_spec (args : Args) (w : World) :
  main args w
  = match found_in (directories args) with
    | [] =>
        (Some 1,
         {| fs := fs w;
            log := log w ++ map scan_line (directories args)
                   ++ [EvPrint "Error: No .tml files found in any directory"]
         |})
    | _ :: _ =>
        let files := apply_limit (limit args) (found_in (directories args)) in
        (None,
         exec (generate_multi_file_html files (output args))
           {| fs := fs w;
              log := log w ++ map scan_line (directories args)
                     ++ [total_line files] |})
    end.
Proof.
  unfold main, bind at 1. rewrite scan_spec. cbn [app].
  destruct (found_in (directories args)) as [|f fs0].
  - unfold bind, print, emit, ret. cbn [fst snd fs log].
    now rewrite <- app_assoc.
  - cbv zeta. unfold bind, print, emit, ret, total_line, exec.
    cbn [fst snd fs log]. rewrite <- app_assoc.
    destruct (generate_multi_file_html _ _ _) as [u w']. reflexivity.
Qed.

(** X1.  When no directory yields a file (each is missing or holds no
    [.tml] file) [main] prints one line per directory and the error line,
    returns the exit status 1, and neither reads nor writes a file. *)
Theorem main_exits_when_nothing_found (args : Args) (w : World) :
  found_in (directories args) = [] ->
  eval (main args) w = Some 1
  /\ fs (exec (main args) w) = fs w
  /\ log (exec (main args) w)
     = log w ++ map scan_line (directories args)
       ++ [EvPrint "Error: No .tml files found in any directory"]
  /\ Forall (fun d => exists line, scan_line d = EvPrint line)
       (directories args).
Proof.
  intros H. unfold eval, exec. rewrite main_spec, H. cbn [fst snd fs log].
  repeat split. apply Forall_forall. intros d _. unfold scan_line.
  destruct (glob_tml d); eexists; reflexivity.
Qed.

(** X2.  When some directory yields a file, [main] returns normally and
    its effect is that of [generate_multi_file_html] on the files found,
    cut by [--limit], run after the scan lines and the [Total] line are
    printed.  The files found are those of the directories that exist, in
    the order of the command line; the files of one directory are what
    the glob yields, rearranged in ascending order, whatever the order in
    which the glob yields them.  A missing directory adds a warning and
    no file; a directory that exists adds a line with the number of its
    files. *)
Theorem main_runs_generate_on_found_files (args : Args) (w : World) :
  found_in (directories args) <> [] ->
  let files := apply_limit (limit args) (found_in (directories args)) in
  eval (main args) w = None
  /\ exec (main args) w
     = exec (generate_multi_file_html files (output args))
         {| fs := fs w;
            log := log w ++ map scan_line (directories args)
                   ++ [total_line files] |}
  /\ found_in (directories args)
     = concat (map dir_files_of (directories args))
  /\ (forall d,
        match glob_tml d with
        | Some globbed =>
            Sorted leb_prop (dir_files_of d)
            /\ Permutation globbed (dir_files_of d)
            /\ (forall globbed', Permutation globbed globbed'
                                 -> Py.sorted globbed' = dir_files_of d)
            /\ scan_line d
               = EvPrint ("Found " +++ Py.str_of_nat (List.length globbed)
                          +++ " files in " +++ d)
        | None =>
            dir_files_of d = []
            /\ scan_line d = EvPrint ("Warning: Directory not found: " +++ d)
        end).
Proof.
  intros H. cbv zeta. unfold eval, exec at 1. rewrite main_spec.
  destruct (found_in (directories args)) as [|f fs0] eqn:E;
    [contradiction|].
  cbv zeta. cbn [fst snd]. rewrite <- E.
  split; [reflexivity|]. split; [reflexivity|].
  split; [unfold found_in; apply flat_map_concat_map|].
  intros d. unfold dir_files_of, scan_line.
  destruct (glob_tml d) as [globbed|]; [|split; reflexivity].
  split; [apply sorted_Sorted|]. split; [apply sorted_perm|].
  split; [intros globbed' P; symmetry; now apply sorted_of_perm|].
  now rewrite <- (Permutation_length (sorted_perm globbed)).
Qed.

Lemma slice_to_positive {A : Type} (l : list A) (n : Z) :
  (0 < n)%Z -> slice_to l n = firstn (Z.to_nat n) l.
Proof.
  intros H. unfold slice_to.
  destruct (0 <=? n)%Z eqn:E; [reflexivity|].
  apply Z.leb_gt in E. lia.
Qed.

(** X3.  A positive [--limit n] keeps the first [n] files found, or all
    of them when there are fewer: the list handed on has
    [min n (number found)] files, is a prefix of the files found, and is
    not empty when a file was found. *)
Theorem positive_limit_keeps_first_files (n : Z) (found : list string) :
  (0 < n)%Z ->
  apply_limit (Some n) found = firstn (Z.to_nat n) found
  /\ List.length (apply_limit (Some n) found)
     = Nat.min (Z.to_nat n) (List.length found)
  /\ (exists dropped, found = apply_limit (Some n) found ++ dropped)
  /\ (found <> [] -> apply_limit (Some n) found <> []).
Proof.
  intros H. unfold apply_limit.
  destruct (n =? 0)%Z eqn:E; [apply Z.eqb_eq in E; lia|].
  rewrite slice_to_positive by exact H. repeat split.
  - apply length_firstn.
  - exists (skipn (Z.to_nat n) found). symmetry. apply firstn_skipn.
  - intros Hne Hnil. destruct found as [|f found]; [contradiction|].
    destruct (Z.to_nat n) eqn:N; [lia|]. discriminate Hnil.
Qed.

(** X4.  [--limit 0] and no [--limit] keep every file found.  A negative
    [--limit -k] drops the last [k] files found; when [k] is at least the
    number of files found nothing is left, and the list handed to
    [generate_multi_file_html] is empty although files were found. *)
Theorem zero_and_negative_limit (k : nat) (found : list string) :
  apply_limit None found = found
  /\ apply_limit (Some 0%Z) found = found
  /\ (0 < k ->
      apply_limit (Some (- Z.of_nat k)%Z) found
      = firstn (List.length found - k) found)
  /\ (0 < k -> List.length found <= k ->
      apply_limit (Some (- Z.of_nat k)%Z) found = []).
Proof.
  split; [reflexivity|]. split; [reflexivity|].
  assert (G : 0 < k ->
              apply_limit (Some (- Z.of_nat k)%Z) found
              = firstn (List.length found - k) found).
  { intros H. unfold apply_limit, slice_to.
    destruct (- Z.of_nat k =? 0)%Z eqn:E; [apply Z.eqb_eq in E; lia|].
    destruct (0 <=? - Z.of_nat k)%Z eqn:E2; [apply Z.leb_le in E2; lia|].
    f_equal. lia. }
  split; [exact G|].
  intros H L. rewrite G by exact H.
  replace (List.length found - k) with 0 by lia. reflexivity.
Qed.

(* ================================================================ *)
(** ** Nodes, labels and the relations list *)

Lemma take_length (n : nat) (s : string) :
  String.length (Py.take n s) = Nat.min n (String.length s).
Proof.
  unfold Py.take. revert n; induction s as [|c s IH]; intros [|n]; simpl;
    try reflexivity.
  now rewrite IH.
Qed.

Lemma take_prefix (n : nat) (s : string) : prefix (Py.take n s) s = true.
Proof.
  unfold Py.take. revert n; induction s as [|c s IH]; intros [|n]; simpl;
    try reflexivity.
  rewrite IH. destruct (ascii_dec c c); [reflexivity | contradiction].
Qed.

Lemma append_length (a b : string) :
  String.length (a +++ b) = String.length a + String.length b.
Proof. induction a as [|c a IH]; simpl; [reflexivity | now rewrite IH]. Qed.

Lemma event_nodes_loop (evs : list (Key * Event)) :
  forall st, fst (fold_left add_event_node evs st)
             = fst st ++ map event_node evs.
Proof.
  induction evs as [|[k v] evs IH]; intros [nodes ids]; simpl.
  - now rewrite app_nil_r.
  - rewrite IH. simpl. now rewrite <- app_assoc.
Qed.

Lemma timex_nodes_loop (txs : list (Key * Timex)) :
  forall st, fst (fold_left add_timex_node txs st)
             = fst st ++ map timex_node txs.
Proof.
  induction txs as [|[k v] txs IH]; intros [nodes ids]; simpl.
  - now rewrite app_nil_r.
  - rewrite IH. simpl. now rewrite <- app_assoc.
Qed.

Lemma graph_nodes_list (self : TempEvalParser) :
  fst (get_graph_data self)
  = map event_node (events self) ++ map timex_node (timexes self).
Proof.
  unfold get_graph_data.
  destruct (graph_nodes self) as [nodes ids] eqn:E. cbn [fst].
  change nodes with (fst (nodes, ids)). rewrite <- E.
  unfold graph_nodes. rewrite timex_nodes_loop, event_nodes_loop.
  reflexivity.
Qed.

(** X5.  The nodes of the graph are one node per event, in the order of
    the [events] dictionary, followed by one node per time expression, in
    the order of [timexes]; each node carries the id and the full text of
    its entry, and its label is the first 15 characters of that text: at
    most 15 characters long and a prefix of the full text. *)
Theorem nodes_are_events_then_timexes (self : TempEvalParser) :
  let nodes := fst (get_graph_data self) in
  nodes = map event_node (events self) ++ map timex_node (timexes self)
  /\ List.length nodes
     = List.length (events self) + List.length (timexes self)
  /\ map node_id nodes
     = Py.keys (events self) ++ Py.keys (timexes self)
  /\ map node_fullText nodes
     = map (fun item => ev_text (snd item)) (events self)
       ++ map (fun item => tx_text (snd item)) (timexes self)
  /\ Forall (fun n => String.length (node_label n) <= 15
                      /\ String.length (node_label n)
                         = Nat.min 15 (String.length (node_fullText n))
                      /\ prefix (node_label n) (node_fullText n) = true)
       nodes.
Proof.
  cbv zeta. rewrite graph_nodes_list. repeat split.
  - now rewrite length_app, !length_map.
  - unfold Py.keys. rewrite map_app, !map_map. reflexivity.
  - rewrite map_app, !map_map. reflexivity.
  - apply Forall_app. split; apply Forall_forall; intros n Hn;
      apply in_map_iff in Hn; destruct Hn as [[k v] [<- _]];
      cbn [event_node timex_node node_label node_fullText fst snd];
      rewrite take_length; repeat split;
      try apply take_prefix; apply Nat.le_min_l.
Qed.

(** X6.  The text shown beside a relation is cut to at most 30
    characters: a text of 30 characters or fewer is shown as it is, a
    longer one as its first 27 characters followed by three dots. *)
Theorem truncate30_bounds (s : string) :
  String.length (truncate30 s) <= 30
  /\ (String.length s <= 30 -> truncate30 s = s)
  /\ (30 < String.length s ->
      truncate30 s = Py.take 27 s +++ "..."
      /\ String.length (truncate30 s) = 30
      /\ prefix (Py.take 27 s) s = true).
Proof.
  unfold truncate30.
  destruct (Nat.ltb 30 (String.length s)) eqn:E.
  - apply Nat.ltb_lt in E.
    assert (L : String.length (Py.take 27 s +++ "...") = 30).
    { rewrite append_length, take_length.
      change (String.length "...") with 3. lia. }
    repeat split; try lia; try reflexivity; try exact L.
    apply take_prefix.
  - apply Nat.ltb_ge in E. repeat split; try lia; try reflexivity.
Qed.

Lemma lookup_of_snoc (nodes : list Node) (n : Node) :
  lookup_of (nodes ++ [n]) = kset (lookup_of nodes) (node_id n) n.
Proof. unfold lookup_of. now rewrite fold_left_app. Qed.

Section LookupLoop.
Context {V : Type}.
Variable step : list Node * list (Key * nat) -> Key * V
                -> list Node * list (Key * nat).
Hypothesis step_appends :
  forall nodes ids k v,
    exists n, node_id n = k
              /\ step (nodes, ids) (k, v)
                 = (nodes ++ [n], kset ids k (List.length nodes)).

Lemma step_ids_agree (st : list Node * list (Key * nat)) (item : Key * V) :
  ids_point st -> ids_agree st -> ids_agree (step st item).
Proof using step_appends.
  destruct st as [nodes ids], item as [k v]. intros P A k' i H.
  destruct (step_appends nodes ids k v) as [n [Hn E]].
  rewrite E in *. cbn [fst snd] in *. rewrite lookup_of_snoc, Hn.
  destruct (key_eq_dec k k') as [->|N].
  - rewrite kget_kset_same in H. injection H as <-.
    rewrite kget_kset_same.
    now rewrite nth_error_app2, Nat.sub_diag by lia.
  - rewrite kget_kset_other in H by exact N.
    rewrite kget_kset_other by exact N.
    destruct (P k' i H) as [L _]. cbn [fst] in L.
    rewrite nth_error_app1 by exact L. now apply A.
Qed.

Lemma loop_ids_agree (items : list (Key * V)) :
  forall st, ids_point st -> ids_agree st ->
             ids_point (fold_left step items st)
             /\ ids_agree (fold_left step items st).
Proof using step_appends.
  induction items as [|x items IH]; intros st P A; simpl; [now split|].
  apply IH.
  - now apply (step_ids_point step step_appends).
  - now apply step_ids_agree.
Qed.
End LookupLoop.

Lemma graph_nodes_ids_agree (self : TempEvalParser) :
  ids_agree (graph_nodes self).
Proof.
  unfold graph_nodes.
  apply (loop_ids_agree _ add_timex_node_appends);
    apply (loop_ids_agree _ add_event_node_appends);
    intros k i H; discriminate.
Qed.

Lemma add_link_inv (ids : list (Key * nat)) (t : Tlink) (l : Link) :
  In l (add_link ids [] t) ->
  kget ids (sourceId l) = Some (source l)
  /\ kget ids (targetId l) = Some (target l)
  /\ Py.truthy (sourceId l) = true /\ Py.truthy (targetId l) = true
  /\ relation l = relType t.
Proof.
  unfold add_link.
  destruct (Py.truthy (link_src t)) eqn:Ts; [|intros []].
  destruct (Py.truthy (link_tgt t)) eqn:Tt; [|intros []]. cbn [andb].
  destruct (kget ids (link_src t)) as [i|] eqn:Es; [|intros []].
  destruct (kget ids (link_tgt t)) as [j|] eqn:Et; [|intros []].
  intros [<-|[]]. cbn. auto.
Qed.

(** X7.  For every link returned by [get_graph_data], looking its
    [sourceId] and [targetId] up in the id-to-node dictionary built for
    the relations list finds the very nodes standing at the link's
    [source] and [target] indices: the text shown beside a relation is
    the full text of the node the graph draws, and the fall-back to the
    bare id is never taken. *)
Theorem relation_text_is_node_text (self : TempEvalParser) (l : Link) :
  In l (snd (get_graph_data self)) ->
  let nodes := fst (get_graph_data self) in
  exists ns nt,
    nth_error nodes (source l) = Some ns
    /\ nth_error nodes (target l) = Some nt
    /\ kget (lookup_of nodes) (sourceId l) = Some ns
    /\ kget (lookup_of nodes) (targetId l) = Some nt
    /\ lookup_text (lookup_of nodes) (sourceId l) = node_fullText ns
    /\ lookup_text (lookup_of nodes) (targetId l) = node_fullText nt.
Proof.
  unfold get_graph_data.
  pose proof (graph_nodes_ids_point self) as P.
  pose proof (graph_nodes_ids_agree self) as A.
  destruct (graph_nodes self) as [nodes ids]. cbn [fst snd].
  rewrite links_loop. cbn [app]. intros Hin.
  apply in_flat_map in Hin. destruct Hin as [t [_ Hl]].
  apply add_link_inv in Hl. destruct Hl as (Hs & Ht & _).
  destruct (P _ _ Hs) as [Ls _]. destruct (P _ _ Ht) as [Lt _].
  cbn [fst] in Ls, Lt.
  destruct (nth_error nodes (source l)) as [ns|] eqn:Ns;
    [|apply nth_error_None in Ns; lia].
  destruct (nth_error nodes (target l)) as [nt|] eqn:Nt;
    [|apply nth_error_None in Nt; lia].
  pose proof (A _ _ Hs) as As. pose proof (A _ _ Ht) as At.
  cbn [fst snd] in As, At. rewrite Ns in As. rewrite Nt in At.
  exists ns, nt. unfold lookup_text. rewrite As, At. repeat split.
Qed.

(* ================================================================ *)
(** ** Tasks *)

Lemma count_fold (ts : list Tlink) :
  forall (tk g : list string) (c : list (string * nat)),
    fold_left count_task ts (tk, g, c)
    = (fold_left Py.set_add (task_names ts) tk,
       fold_left Py.set_add (task_names ts) g,
       fold_left bump (task_names ts) c).
Proof.
  induction ts as [|tl ts IH]; intros tk g c; [reflexivity|].
  cbn [fold_left]. unfold count_task at 2, task_names. cbn [flat_map].
  destruct (Py.truthy (task tl)); rewrite IH; cbn [app];
    rewrite ?fold_left_app; reflexivity.
Qed.

Lemma sget_set (c : list (string * nat)) (k k' : string) (v d : nat) :
  sget (Py.dict_set String.eqb c k v) k' d
  = if String.eqb k k' then v else sget c k' d.
Proof.
  unfold sget. induction c as [|[k0 v0] c IH]; simpl.
  - destruct (String.eqb k k'); reflexivity.
  - destruct (String.eqb k0 k) eqn:E; simpl.
    + apply String.eqb_eq in E. subst k0.
      destruct (String.eqb k k'); reflexivity.
    + destruct (String.eqb k0 k') eqn:E'.
      * apply String.eqb_eq in E'. subst k0. rewrite String.eqb_sym, E.
        reflexivity.
      * exact IH.
Qed.

Lemma sget_bumps (names : list string) (t : string) :
  forall c, sget (fold_left bump names c) t 0
            = sget c t 0 + count_occ string_dec names t.
Proof.
  induction names as [|x names IH]; intros c; simpl; [lia|].
  rewrite IH. unfold bump. rewrite sget_set.
  destruct (string_dec x t) as [->|N].
  - rewrite String.eqb_refl. lia.
  - apply String.eqb_neq in N. rewrite N. lia.
Qed.

Lemma keys_set (c : list (string * nat)) (x k : string) (v : nat) :
  In k (map fst c) -> In k (map fst (Py.dict_set String.eqb c x v)).
Proof.
  induction c as [|[k0 v0] c IH]; simpl; [contradiction|].
  destruct (String.eqb k0 x); simpl; intros [H|H]; auto.
Qed.

Lemma keys_bumps (names : list string) (k : string) :
  forall c, In k (map fst c) -> In k (map fst (fold_left bump names c)).
Proof.
  induction names as [|x names IH]; intros c H; simpl; [exact H|].
  apply IH. unfold bump. now apply keys_set.
Qed.

Lemma count_names (ts : list Tlink) (t : string) :
  count_occ string_dec (task_names ts) t
  = List.length (filter (has_task t) ts).
Proof.
  induction ts as [|tl ts IH]; [reflexivity|].
  unfold task_names, has_task in *. cbn [flat_map filter].
  destruct (task tl) as [[|ch s]|]; cbn [Py.truthy andb app Py.fmt];
    try exact IH.
  cbn [Py.option_eqb count_occ].
  destruct (string_dec (String ch s) t) as [->|N].
  - rewrite String.eqb_refl. cbn [List.length]. now rewrite IH.
  - apply String.eqb_neq in N. rewrite N. exact IH.
Qed.

Lemma In_task_names (ts : list Tlink) (t : string) :
  In t (task_names ts) <-> exists tl, In tl ts /\ has_task t tl = true.
Proof.
  unfold task_names, has_task. rewrite in_flat_map. split.
  - intros [tl [Hin H]]. exists tl. split; [exact Hin|].
    destruct (task tl) as [[|ch s]|];
      cbn [Py.truthy Py.fmt Py.option_eqb andb In] in *; try contradiction.
    destruct H as [<-|[]]. apply String.eqb_refl.
  - intros [tl [Hin H]]. exists tl. split; [exact Hin|].
    destruct (task tl) as [[|ch s]|];
      cbn [Py.truthy Py.fmt Py.option_eqb andb In] in *; try discriminate.
    left. now apply String.eqb_eq.
Qed.

Lemma set_add_In (s : list string) (x y : string) :
  In y (Py.set_add s x) <-> y = x \/ In y s.
Proof.
  induction s as [|z s IH]; simpl.
  - split; intros [H|H]; auto.
  - destruct (String.eqb z x) eqn:E; simpl.
    + apply String.eqb_eq in E. subst z.
      split; [auto | intros [->|H]; auto].
    + rewrite IH. split; intros [H|[H|H]]; auto.
Qed.

Lemma set_add_NoDup (s : list string) (x : string) :
  NoDup s -> NoDup (Py.set_add s x).
Proof.
  induction s as [|z s IH]; simpl; intros H.
  - constructor; [intros []|constructor].
  - destruct (String.eqb z x) eqn:E; [exact H|].
    inversion H as [|? ? Hn Hd]; subst. constructor.
    + intros Hin. apply set_add_In in Hin. destruct Hin as [->|Hin].
      * now rewrite String.eqb_refl in E.
      * contradiction.
    + now apply IH.
Qed.

Lemma set_adds (names : list string) :
  forall s, NoDup s ->
            NoDup (fold_left Py.set_add names s)
            /\ forall y, In y (fold_left Py.set_add names s)
                         <-> In y s \/ In y names.
Proof.
  induction names as [|x names IH]; intros s H; simpl.
  - split; [exact H|]. intros y. split; [auto | intros [?|[]]; auto].
  - destruct (IH (Py.set_add s x) (set_add_NoDup s x H)) as [N I].
    split; [exact N|]. intros y. rewrite I, set_add_In.
    split; [intros [[->|?]|?] | intros [?|[->|?]]]; auto.
Qed.

Lemma file_record_tasks (path : string) (stored : option string) :
  let names := task_names (tlinks (parser_view path stored)) in
  d_tasks (file_record path stored)
  = Py.join "," (Py.sorted (fold_left Py.set_add names []))
  /\ d_task_counts (file_record path stored)
     = fold_left bump names initial_task_counts.
Proof.
  cbv zeta. unfold file_record. rewrite count_fold. split; reflexivity.
Qed.

Lemma global_after_names (g : list string) (path : string)
  (stored : option string) :
  global_after g path stored
  = fold_left Py.set_add (task_names (tlinks (parser_view path stored))) g.
Proof. unfold global_after. now rewrite count_fold. Qed.

(** X8.  The count kept for a task in a file's [task_counts], which the
    file header shows after [Task t:], is the number of the file's tlinks
    whose [task] attribute is [t] (an empty or missing attribute is not
    counted); the tasks [A], [B] and [C] always have an entry, and a task
    without entry is shown with the count 0. *)
Theorem task_counts_count_tlinks (path : string) (w : World) (t : string) :
  let p := eval (TempEvalParser_init path) w in
  let d := file_record path (fs w path) in
  let n := List.length (filter (has_task t) (tlinks p)) in
  sget (d_task_counts d) t 0 = n
  /\ task_part d t
     = "Task " +++ t +++ ": <strong>" +++ Py.str_of_nat n +++ "</strong>"
  /\ (forall k, In k ["A"; "B"; "C"] -> In k (map fst (d_task_counts d)))
  /\ (~ In t (map fst (d_task_counts d)) -> n = 0).
Proof.
  cbv zeta. rewrite eval_init.
  destruct (file_record_tasks path (fs w path)) as [_ Hc].
  assert (G : sget (d_task_counts (file_record path (fs w path))) t 0
              = List.length
                  (filter (has_task t)
                     (tlinks (parser_view path (fs w path))))).
  { rewrite Hc, sget_bumps, count_names.
    unfold sget, initial_task_counts. cbn [Py.dict_get].
    destruct (String.eqb "A" t); [reflexivity|].
    destruct (String.eqb "B" t); [reflexivity|].
    destruct (String.eqb "C" t); reflexivity. }
  split; [exact G|]. split; [unfold task_part; now rewrite G|]. split.
  - intros k Hk. rewrite Hc. apply keys_bumps. exact Hk.
  - intros Hn. rewrite <- G. unfold sget.
    destruct (Py.dict_get String.eqb
                (d_task_counts (file_record path (fs w path))) t)
      as [v|] eqn:E; [|reflexivity].
    exfalso. apply Hn. clear - E.
    induction (d_task_counts (file_record path (fs w path)))
      as [|[k0 v0] c IH]; simpl in *; [discriminate|].
    destruct (String.eqb k0 t) eqn:E0.
    + left. now apply String.eqb_eq.
    + right. now apply IH.
Qed.

(** X9.  The tasks of a file, written in the [data-tasks] attribute of
    its tab button, are joined with commas from a list that is sorted in
    ascending order, has no duplicate, and holds exactly the non-empty
    [task] attributes of the file's tlinks. *)
Theorem file_tasks_sorted_and_distinct (path : string) (w : World) :
  let p := eval (TempEvalParser_init path) w in
  let d := file_record path (fs w path) in
  exists ts,
    d_tasks d = Py.join "," ts
    /\ Sorted leb_prop ts
    /\ NoDup ts
    /\ (forall t, In t ts
                  <-> exists tl, In tl (tlinks p) /\ has_task t tl = true).
Proof.
  cbv zeta. rewrite eval_init.
  destruct (file_record_tasks path (fs w path)) as [Ht _].
  destruct (set_adds (task_names (tlinks (parser_view path (fs w path))))
              [] (NoDup_nil _)) as [N I].
  eexists. split; [exact Ht|]. split; [apply sorted_Sorted|]. split.
  - eapply Permutation_NoDup; [apply sorted_perm | exact N].
  - intros t. rewrite <- In_task_names.
    split; intros H.
    + apply (Permutation_in _ (Permutation_sym (sorted_perm _))) in H.
      apply I in H. destruct H as [[]|H]. exact H.
    + apply (Permutation_in _ (sorted_perm _)). apply I. now right.
Qed.

Lemma global_tasks_fold (w : World) (files : list string) :
  forall g, NoDup g ->
    NoDup (fold_left (fun g path => global_after g path (fs w path)) files g)
    /\ forall t,
         In t (fold_left (fun g path => global_after g path (fs w path))
                 files g)
         <-> In t g
             \/ exists path,
                  In path files
                  /\ In t (task_names
                             (tlinks (parser_view path (fs w path)))).
Proof.
  induction files as [|f files IH]; intros g H; simpl.
  - split; [exact H|]. intros t. split; [auto|].
    intros [?|[path [[] _]]]; assumption.
  - rewrite global_after_names.
    destruct (set_adds (task_names (tlinks (parser_view f (fs w f)))) g H)
      as [N I].
    destruct (IH _ N) as [N' I']. split; [exact N'|].
    intros t. rewrite I', I. split.
    + intros [[Hg|Hf]|[path [Hp Ht]]]; auto.
      * right. exists f. auto.
      * right. exists path. auto.
    + intros [Hg|[path [[<-|Hp] Ht]]]; auto.
      right. exists path. auto.
Qed.

(** X10.  The set [global_tasks] after the loop over the files has no
    duplicate and holds exactly the non-empty [task] attributes of the
    tlinks of all input files; every panel lists it in ascending order. *)
Theorem global_tasks_are_union_of_file_tasks (files : list string)
  (w : World) :
  let g := snd (eval (process_files files) w) in
  NoDup g
  /\ (forall t,
         In t g
         <-> exists path tl,
               In path files
               /\ In tl (tlinks (eval (TempEvalParser_init path) w))
               /\ has_task t tl = true)
  /\ Sorted leb_prop (Py.sorted g)
  /\ Permutation g (Py.sorted g).
Proof.
  cbv zeta. rewrite eval_process_files. cbn [snd].
  unfold global_tasks_of.
  destruct (global_tasks_fold w files [] (NoDup_nil _)) as [N I].
  split; [exact N|]. split; [|split; [apply sorted_Sorted|apply sorted_perm]].
  intros t. rewrite I. split.
  - intros [[]|[path [Hp Ht]]]. apply In_task_names in Ht.
    destruct Ht as [tl [Hin Hh]]. exists path, tl.
    rewrite eval_init. auto.
  - intros [path [tl [Hp [Hin Hh]]]]. right. exists path.
    split; [exact Hp|]. apply In_task_names. exists tl.
    rewrite eval_init in Hin. auto.
Qed.

(* ================================================================ *)
(** ** More on the parser and on the run *)

(** X11.  The raw text of a file is kept whenever the UTF-8 read
    succeeds, also when [ET.parse] then raises: the record's [raw_xml] is
    the text read.  When the read raises, [raw_xml] is empty and so are the
    events, time expressions, links and sentences of the record. *)
Theorem raw_xml_kept_when_read_succeeds (path : string) (w : World) :
  let d := file_record path (fs w path) in
  (forall content,
      read_result path (fs w path) = Ok content -> d_raw_xml d = content)
  /\ (forall e,
         read_result path (fs w path) = Raise e ->
         d_raw_xml d = "" /\ d_events d = 0 /\ d_timexes d = 0
         /\ d_tlinks d = 0 /\ d_sentences d = []).
Proof.
  cbv zeta. split.
  - intros content Hr.
    assert (R : raw_xml (parser_view path (fs w path)) = Some content).
    { unfold parser_view. rewrite Hr.
      destruct (parse_result path (fs w path)); reflexivity. }
    unfold file_record.
    destruct (fold_left count_task _ _) as [[tasks g] counts].
    cbn [d_raw_xml]. rewrite R. destruct content; reflexivity.
  - intros e Hr.
    assert (P : parser_view path (fs w path) = fresh_parser path)
      by (unfold parser_view; now rewrite Hr).
    unfold file_record. rewrite P. cbn. repeat split.
Qed.

Lemma Element_nested_ind (P : Element -> Prop) :
  (forall t a x y cs, Forall P cs -> P (Elem t a x y cs)) ->
  forall e, P e.
Proof.
  intros H. fix IH 1. intros [t a x y cs]. apply H.
  induction cs as [|c cs IHcs]; constructor; [apply IH | exact IHcs].
Qed.

Lemma iter_self (e : Element) : In e (ET.iter e).
Proof. destruct e. left. reflexivity. Qed.

Lemma iter_unfold (e : Element) :
  ET.iter e = e :: flat_map ET.iter (ET.children e).
Proof. destruct e. reflexivity. Qed.

Lemma iter_children_closed (e s c : Element) :
  In s (ET.iter e) -> In c (ET.children s) ->
  In c (flat_map ET.iter (ET.children e)).
Proof.
  revert s c. induction e as [t a x y cs IH] using Element_nested_ind.
  intros s c Hs Hc. rewrite iter_unfold in Hs. cbn [ET.children] in *.
  destruct Hs as [<-|Hs].
  - cbn [ET.children] in Hc. apply in_flat_map. exists c.
    split; [exact Hc | apply iter_self].
  - apply in_flat_map in Hs. destruct Hs as [e' [He' Hs]].
    apply in_flat_map. exists e'. split; [exact He'|].
    rewrite Forall_forall in IH. rewrite iter_unfold. right.
    now apply (IH e' He' s c).
Qed.

(** A child of an element found by [findall] is found by [findall] under
    its own tag. *)
Lemma findall_child (root s c : Element) (t : string) :
  In s (ET.findall root t) -> In c (ET.children s) ->
  In c (ET.findall root (ET.tag c)).
Proof.
  unfold ET.findall. intros Hs Hc. apply filter_In in Hs.
  destruct Hs as [Hs _]. apply filter_In.
  split; [|apply String.eqb_refl].
  apply in_flat_map in Hs. destruct Hs as [r [Hr Hs]].
  apply in_flat_map. exists r. split; [exact Hr|].
  rewrite iter_unfold. right. now apply (iter_children_closed r s c).
Qed.

(** X12.  In a file that is read and parsed, every [EVENT] child of a
    sentence has an entry in [events] and every [TIMEX3] child an entry
    in [timexes], because the dictionaries are filled from the whole tree
    before the sentences are rendered: the class (the value) shown in the
    title of a span is that of an element of the document carrying the
    same id, and the empty default of the lookup is never used. *)
Theorem span_title_comes_from_the_dictionaries (path : string) (w : World)
  (content : string) (root s child : Element) :
  read_result path (fs w path) = Ok content ->
  parse_result path (fs w path) = Ok root ->
  In s (ET.findall root "s") ->
  In child (ET.children s) ->
  let p := eval (TempEvalParser_init path) w in
  (ET.tag child = "EVENT" ->
   In child (ET.findall root "EVENT")
   /\ exists e, In e (ET.findall root "EVENT")
                /\ ET.get e "eid" = ET.get child "eid"
                /\ kget (events p) (ET.get child "eid") = Some (event_of e)
                /\ class_of p (ET.get child "eid") = ET.get e "class")
  /\ (ET.tag child = "TIMEX3" ->
      In child (ET.findall root "TIMEX3")
      /\ exists e, In e (ET.findall root "TIMEX3")
                   /\ ET.get e "tid" = ET.get child "tid"
                   /\ kget (timexes p) (ET.get child "tid")
                      = Some (timex_of e)
                   /\ value_of p (ET.get child "tid") = ET.get e "value").
Proof.
  intros Hr Hp Hs Hc. cbv zeta.
  rewrite eval_init, (parser_view_ok _ _ _ _ Hr Hp).
  destruct (extract_fresh path content root) as (Ev & Tx & _).
  pose proof (findall_child root s child "s" Hs Hc) as Hin.
  split; intros Ht; rewrite Ht in Hin; (split; [exact Hin|]).
  - unfold class_of. rewrite Ev.
    destruct (kget (fill eid_of event_of [] (ET.findall root "EVENT"))
                (ET.get child "eid")) as [ev|] eqn:K.
    + apply fill_origin in K.
      destruct K as [K|[e (He & Hk & Hv)]]; [discriminate|].
      exists e. subst ev. repeat split; assumption.
    + exfalso. revert K. apply kget_In, fill_keys. right.
      apply (in_map eid_of) in Hin. exact Hin.
  - unfold value_of. rewrite Tx.
    destruct (kget (fill tid_of timex_of [] (ET.findall root "TIMEX3"))
                (ET.get child "tid")) as [tx|] eqn:K.
    + apply fill_origin in K.
      destruct K as [K|[e (He & Hk & Hv)]]; [discriminate|].
      exists e. subst tx. repeat split; assumption.
    + exfalso. revert K. apply kget_In, fill_keys. right.
      apply (in_map tid_of) in Hin. exact Hin.
Qed.

Lemma plain_lines_map (root : Element) :
  plain_lines root = map plain_sentence (ET.findall root "s").
Proof. unfold plain_lines. now rewrite fold_left_snoc. Qed.

(** X13.  For a file that is read and parsed, the plain text is made of
    one line per sentence element, in document order, and the panel lists
    one rendered sentence per sentence element, in the same order: the
    two have the same number of entries.  The plain text only needs
    [ET.parse] to succeed. *)
Theorem plain_text_has_a_line_per_sentence (path : string) (w : World)
  (root : Element) :
  parse_result path (fs w path) = Ok root ->
  let p := eval (TempEvalParser_init path) w in
  let d := file_record path (fs w path) in
  let lines := map plain_sentence (ET.findall root "s") in
  d_plain_text d = Py.join LF lines
  /\ List.length lines = List.length (ET.findall root "s")
  /\ (forall content,
         read_result path (fs w path) = Ok content ->
         d_sentences d = map (_render_sentence p) (ET.findall root "s")
         /\ List.length (d_sentences d) = List.length lines)
  /\ (forall e,
         read_result path (fs w path) = Raise e -> d_sentences d = []).
Proof.
  intros Hp. cbv zeta. rewrite eval_init.
  destruct (file_record_counts path (fs w path))
    as (_ & _ & _ & Hs & _ & _ & Ht & _).
  rewrite Ht, Hs. unfold plain_view. rewrite Hp, plain_lines_map.
  split; [reflexivity|]. split; [apply length_map|]. split.
  - intros content Hr. rewrite (parser_view_ok _ _ _ _ Hr Hp).
    destruct (extract_fresh path content root) as (_ & _ & _ & S & _).
    rewrite S. split; [reflexivity|]. now rewrite !length_map.
  - intros e Hr. unfold parser_view. now rewrite Hr.
Qed.

(** X14.  On an empty list of files [generate_multi_file_html] reads no
    input file: it announces 0 files, tests for the D3 bundle and reads
    it when it is there.  Unless that read or the write raises, it then
    writes a page whose statistics are all 0 and whose tab bar and panels
    are empty, and prints totals of 0.  When the read raises nothing is
    written; when the write raises the run ends at the failed write. *)
Theorem empty_run_writes_an_empty_report (output_path : string) (w : World) :
  let doc :=
    page_head 0 d3_bundle +++ page_top 0 0 0 0 +++ tabs_close
      +++ page_script [] in
  let r := generate_or_raise [] output_path w in
  let start :=
    [EvPrint "Processing 0 files..."; EvExists d3_path]
      ++ match d3_bundle with
         | Some _ => [EvOpenRead d3_path]
         | None => []
         end in
  match fst r with
  | Ok _ =>
      log (snd r)
      = log w ++ start
        ++ [ EvPrint d3_notice;
             EvOpenWrite output_path doc;
             EvPrint (LF +++ "âœ“ Multi-file visualization exported to: "
                      +++ output_path);
             EvPrint "  Total files: 0";
             EvPrint "  Total events: 0";
             EvPrint "  Total time expressions: 0";
             EvPrint "  Total temporal links: 0" ]
      /\ fs (snd r) output_path = Some (encode_utf8 doc)
  | Raise _ =>
      (bundle_fails <> None /\ log (snd r) = log w ++ start
       /\ fs (snd r) = fs w)
      \/ (write_outcome output_path <> Written
          /\ log (snd r)
             = log w ++ start
               ++ [EvPrint d3_notice; EvWriteRaises output_path])
  end
  /\ (fst r = Ok tt
      <-> bundle_fails = None /\ write_outcome output_path = Written).
Proof.
  cbv zeta. rewrite generate_or_raise_spec.
  unfold bundle_fails, run_until_bundle, run_before, bundle_log,
    opening_line, files_log.
  cbn [enumerate combine seq List.length flat_map app].
  destruct d3_bundle as [js|] eqn:B; [destruct d3_read_error as [msg|]|].
  - cbn [fst snd fs log]. split; [left|split; [discriminate|]];
      repeat split; try discriminate. now intros [H _].
  - destruct (write_outcome output_path) as [|msg|msg kept];
      cbn [fst snd fs log].
    + unfold exec. rewrite generate_spec. cbn [fst snd fs log].
      rewrite String.eqb_refl, document_parts, B.
      unfold run_before, bundle_log, opening_line, files_log, closing_lines.
      rewrite B. repeat split.
    + split; [right|split; [discriminate|]];
        repeat split; try discriminate. now intros [_ H].
    + split; [right|split; [discriminate|]];
        repeat split; try discriminate. now intros [_ H].
  - destruct (write_outcome output_path) as [|msg|msg kept];
      cbn [fst snd fs log].
    + unfold exec. rewrite generate_spec. cbn [fst snd fs log].
      rewrite String.eqb_refl, document_parts, B.
      unfold run_before, bundle_log, opening_line, files_log, closing_lines.
      rewrite B. repeat split.
    + split; [right|split; [discriminate|]];
        repeat split; try discriminate. now intros [_ H].
    + split; [right|split; [discriminate|]];
        repeat split; try discriminate. now intros [_ H].
Qed.

(* ================================================================ *)
(** ** Stripped lines and the relations list *)







Lemma links_count (self : TempEvalParser) :
  List.length (snd (get_graph_data self))
  = List.length (filter (resolvable self) (tlinks self)).
Proof.
  unfold get_graph_data.
  pose proof (add_link_resolvable self) as RES.
  destruct (graph_nodes self) as [nodes ids]. cbn [fst snd] in *.
  rewrite links_loop. cbn [app].
  induction (tlinks self) as [|t ts IH]; [reflexivity|].
  cbn [flat_map filter]. rewrite length_app, IH.
  rewrite <- (length_map (fun l => (sourceId l, targetId l, relation l))
                (add_link ids [] t)), RES.
  destruct (resolvable self t); reflexivity.
Qed.

Lemma filter_none {A : Type} (f : A -> bool) (l : list A) :
  forallb (fun x => negb (f x)) l = true -> filter f l = [].
Proof.
  induction l as [|x l IH]; [reflexivity|]. cbn [forallb filter].
  intros H. apply andb_true_iff in H. destruct H as [H1 H2].
  apply negb_true_iff in H1. rewrite H1. now apply IH.
Qed.

(** X16.  The number of relations listed in a panel, shown in its
    [Temporal Relations (n)] heading, is the number of the file's tlinks
    whose two endpoints resolve to an event or time expression; it never
    exceeds the number of temporal links shown in the file header, and
    when no tlink resolves the panel shows the line
    [No temporal relations in this file.] even if the file has tlinks. *)
Theorem relations_list_counts_resolvable_tlinks (path : string) (w : World) :
  let p := eval (TempEvalParser_init path) w in
  let d := file_record path (fs w path) in
  List.length (d_links d)
  = List.length (filter (resolvable p) (tlinks p))
  /\ List.length (d_links d) <= d_tlinks d
  /\ (forallb (fun t => negb (resolvable p t)) (tlinks p) = true ->
      d_links d = [] /\ relations_part d = no_relations)
  /\ (d_links d <> [] ->
      relations_part d
      = cat (map (relation_item (lookup_of (d_nodes d))) (d_links d))).
Proof.
  cbv zeta. rewrite eval_init.
  destruct (file_record_counts path (fs w path))
    as (_ & _ & Ht & _ & _ & Hl & _).
  assert (C : List.length (d_links (file_record path (fs w path)))
              = List.length
                  (filter (resolvable (parser_view path (fs w path)))
                     (tlinks (parser_view path (fs w path)))))
    by (rewrite Hl; apply links_count).
  split; [exact C|]. split; [rewrite C, Ht; apply filter_length_le|]. split.
  - intros H. rewrite (filter_none _ _ H) in C. unfold relations_part.
    destruct (d_links (file_record path (fs w path))); [now split|].
    discriminate C.
  - intros H. unfold relations_part, node_lookup_of.
    destruct (d_links (file_record path (fs w path))); [contradiction|].
    reflexivity.
Qed.


End Program.

(* ================================================================== *)
(** ** Runs on the sample corpus *)

Definition sample_generate (d3_bundle : option string)
  : list string -> string -> IO unit :=
  generate_multi_file_html Sample.decode_utf8 Sample.encode_utf8
    Sample.XMLParser Sample.os_error Sample.Path_name Sample.json_dumps_graph
    Sample.json_dumps Sample.style_sheet Sample.client_script d3_bundle
    Sample.d3_path Sample.py_len Sample.same_file.

(** Every run on the sample corpus completes: the bundle is read and the
    document written without an exception. *)
Definition sample_run (d3_bundle : option string)
  : list string -> string -> IO (result unit) :=
  generate_or_raise Sample.decode_utf8 Sample.encode_utf8
    Sample.XMLParser Sample.os_error Sample.Path_name Sample.json_dumps_graph
    Sample.json_dumps Sample.style_sheet Sample.client_script d3_bundle
    Sample.d3_path Sample.py_len Sample.same_file None (fun _ => Written).

Definition sample_process_files
  : list string -> IO (list FileData * list string) :=
  process_files Sample.decode_utf8 Sample.XMLParser Sample.os_error
    Sample.Path_name.

Definition sample_parser : string -> IO TempEvalParser :=
  TempEvalParser_init Sample.decode_utf8 Sample.XMLParser Sample.os_error.

Definition sample_read (path : string) : result string :=
  read_result Sample.decode_utf8 Sample.os_error path (fs Sample.world path).

Definition sample_parse (path : string) : result Element :=
  parse_result Sample.XMLParser Sample.os_error path (fs Sample.world path).

Definition sample_document (d3_bundle : option string) : list string -> string :=
  document Sample.decode_utf8 Sample.XMLParser Sample.os_error Sample.Path_name
    Sample.json_dumps_graph Sample.json_dumps Sample.style_sheet
    Sample.client_script d3_bundle Sample.world.

Definition sample_body : nat -> list FileData -> list string -> string :=
  page_body Sample.json_dumps_graph Sample.json_dumps Sample.client_script.

(** C1 on two files: two buttons, two panels, in the order of the list. *)
Lemma one_tab_per_file_on_sample :
  let files := ["data/a.tml"; "data/b.tml"] in
  let all_data := fst (eval (sample_process_files files) Sample.world) in
  let g := snd (eval (sample_process_files files) Sample.world) in
  files <> []
  /\ List.length
       (map (fun item => tab_button (fst item) (snd item))
          (enumerate 0 all_data)) = 2
  /\ List.length
       (map (fun item => tab_content g (fst item) (snd item))
          (enumerate 0 all_data)) = 2
  /\ map d_filename all_data = ["a.tml"; "b.tml"].
Proof.
  cbv zeta.
  pose proof (one_tab_per_file Sample.decode_utf8 Sample.encode_utf8
                Sample.XMLParser Sample.os_error Sample.Path_name
                Sample.json_dumps_graph Sample.json_dumps Sample.style_sheet
                Sample.client_script None Sample.d3_path Sample.py_len Sample.same_file ["data/a.tml"; "data/b.tml"]
                "out.html" Sample.world ltac:(discriminate)) as H.
  cbv zeta in H. destruct H as (_ & Hb & Hp & _).
  split; [discriminate|]. split; [exact Hb|]. split; [exact Hp|].
  vm_compute. reflexivity.
Defined.

(** C6 on [data/a.tml]: the links of the parser are those of its one
    [TLINK] element. *)
Lemma parser_extracts_on_sample :
  sample_read "data/a.tml" = Ok Sample.doc_a
  /\ sample_parse "data/a.tml" = Ok Sample.tree_a
  /\ tlinks (eval (sample_parser "data/a.tml") Sample.world)
     = [ {| lid := Some "l1"; relType := Some "BEFORE";
            eventID := Some "e1"; timeID := None; relatedToEvent := None;
            relatedToTime := Some "t1"; task := Some "A" |} ].
Proof.
  assert (Hr : sample_read "data/a.tml" = Ok Sample.doc_a)
    by (vm_compute; reflexivity).
  assert (Hp : sample_parse "data/a.tml" = Ok Sample.tree_a)
    by (vm_compute; reflexivity).
  pose proof (parser_extracts_three_flat_records Sample.decode_utf8
                Sample.XMLParser Sample.os_error "data/a.tml" Sample.world
                Sample.doc_a Sample.tree_a Hr Hp) as H.
  cbv zeta in H. destruct H as (_ & _ & _ & _ & Hl).
  split; [exact Hr|]. split; [exact Hp|]. exact Hl.
Defined.

(** C10 on [data/dup.tml]: three [EVENT] elements, two distinct ids, and
    the record under [e1] is the one of the second element. *)
Lemma counts_are_distinct_ids_on_sample :
  sample_read "data/dup.tml" = Ok Sample.doc_dup
  /\ sample_parse "data/dup.tml" = Ok Sample.tree_dup
  /\ List.length (ET.findall Sample.tree_dup "EVENT") = 3
  /\ (exists d,
         nth_error
           (fst (eval (sample_process_files ["data/dup.tml"]) Sample.world)) 0
         = Some d
         /\ d_events d = 2)
  /\ option_map ev_text
       (kget (events (eval (sample_parser "data/dup.tml") Sample.world))
          (Some "e1"))
     = Some "left".
Proof.
  assert (Hr : sample_read "data/dup.tml" = Ok Sample.doc_dup)
    by (vm_compute; reflexivity).
  assert (Hp : sample_parse "data/dup.tml" = Ok Sample.tree_dup)
    by (vm_compute; reflexivity).
  pose proof (counts_are_distinct_ids Sample.decode_utf8 Sample.XMLParser
                Sample.os_error Sample.Path_name ["data/dup.tml"] Sample.world
                0 "data/dup.tml" Sample.doc_dup Sample.tree_dup eq_refl Hr Hp)
    as H.
  destruct H as (d & Hd & He & _ & Hlast & _).
  split; [exact Hr|]. split; [exact Hp|]. split; [reflexivity|]. split.
  - exists d. split; [exact Hd | exact He].
  - match type of Hlast with
    | forall l1 e l2, _ = l1 ++ e :: l2 -> _ =>
        pose proof
          (Hlast
             [Elem "EVENT" [("eid", "e1"); ("class", "STATE")] (Some "was")
                None []]
             (Elem "EVENT" [("eid", "e1"); ("class", "OCCURRENCE")]
                (Some "left") None [])
             [Elem "EVENT" [("eid", "e2")] (Some "gone") None []]
             eq_refl) as Hk
    end.
    assert (Hn : ~ In (Some "e1") [Some "e2"])
      by (intros [E|[]]; discriminate E).
    specialize (Hk Hn). unfold sample_parser.
    change (eid_of (Elem "EVENT" [("eid", "e1"); ("class", "OCCURRENCE")]
                      (Some "left") None [])) with (Some "e1") in Hk.
    rewrite Hk. reflexivity.
Defined.

(** C2 (as amended) on a file that is not well-formed, between two files
    that are. *)
Lemma parse_failure_on_sample :
  let files := ["data/a.tml"; "data/bad.tml"; "data/b.tml"] in
  let all_data := fst (eval (sample_process_files files) Sample.world) in
  let out := log (exec (sample_generate None files "out.html") Sample.world) in
  nth_error files 1 = Some "data/bad.tml"
  /\ sample_parse "data/bad.tml" = Raise "no element found: line 1, column 11"
  /\ (exists d msg,
         nth_error all_data 1 = Some d
         /\ no_parsed_content d
         /\ In (EvPrint (error_line "data/bad.tml" msg)) out)
  /\ List.length all_data = 3.
Proof.
  cbv zeta.
  assert (Hp : sample_parse "data/bad.tml"
               = Raise "no element found: line 1, column 11")
    by (vm_compute; reflexivity).
  pose proof (parse_failure_is_logged_and_skipped Sample.decode_utf8
                Sample.encode_utf8 Sample.XMLParser Sample.os_error
                Sample.Path_name Sample.json_dumps_graph Sample.json_dumps
                Sample.style_sheet Sample.client_script None Sample.d3_path
                Sample.py_len Sample.same_file ["data/a.tml"; "data/bad.tml"; "data/b.tml"] "out.html"
                Sample.world 1 "data/bad.tml" _ eq_refl Hp) as H.
  cbv zeta in H. destruct H as (Hd & _ & Hl & _).
  split; [reflexivity|]. split; [exact Hp|]. split; [exact Hd | exact Hl].
Defined.

(** C2 as stated fails on [data/latin1.tml]: the read inside [parse_file]
    raises and the error is printed, the record has no event, and yet the
    plain text parsed out of the file by [get_plain_text] is in the record
    the document is built from. *)
Lemma undecodable_file_still_contributes_plain_text :
  let files := ["data/latin1.tml"] in
  let all_data := fst (eval (sample_process_files files) Sample.world) in
  let out := log (exec (sample_generate None files "out.html") Sample.world) in
  let msg :=
    "'utf-8' codec can't decode byte 0xe9 in position 57: invalid continuation byte" in
  sample_read "data/latin1.tml" = Raise msg
  /\ In (EvPrint (error_line "data/latin1.tml" msg)) out
  /\ map d_events all_data = [0]
  /\ map d_plain_text all_data = ["caf" +++ Sample.e_acute]
  /\ (exists d, nth_error all_data 0 = Some d /\ ~ no_parsed_content d).
Proof.
  cbv zeta. split; [vm_compute; reflexivity|]. split.
  - unfold sample_generate. apply files_log_in_log.
    apply (parser_log_in_files_log Sample.decode_utf8 Sample.XMLParser
             Sample.os_error Sample.Path_name Sample.world
             ["data/latin1.tml"] "data/latin1.tml");
      [left; reflexivity|].
    vm_compute. right. left. reflexivity.
  - split; [vm_compute; reflexivity|]. split; [vm_compute; reflexivity|].
    eexists. split; [vm_compute; reflexivity|].
    intros (_ & _ & _ & _ & _ & _ & _ & H). discriminate H.
Defined.

(** C3 as stated fails when [d3.v7.min.js] is not beside the script: the
    run warns that the CDN is used and the document loads D3 from
    [d3js.org]. *)
Lemma missing_bundle_falls_back_to_cdn :
  let files := ["data/a.tml"] in
  let st := eval (sample_process_files files) Sample.world in
  let out := log (exec (sample_generate None files "out.html") Sample.world) in
  In (EvPrint "  Warning: d3.v7.min.js not found, using CDN (requires internet)")
    out
  /\ In (EvOpenWrite "out.html"
           (head_open Sample.style_sheet 1 +++ script_close
              +++ q "<script src=`https://d3js.org/d3.v7.min.js`></script>"
              +++ sample_body 1 (fst st) (snd st))) out.
Proof.
  cbv zeta. unfold sample_generate, sample_process_files, sample_body.
  rewrite eval_process_files. cbn [fst snd]. split.
  - exact (notice_in_log Sample.decode_utf8 Sample.encode_utf8
             Sample.XMLParser Sample.os_error Sample.Path_name
             Sample.json_dumps_graph Sample.json_dumps Sample.style_sheet
             Sample.client_script None Sample.d3_path Sample.py_len
             Sample.same_file ["data/a.tml"] "out.html" Sample.world).
  - pose proof (write_in_log Sample.decode_utf8 Sample.encode_utf8
                  Sample.XMLParser Sample.os_error Sample.Path_name
                  Sample.json_dumps_graph Sample.json_dumps Sample.style_sheet
                  Sample.client_script None Sample.d3_path Sample.py_len
                  Sample.same_file ["data/a.tml"] "out.html" Sample.world)
      as W.
    rewrite document_head, page_head_cases in W. exact W.
Defined.

(** C4 (as amended) on [data/b.tml], alone and followed by
    [data/a.tml]: the record is the same. *)
Lemma file_record_on_sample :
  let files1 := ["data/b.tml"; "data/a.tml"] in
  let files2 := ["data/b.tml"] in
  nth_error files1 0 = Some "data/b.tml"
  /\ nth_error files2 0 = Some "data/b.tml"
  /\ nth_error (fst (eval (sample_process_files files1) Sample.world)) 0
     = nth_error (fst (eval (sample_process_files files2) Sample.world)) 0.
Proof.
  cbv zeta.
  pose proof (file_record_depends_on_own_file Sample.decode_utf8
                Sample.XMLParser Sample.os_error Sample.Path_name
                ["data/b.tml"; "data/a.tml"] ["data/b.tml"] Sample.world
                Sample.world 0 0 "data/b.tml" eq_refl eq_refl eq_refl) as H.
  cbv zeta in H. destruct H as (H & _).
  split; [reflexivity|]. split; [reflexivity | exact H].
Defined.

(** C4 as stated fails: [data/b.tml] has the same record whether or not
    [data/a.tml] follows it, but its tab content differs, because the
    header of every panel lists the tasks found anywhere in the corpus. *)
Lemma other_file_changes_tab_content :
  let with_a :=
    eval (sample_process_files ["data/b.tml"; "data/a.tml"]) Sample.world in
  let alone := eval (sample_process_files ["data/b.tml"]) Sample.world in
  let panels st :=
    map (fun item => tab_content (snd st) (fst item) (snd item))
      (enumerate 0 (fst st)) in
  nth_error (fst with_a) 0 = nth_error (fst alone) 0
  /\ snd with_a = ["A"]
  /\ snd alone = []
  /\ option_map String.length (nth_error (panels with_a) 0) = Some 1849
  /\ option_map String.length (nth_error (panels alone) 0) = Some 1794
  /\ nth_error (panels with_a) 0 <> nth_error (panels alone) 0.
Proof.
  cbv zeta.
  assert (L1 : option_map String.length
                 (nth_error
                    (map (fun item =>
                            tab_content
                              (snd (eval (sample_process_files
                                            ["data/b.tml"; "data/a.tml"])
                                      Sample.world)) (fst item) (snd item))
                       (enumerate 0
                          (fst (eval (sample_process_files
                                        ["data/b.tml"; "data/a.tml"])
                                  Sample.world)))) 0) = Some 1849)
    by (vm_compute; reflexivity).
  assert (L2 : option_map String.length
                 (nth_error
                    (map (fun item =>
                            tab_content
                              (snd (eval (sample_process_files ["data/b.tml"])
                                      Sample.world)) (fst item) (snd item))
                       (enumerate 0
                          (fst (eval (sample_process_files ["data/b.tml"])
                                  Sample.world)))) 0) = Some 1794)
    by (vm_compute; reflexivity).
  split; [vm_compute; reflexivity|]. split; [vm_compute; reflexivity|].
  split; [vm_compute; reflexivity|]. split; [exact L1|]. split; [exact L2|].
  intros E. rewrite E in L1. rewrite L1 in L2. discriminate L2.
Defined.

(** C8 as stated fails when the output path names one of the input files,
    be it by the same path or by another path to the same file: the run
    completes and overwrites that input file with the document. *)
Lemma output_path_may_overwrite_an_input :
  let files := ["data/a.tml"] in
  let r := sample_run None files "data/a.tml" Sample.world in
  let r' := sample_run None files "./data/a.tml" Sample.world in
  In "data/a.tml" files
  /\ fst r = Ok tt
  /\ fs Sample.world "data/a.tml" = Some Sample.doc_a
  /\ fs (snd r) "data/a.tml"
     = Some (Sample.encode_utf8 (sample_document None files))
  /\ option_map (substring 0 9) (fs Sample.world "data/a.tml")
     = Some "<TimeML><"
  /\ option_map (substring 0 9) (fs (snd r) "data/a.tml") = Some "<!DOCTYPE"
  /\ fs (snd r) "data/a.tml" <> fs Sample.world "data/a.tml"
  /\ fst r' = Ok tt
  /\ option_map (substring 0 9) (fs (snd r') "data/a.tml") = Some "<!DOCTYPE"
  /\ fs (snd r') "data/a.tml" <> fs Sample.world "data/a.tml".
Proof.
  cbv zeta.
  assert (P1 : option_map (substring 0 9) (fs Sample.world "data/a.tml")
               = Some "<TimeML><") by (vm_compute; reflexivity).
  assert (P2 : option_map (substring 0 9)
                 (fs (snd (sample_run None ["data/a.tml"] "data/a.tml"
                             Sample.world)) "data/a.tml") = Some "<!DOCTYPE")
    by (vm_compute; reflexivity).
  assert (P3 : option_map (substring 0 9)
                 (fs (snd (sample_run None ["data/a.tml"] "./data/a.tml"
                             Sample.world)) "data/a.tml") = Some "<!DOCTYPE")
    by (vm_compute; reflexivity).
  split; [left; reflexivity|]. split; [vm_compute; reflexivity|].
  split; [reflexivity|]. split.
  - unfold sample_run, sample_document.
    rewrite generate_or_raise_spec. cbn [bundle_fails snd]. unfold exec.
    rewrite generate_spec. reflexivity.
  - split; [exact P1|]. split; [exact P2|]. split.
    + intros E. rewrite E in P2. rewrite P1 in P2. discriminate P2.
    + split; [vm_compute; reflexivity|]. split; [exact P3|].
      intros E. rewrite E in P3. rewrite P1 in P3. discriminate P3.
Defined.


(* ================================================================== *)
(** ** [main] and the further properties on the sample corpus *)

(** The directory [data] holds the five sample files, which the glob
    yields in no particular order; [empty] holds none; any other directory
    is missing. *)
Definition sample_glob (directory : string) : option (list string) :=
  if String.eqb directory "data"
  then Some ["data/dup.tml"; "data/b.tml"; "data/latin1.tml"; "data/a.tml";
             "data/bad.tml"]
  else if String.eqb directory "empty" then Some []
  else None.

Definition sample_main (d3_bundle : option string) : Args -> IO (option nat) :=
  main Sample.decode_utf8 Sample.encode_utf8 Sample.XMLParser Sample.os_error
    Sample.Path_name Sample.json_dumps_graph Sample.json_dumps
    Sample.style_sheet Sample.client_script d3_bundle Sample.d3_path Sample.py_len Sample.same_file sample_glob.

Definition sample_event : Element :=
  Elem "EVENT" [("eid", "e1"); ("class", "OCCURRENCE")] (Some "left")
    (Some " on ") [].

Definition sample_timex : Element :=
  Elem "TIMEX3" [("tid", "t1"); ("value", "1998-01-08")] (Some "Thursday")
    (Some ".") [].

Definition sample_sentence : Element :=
  Elem "s" [] (Some "He ") None [sample_event; sample_timex].

Definition sample_link : Link :=
  {| source := 0; target := 1; relation := Some "BEFORE";
     sourceId := Some "e1"; targetId := Some "t1" |}.

(** X1 on a missing and an empty directory. *)
Lemma main_exits_on_sample :
  let args := {| directories := ["missing"; "empty"]; output := "out.html";
                 limit := None |} in
  found_in sample_glob (directories args) = []
  /\ eval (sample_main None args) Sample.world = Some 1
  /\ fs (exec (sample_main None args) Sample.world) = fs Sample.world.
Proof.
  cbv zeta.
  assert (H : found_in sample_glob ["missing"; "empty"] = [])
    by reflexivity.
  pose proof (main_exits_when_nothing_found Sample.decode_utf8
                Sample.encode_utf8 Sample.XMLParser Sample.os_error
                Sample.Path_name Sample.json_dumps_graph Sample.json_dumps
                Sample.style_sheet Sample.client_script None Sample.d3_path Sample.py_len Sample.same_file sample_glob
                {| directories := ["missing"; "empty"]; output := "out.html";
                   limit := None |} Sample.world H) as (He & Hf & _).
  split; [exact H|]. split; [exact He | exact Hf].
Defined.

(** X2 on a missing directory followed by [data], with [--limit 2]: the
    files of [data] are taken in ascending order, not in the order of the
    glob. *)
Lemma main_runs_generate_on_sample :
  let args := {| directories := ["missing"; "data"]; output := "out.html";
                 limit := Some 2%Z |} in
  found_in sample_glob (directories args) <> []
  /\ sample_glob "data"
     = Some ["data/dup.tml"; "data/b.tml"; "data/latin1.tml"; "data/a.tml";
             "data/bad.tml"]
  /\ found_in sample_glob (directories args)
     = ["data/a.tml"; "data/b.tml"; "data/bad.tml"; "data/dup.tml";
        "data/latin1.tml"]
  /\ Sorted leb_prop (dir_files_of sample_glob "data")
  /\ apply_limit (limit args) (found_in sample_glob (directories args))
     = ["data/a.tml"; "data/b.tml"]
  /\ eval (sample_main None args) Sample.world = None.
Proof.
  cbv zeta.
  assert (H : found_in sample_glob ["missing"; "data"] <> [])
    by discriminate.
  pose proof (main_runs_generate_on_found_files Sample.decode_utf8
                Sample.encode_utf8 Sample.XMLParser Sample.os_error
                Sample.Path_name Sample.json_dumps_graph Sample.json_dumps
                Sample.style_sheet Sample.client_script None Sample.d3_path
                Sample.py_len Sample.same_file sample_glob
                {| directories := ["missing"; "data"]; output := "out.html";
                   limit := Some 2%Z |} Sample.world H) as (He & _ & _ & Hd).
  specialize (Hd "data"). cbn [sample_glob String.eqb Ascii.eqb Bool.eqb] in Hd.
  destruct Hd as (Hsorted & _).
  split; [exact H|]. split; [reflexivity|]. split; [reflexivity|].
  split; [exact Hsorted|]. split; [reflexivity | exact He].
Defined.

(** X3 with [--limit 2] on three files. *)
Lemma positive_limit_on_sample :
  (0 < 2)%Z
  /\ apply_limit (Some 2%Z) ["data/a.tml"; "data/b.tml"; "data/bad.tml"]
     = ["data/a.tml"; "data/b.tml"].
Proof.
  assert (H : (0 < 2)%Z) by reflexivity.
  split; [exact H|].
  exact (proj1 (positive_limit_keeps_first_files 2
                  ["data/a.tml"; "data/b.tml"; "data/bad.tml"] H)).
Defined.

(** X7 on the link of [data/a.tml]. *)
Lemma relation_text_on_sample :
  let self := eval (sample_parser "data/a.tml") Sample.world in
  In sample_link (snd (get_graph_data self))
  /\ lookup_text (lookup_of (fst (get_graph_data self))) (Some "e1") = "left"
  /\ lookup_text (lookup_of (fst (get_graph_data self))) (Some "t1")
     = "Thursday".
Proof.
  cbv zeta.
  assert (H : In sample_link
                (snd (get_graph_data
                        (eval (sample_parser "data/a.tml") Sample.world))))
    by (vm_compute; left; reflexivity).
  pose proof (relation_text_is_node_text _ _ H) as R. cbv zeta in R.
  destruct R as (ns & nt & Hs & Ht & _ & _ & Ls & Lt).
  split; [exact H|].
  assert (Es : ns = EventNode (Some "e1") "left" "left" (Some "OCCURRENCE")).
  { vm_compute in Hs. now injection Hs as <-. }
  assert (Et : nt = TimexNode (Some "t1") "Thursday" "Thursday"
                      (Some "1998-01-08")).
  { vm_compute in Ht. now injection Ht as <-. }
  subst ns nt. split; [exact Ls | exact Lt].
Defined.

(** X12 on the sentence of [data/a.tml]. *)
Lemma span_title_on_sample :
  let p := eval (sample_parser "data/a.tml") Sample.world in
  sample_read "data/a.tml" = Ok Sample.doc_a
  /\ sample_parse "data/a.tml" = Ok Sample.tree_a
  /\ In sample_sentence (ET.findall Sample.tree_a "s")
  /\ In sample_event (ET.children sample_sentence)
  /\ In sample_event (ET.findall Sample.tree_a "EVENT").
Proof.
  cbv zeta.
  assert (Hr : sample_read "data/a.tml" = Ok Sample.doc_a)
    by (vm_compute; reflexivity).
  assert (Hp : sample_parse "data/a.tml" = Ok Sample.tree_a)
    by (vm_compute; reflexivity).
  assert (Hs : In sample_sentence (ET.findall Sample.tree_a "s"))
    by (left; reflexivity).
  assert (Hc : In sample_event (ET.children sample_sentence))
    by (left; reflexivity).
  pose proof (span_title_comes_from_the_dictionaries Sample.decode_utf8
                Sample.XMLParser Sample.os_error "data/a.tml" Sample.world
                Sample.doc_a Sample.tree_a sample_sentence sample_event
                Hr Hp Hs Hc) as T.
  cbv zeta in T. destruct T as [T _].
  destruct (T eq_refl) as [Hin _].
  split; [exact Hr|]. split; [exact Hp|]. split; [exact Hs|].
  split; [exact Hc | exact Hin].
Defined.

(** X13 on [data/a.tml]. *)
Lemma plain_text_on_sample :
  sample_parse "data/a.tml" = Ok Sample.tree_a
  /\ d_plain_text
       (file_record Sample.decode_utf8 Sample.XMLParser Sample.os_error
          Sample.Path_name "data/a.tml" (fs Sample.world "data/a.tml"))
     = "He left on Thursday.".
Proof.
  assert (Hp : sample_parse "data/a.tml" = Ok Sample.tree_a)
    by (vm_compute; reflexivity).
  pose proof (plain_text_has_a_line_per_sentence Sample.decode_utf8
                Sample.XMLParser Sample.os_error Sample.Path_name
                "data/a.tml" Sample.world Sample.tree_a Hp) as T.
  cbv zeta in T. destruct T as (T & _).
  split; [exact Hp|]. rewrite T. vm_compute. reflexivity.
Defined.
